(** * Swiftwallet STK push: reconciliation and live notification

    A shallow embedding of the Express/Firestore service of the
    repository.  [src/unnamed/part_000] holds three deployments one
    after the other; the one with the server-sent-event hub (lines
    156-662) is module [Server], the two without hub are modules [First]
    (lines 1-154) and [Third] (lines 664-882).  The deployment of
    [src/server.js], without hub as well, is module [Legacy].

    Handlers are modelled as functions on an explicit [world] (the two
    Firestore collections, the registry of live connections and a trace
    of effects).  Each handler runs to completion before the next one
    starts: interleavings at [await] points are not part of the model.

    Numbers are rounded to binary64 where JavaScript rounds them.  Two
    things are left to the environment and appear as preconditions of
    the theorems that depend on them: what Firestore accepts as a
    document id and as data ([Firestore.plain_name], [Firestore.plain]),
    and the case mapping of characters outside ASCII ([Js.is_ascii]). *)

From Stdlib Require Import ZArith QArith Qround Qpower Qabs Lqa String Ascii List Sorted Permutation.
From stdpp Require Import gmap strings list fin_maps pretty.

Local Open Scope string_scope.
Local Open Scope Z_scope.

(* ===================================================================== *)
(** * JavaScript values *)
(* ===================================================================== *)

(** A JavaScript number.  A finite number is a rational kept in lowest
    terms; what an addition or the reading of a numeric literal yields
    is rounded to binary64 ([Js.binary64] below).  The sign of zero is
    not modelled.  [NaN] and the infinities are kept because the guards
    of the handlers test for them. *)
Inductive number :=
  | NaN
  | PosInf
  | NegInf
  | Fin (q : Q).

(** Runtime values: what [JSON.parse] produces, [undefined], and the
    Firestore [Timestamp] object that server timestamps resolve to.  A
    string is the sequence of bytes of its UTF-8 encoding. *)
#[local] Unset Elimination Schemes.
Inductive value :=
  | VUndef
  | VNull
  | VBool (b : bool)
  | VNum (n : number)
  | VStr (s : string)
  | VArr (xs : list value)
  | VObj (fields : list (string * value))
  | VTime (t : Z).
#[local] Set Elimination Schemes.

(** An object: its fields in order. *)
Abbreviation obj := (list (string * value)).

(** Exceptions: the handlers only ever observe that something was thrown. *)
Inductive outcome (A : Type) :=
  | Ok (a : A)
  | Throw (msg : string).
Arguments Ok {A} a.
Arguments Throw {A} msg.

Definition bind {A B} (m : outcome A) (k : A -> outcome B) : outcome B :=
  match m with
  | Ok a => k a
  | Throw e => Throw e
  end.

Notation "'do' x <- m ; k" := (bind m (fun x => k))
  (at level 10, x name, m at level 100, k at level 200).

Module Js.

(** ** Numbers *)

Definition max_double : Q := inject_Z (2 ^ 1024).

(** An integer that is computed without rounding: the reading of the
    clock and the result of [Math.round], which is an integer that
    binary64 holds exactly whenever its argument is a binary64 number.
    At or beyond 2^1024 in magnitude it is an infinity. *)
Definition norm (q : Q) : number :=
  if Qle_bool max_double q then PosInf
  else if Qle_bool q (- max_double) then NegInf
  else Fin (Qred q).

Definition zero : number := Fin 0.
Definition of_Z (z : Z) : number := norm (inject_Z z).

(** *** Rounding to binary64 *)

(** [floor (log2 x)] for a positive [x]. *)
Definition log2_floor (x : Q) : Z :=
  let k := Z.log2 (Qnum x) - Z.log2 (Zpos (Qden x)) in
  if Qle_bool (2 ^ k) x then k else k - 1.

(** The integer nearest to [x], the even one when two are equally near. *)
Definition nearest_even (x : Q) : Z :=
  let f := Qfloor x in
  match (x - inject_Z f ?= 1 # 2)%Q with
  | Lt => f
  | Gt => f + 1
  | Eq => if Z.even f then f else f + 1
  end.

(** A positive [x] rounded to the nearest number [m * 2^e] with [m]
    below 2^53 and [e] at least -1074, ties going to the even [m]; what
    rounds to 2^1024 or beyond is infinite. *)
Definition round_positive (x : Q) : number :=
  let e := Z.max (log2_floor x - 52) (-1074) in
  let m := nearest_even (x / 2 ^ e) in
  if (971 <? e) || ((e =? 971) && (2 ^ 53 <=? m)) then PosInf
  else Fin (Qred (inject_Z m * 2 ^ e)).

Definition negate (n : number) : number :=
  match n with
  | NaN => NaN
  | PosInf => NegInf
  | NegInf => PosInf
  | Fin q => Fin (Qred (- q))
  end.

(** The binary64 number nearest to [q]: round to nearest, ties to even,
    with gradual underflow and overflow to the infinities. *)
Definition binary64 (q : Q) : number :=
  let r := Qred q in
  match Qnum r with
  | Z0 => Fin 0
  | Zpos _ => round_positive r
  | Zneg _ => negate (round_positive (- r))
  end.

(** A finite number that binary64 holds: rounding leaves it as it is. *)
Definition is_binary64 (n : number) : bool :=
  match n with
  | Fin q =>
      match binary64 q with
      | Fin r => Qeq_bool r q
      | _ => false
      end
  | _ => false
  end.

(** [a + b] on numbers: the exact sum, rounded. *)
Definition add (a b : number) : number :=
  match a, b with
  | NaN, _ | _, NaN => NaN
  | PosInf, NegInf | NegInf, PosInf => NaN
  | PosInf, _ | _, PosInf => PosInf
  | NegInf, _ | _, NegInf => NegInf
  | Fin x, Fin y => binary64 (x + y)
  end.

(** [a < b] and [a <= b] on numbers; every comparison with [NaN] is false. *)
Definition lt (a b : number) : bool :=
  match a, b with
  | NaN, _ | _, NaN => false
  | _, NegInf => false
  | NegInf, _ => true
  | PosInf, _ => false
  | Fin _, PosInf => true
  | Fin x, Fin y => negb (Qle_bool y x)
  end.

Definition le (a b : number) : bool :=
  match a, b with
  | NaN, _ | _, NaN => false
  | NegInf, _ => true
  | _, PosInf => true
  | _, NegInf => false
  | PosInf, _ => false
  | Fin x, Fin y => Qle_bool x y
  end.

Definition isNaN (a : number) : bool :=
  match a with NaN => true | _ => false end.

(** [Number.isFinite] applied to a number. *)
Definition isFinite (a : number) : bool :=
  match a with Fin _ => true | _ => false end.

Definition is_zero (a : number) : bool :=
  match a with Fin q => Qeq_bool q 0 | _ => false end.

(** [Math.round]: the nearest integer, ties towards positive infinity. *)
Definition round (a : number) : number :=
  match a with
  | Fin q => of_Z (Qfloor (q + (1 # 2)))
  | other => other
  end.

(** ** Characters and strings *)

Definition code (c : ascii) : Z := Z.of_N (N_of_ascii c).

Definition is_digit (c : ascii) : bool := (48 <=? code c) && (code c <=? 57).

Definition digit_val (c : ascii) : Z := code c - 48.

(** The ASCII blanks: tab, line feed, vertical tab, form feed, carriage
    return and space. *)
Definition is_blank (c : ascii) : bool :=
  ((9 <=? code c) && (code c <=? 13)) || (code c =? 32).

(** The three-byte encodings of the other blanks: U+1680, U+2000 to
    U+200A, the line and paragraph separators U+2028 and U+2029, U+202F,
    U+205F, U+3000 and the byte order mark U+FEFF. *)
Definition wide_blank (a b c : Z) : bool :=
  ((a =? 225) && (b =? 154) && (c =? 128))
  || ((a =? 226) && (b =? 128)
      && (((128 <=? c) && (c <=? 138)) || (c =? 168) || (c =? 169) || (c =? 175)))
  || ((a =? 226) && (b =? 129) && (c =? 159))
  || ((a =? 227) && (b =? 128) && (c =? 128))
  || ((a =? 239) && (b =? 187) && (c =? 191)).

(** The number of bytes of the blank character that [s] starts with, 0
    when it starts with none.  These are the white space and the line
    terminators that the numeric conversions skip: the ASCII blanks, the
    no-break space U+00A0 (two bytes) and the ones of three bytes. *)
Definition blank_width (s : string) : nat :=
  match s with
  | String c s1 =>
      if is_blank c then 1%nat
      else
        match s1 with
        | String c2 s2 =>
            if (code c =? 194) && (code c2 =? 160) then 2%nat
            else
              match s2 with
              | String c3 _ =>
                  if wide_blank (code c) (code c2) (code c3) then 3%nat else 0%nat
              | EmptyString => 0%nat
              end
        | EmptyString => 0%nat
        end
  | EmptyString => 0%nat
  end.

Fixpoint drop_bytes (n : nat) (s : string) : string :=
  match n, s with
  | S n', String _ s' => drop_bytes n' s'
  | _, _ => s
  end.

(** Every byte is below 128. *)
Fixpoint is_ascii (s : string) : bool :=
  match s with
  | EmptyString => true
  | String c s' => (code c <? 128) && is_ascii s'
  end.

Definition lower_char (c : ascii) : ascii :=
  if (65 <=? code c) && (code c <=? 90)
  then ascii_of_N (N_of_ascii c + 32) else c.

Definition upper_char (c : ascii) : ascii :=
  if (97 <=? code c) && (code c <=? 122)
  then ascii_of_N (N_of_ascii c - 32) else c.

Fixpoint map_chars (f : ascii -> ascii) (s : string) : string :=
  match s with
  | EmptyString => EmptyString
  | String c s' => String (f c) (map_chars f s')
  end.

(** [s.toLowerCase()] and [s.toUpperCase()]: the ASCII letters are
    mapped and every other byte is kept.  On a string that [is_ascii]
    this is what JavaScript computes; the case mappings of the other
    characters are not modelled.  In lower case the only ASCII letters
    that such a character can turn into are [i] and [k], so the
    comparisons of the handlers with "completed" and "success" are not
    affected; in upper case some of them turn into [S], [F] or [I]. *)
Definition toLowerCase : string -> string := map_chars lower_char.
Definition toUpperCase : string -> string := map_chars upper_char.

(** [s.startsWith(p)] *)
Definition startsWith (p s : string) : bool := String.prefix p s.

(** [s.includes(p)] *)
Fixpoint includes (p s : string) : bool :=
  String.prefix p s ||
  match s with
  | EmptyString => false
  | String _ s' => includes p s'
  end.

(** [s.replace(/\D/g, '')]: keep the decimal digits. *)
Fixpoint only_digits (s : string) : string :=
  match s with
  | EmptyString => EmptyString
  | String c s' =>
      if is_digit c then String c (only_digits s') else only_digits s'
  end.

(** [s.substring(1)] *)
Definition substring1 (s : string) : string :=
  match s with
  | EmptyString => EmptyString
  | String _ s' => s'
  end.

(** [s] without the blanks it starts with; [fuel] bounds their number. *)
Fixpoint skip_blanks_from (fuel : nat) (s : string) : string :=
  match fuel with
  | O => s
  | S fuel' =>
      match blank_width s with
      | O => s
      | n => skip_blanks_from fuel' (drop_bytes n s)
      end
  end.

Definition skip_blanks (s : string) : string :=
  skip_blanks_from (String.length s) s.

Definition all_blank (s : string) : bool :=
  String.eqb (skip_blanks s) "".

(** ** Strings to numbers *)

Fixpoint read_digits (s : string) (acc : Z) (n : nat) : Z * nat * string :=
  match s with
  | String c s' =>
      if is_digit c then read_digits s' (10 * acc + digit_val c) (S n)
      else (acc, n, s)
  | EmptyString => (acc, n, s)
  end.

(** An optional sign: [1] or [-1] and the rest of the input. *)
Definition read_sign (s : string) : Z * string :=
  match s with
  | String "+" s' => (1, s')
  | String "-" s' => (-1, s')
  | _ => (1, s)
  end.

(** An optional exponent part [e], [e+] or [e-] followed by digits; an
    incomplete one is not consumed. *)
Definition read_exponent (s : string) : Z * string :=
  match s with
  | String c s1 =>
      if (code c =? 101) || (code c =? 69) then
        let '(sg, s2) := read_sign s1 in
        let '(v, n, s3) := read_digits s2 0 0 in
        match n with
        | O => (0, s)
        | S _ => (sg * v, s3)
        end
      else (0, s)
  | EmptyString => (0, s)
  end.

(** The value [m * 10^e] of a decimal literal. *)
Definition scale10 (m e : Z) : Q :=
  if 0 <=? e then inject_Z (m * 10 ^ e)
  else Qmake m (Z.to_pos (10 ^ (- e))).

(** The longest prefix that is an unsigned decimal literal: digits, an
    optional fraction and an optional exponent, with at least one digit
    before the exponent. *)
Definition read_unsigned_decimal (s : string) : option (Q * string) :=
  let '(i, ni, s1) := read_digits s 0 0 in
  let '(f, nf, s2) :=
    match s1 with
    | String "." s1' =>
        let '(f, nf, r) := read_digits s1' 0 0 in
        match ni, nf with
        | O, O => (0, O, s1)
        | _, _ => (f, nf, r)
        end
    | _ => (0, O, s1)
    end in
  match (ni + nf)%nat with
  | O => None
  | S _ =>
      let '(e, s3) := read_exponent s2 in
      Some (scale10 (i * 10 ^ Z.of_nat nf + f) (e - Z.of_nat nf), s3)
  end.

(** A signed decimal literal or [Infinity]. *)
Definition read_decimal (s : string) : option (number * string) :=
  let '(sg, s1) := read_sign s in
  if String.prefix "Infinity" s1
  then Some (if sg =? 1 then PosInf else NegInf,
             string_of_list_ascii (drop 8 (list_ascii_of_string s1)))
  else match read_unsigned_decimal s1 with
       | Some (q, rest) => Some (binary64 (inject_Z sg * q), rest)
       | None => None
       end.

(** [parseFloat] of a string: leading blanks are skipped and whatever
    follows the literal is ignored. *)
Definition parseFloat_string (s : string) : number :=
  match read_decimal (skip_blanks s) with
  | Some (n, _) => n
  | None => NaN
  end.

Definition hex_val (c : ascii) : option Z :=
  if is_digit c then Some (digit_val c)
  else if (97 <=? code c) && (code c <=? 102) then Some (code c - 87)
  else if (65 <=? code c) && (code c <=? 70) then Some (code c - 55)
  else None.

(** The digits of base [b] that [s] starts with: their value, their
    number and the rest of [s]. *)
Fixpoint read_radix (b : Z) (s : string) (acc : Z) (n : nat) : Z * nat * string :=
  match s with
  | String c s' =>
      match hex_val c with
      | Some d => if d <? b then read_radix b s' (b * acc + d) (S n) else (acc, n, s)
      | None => (acc, n, s)
      end
  | EmptyString => (acc, n, s)
  end.

Definition radix_of (c : ascii) : option Z :=
  match code (lower_char c) with
  | 120 => Some 16
  | 111 => Some 8
  | 98 => Some 2
  | _ => None
  end.

(** [Number(s)] for a string: blanks are trimmed on both sides, the empty
    string is [0] and the whole remainder has to be one numeric literal. *)
Definition number_of_string (s : string) : number :=
  let t := skip_blanks s in
  if all_blank t then zero
  else
    let radix :=
      match t with
      | String "0" (String c ds) =>
          match radix_of c with
          | Some b => Some (b, ds)
          | None => None
          end
      | _ => None
      end in
    match radix with
    | Some (b, ds) =>
        (* at least one digit, and only blanks after the digits *)
        let '(z, n, rest) := read_radix b ds 0 0 in
        match n with
        | O => NaN
        | S _ => if all_blank rest then binary64 (inject_Z z) else NaN
        end
    | None =>
        match read_decimal t with
        | Some (n, rest) => if all_blank rest then n else NaN
        | None => NaN
        end
    end.

(** ** Numbers to strings *)

(** The least [j] below the fuel with [a * 10^j] divisible by [b]. *)
Fixpoint decimal_places (fuel : nat) (a b : Z) (j : Z) : Z :=
  match fuel with
  | O => j
  | S fuel' =>
      if (a * 10 ^ j) mod b =? 0 then j else decimal_places fuel' a b (j + 1)
  end.

Fixpoint strip_zeros (fuel : nat) (m : Z) : Z :=
  match fuel with
  | O => m
  | S fuel' => if (m mod 10 =? 0) && negb (m =? 0)
               then strip_zeros fuel' (m / 10) else m
  end.

Definition zeros (n : Z) : string :=
  string_of_list_ascii (repeat "0"%char (Z.to_nat n)).

Definition str_take (n : Z) (s : string) : string :=
  string_of_list_ascii (take (Z.to_nat n) (list_ascii_of_string s)).

Definition str_drop (n : Z) (s : string) : string :=
  string_of_list_ascii (drop (Z.to_nat n) (list_ascii_of_string s)).

(** [Number.prototype.toString] for a positive finite number: the decimal
    digits [s] (no trailing zero), their count [k] and the position [n]
    of the decimal point select one of the four notations.  The digits
    are those of the exact decimal expansion.  For a whole number below
    2^53, such as the clock readings and the rounded amounts that the
    handlers print, these are the digits JavaScript prints.  For the
    other numbers JavaScript prints the shortest digits that are read
    back as the same number; the expansion is read back as that number
    too. *)
Definition string_of_positive (q : Q) : string :=
  let a := Qnum q in
  let b := Zpos (Qden q) in
  let j := decimal_places 1100 a b 0 in
  let m := (a * 10 ^ j) / b in
  let len_m := Z.of_nat (String.length (pretty m)) in
  let s := pretty (strip_zeros 1100 m) in
  let k := Z.of_nat (String.length s) in
  let n := len_m - j in
  if (k <=? n) && (n <=? 21) then s ++ zeros (n - k)
  else if (0 <? n) && (n <=? 21) then str_take n s ++ "." ++ str_drop n s
  else if (-6 <? n) && (n <=? 0) then "0." ++ zeros (- n) ++ s
  else
    let e := n - 1 in
    let mant := if k =? 1 then s else str_take 1 s ++ "." ++ str_drop 1 s in
    mant ++ "e" ++ (if e <? 0 then "-" else "+") ++ pretty (Z.abs e).

Definition string_of_number (a : number) : string :=
  match a with
  | NaN => "NaN"
  | PosInf => "Infinity"
  | NegInf => "-Infinity"
  | Fin q =>
      if Qeq_bool q 0 then "0"
      else if Qle_bool q 0 then "-" ++ string_of_positive (Qred (- q))
      else string_of_positive (Qred q)
  end.

(** ** Coercions of values *)

(** Truthiness, as tested by [!], [&&], [||] and [if]. *)
Definition truthy (v : value) : bool :=
  match v with
  | VUndef | VNull => false
  | VBool b => b
  | VNum NaN => false
  | VNum n => negb (is_zero n)
  | VStr s => negb (String.eqb s "")
  | VArr _ | VObj _ | VTime _ => true
  end.

(** [a || b] *)
Definition or_else (a b : value) : value := if truthy a then a else b.

Fixpoint lookup_field (k : string) (o : obj) : option value :=
  match o with
  | [] => None
  | (k', v) :: o' => if String.eqb k k' then Some v else lookup_field k o'
  end.

(** [v?.k]: [undefined] on [undefined] and [null].  Of the properties
    the handlers read, only objects can own one, so every other receiver
    answers [undefined] as well. *)
Definition get (v : value) (k : string) : value :=
  match v with
  | VObj o => default VUndef (lookup_field k o)
  | _ => VUndef
  end.

(** No name occurs twice. *)
Fixpoint distinct (names : list string) : bool :=
  match names with
  | [] => true
  | k :: ks => negb (existsb (String.eqb k) ks) && distinct ks
  end.

(** What [JSON.parse] can return: [null], booleans, finite binary64
    numbers, strings, arrays, and objects in which no field name occurs
    twice. *)
Fixpoint is_json (v : value) : bool :=
  match v with
  | VNull | VBool _ | VStr _ => true
  | VNum n => is_binary64 n
  | VArr xs => forallb is_json xs
  | VObj o => distinct (map fst o) && forallb (fun kv => is_json (snd kv)) o
  | VUndef | VTime _ => false
  end.

(** [v.k]: throws on [undefined] and [null]. *)
Definition get_strict (v : value) (k : string) : outcome value :=
  match v with
  | VUndef | VNull => Throw "TypeError: cannot read properties"
  | _ => Ok (get v k)
  end.

Definition join (sep : string) (parts : list string) : string :=
  match parts with
  | [] => ""
  | p :: ps => fold_left (fun acc x => acc ++ sep ++ x) ps p
  end.

(** [String(v)].  An array is its elements joined by commas, with
    [undefined] and [null] elements left empty. *)
Fixpoint to_string (v : value) : string :=
  match v with
  | VUndef => "undefined"
  | VNull => "null"
  | VBool true => "true"
  | VBool false => "false"
  | VNum n => string_of_number n
  | VStr s => s
  | VArr xs =>
      join ","
        (map (fun x => match x with
                       | VUndef | VNull => ""
                       | _ => to_string x
                       end) xs)
  | VObj _ | VTime _ => "[object Object]"
  end.

(** Objects and arrays take part in arithmetic through their string. *)
Definition to_primitive (v : value) : value :=
  match v with
  | VArr _ | VObj _ | VTime _ => VStr (to_string v)
  | _ => v
  end.

(** [Number(v)] *)
Definition to_number (v : value) : number :=
  match to_primitive v with
  | VUndef => NaN
  | VNull => zero
  | VBool true => Fin 1
  | VBool false => zero
  | VNum n => n
  | VStr s => number_of_string s
  | _ => NaN
  end.

(** [parseFloat(v)]: the argument is first converted to a string; a
    number is its own reading. *)
Definition parseFloat (v : value) : number :=
  match v with
  | VNum n => n
  | _ => parseFloat_string (to_string v)
  end.

(** [a + b]: concatenation as soon as one side is a string. *)
Definition plus (a b : value) : value :=
  match to_primitive a, to_primitive b with
  | VStr x, pb => VStr (x ++ to_string pb)
  | pa, VStr y => VStr (to_string pa ++ y)
  | pa, pb => VNum (add (to_number pa) (to_number pb))
  end.

(** [v === true], [v === 0] and [v === s] for a string literal [s]. *)
Definition is_true (v : value) : bool :=
  match v with VBool true => true | _ => false end.

Definition is_num_zero (v : value) : bool :=
  match v with VNum n => is_zero n | _ => false end.

Definition is_str (s : string) (v : value) : bool :=
  match v with VStr t => String.eqb t s | _ => false end.

(** [v.toLowerCase()], [v.toUpperCase()], [v.replace(...)]: only strings
    have these methods; calling them on anything else throws. *)
Definition as_string (v : value) : outcome string :=
  match v with
  | VStr s => Ok s
  | _ => Throw "TypeError: not a function"
  end.

End Js.


(* ===================================================================== *)
(** * The document store *)
(* ===================================================================== *)

(** Firestore as the handlers use it: two collections of documents keyed
    by strings, [set] with and without [merge], equality queries, one
    ordered query, and server timestamps. *)
Module Firestore.

Record store := {
  transactions : gmap string obj;
  users : gmap string obj;
  (** whether the composite index (phone, createdAt) behind the ordered
      query exists; without it that query is rejected *)
  index_ready : bool;
  (** the instant [FieldValue.serverTimestamp()] resolves to *)
  clock : Z;
}.

(** Writing one field: in place when present, appended otherwise. *)
Fixpoint set_field (k : string) (v : value) (o : obj) : obj :=
  match o with
  | [] => [(k, v)]
  | (k', v') :: o' =>
      if String.eqb k k' then (k, v) :: o' else (k', v') :: set_field k v o'
  end.

(** [set(data, { merge: true })]: the fields of [data] are written over
    the stored document, maps being merged field by field and every other
    stored field kept.  An empty map in [data] is written as it is. *)
Fixpoint merge_value (new old : value) {struct new} : value :=
  match new, old with
  | VObj [], _ => VObj []
  | VObj n, VObj o =>
      VObj ((fix go (n : obj) (o : obj) {struct n} : obj :=
               match n with
               | [] => o
               | (k, v) :: n' =>
                   go n' (set_field k
                            (match Js.lookup_field k o with
                             | Some ov => merge_value v ov
                             | None => v
                             end) o)
               end) n o)
  | _, _ => new
  end.

Fixpoint merge_fields (new old : obj) : obj :=
  match new with
  | [] => old
  | (k, v) :: new' =>
      merge_fields new'
        (set_field k
           (match Js.lookup_field k old with
            | Some ov => merge_value v ov
            | None => v
            end) old)
  end.

Definition merged (data : obj) (stored : option obj) : obj :=
  match stored with
  | Some d => merge_fields data d
  | None => data
  end.

(** [d.data().phone == p] and [d.data().status == s] of a [where]. *)
Definition field_is (k s : string) (d : obj) : bool :=
  Js.is_str s (Js.get (VObj d) k).

Definition created_at (d : obj) : option Z :=
  match Js.lookup_field "createdAt" d with
  | Some (VTime t) => Some t
  | _ => None
  end.

Fixpoint insert_by {A} (leb : A -> A -> bool) (x : A) (l : list A) : list A :=
  match l with
  | [] => [x]
  | y :: l' => if leb x y then x :: y :: l' else y :: insert_by leb x l'
  end.

Definition sort_by {A} (leb : A -> A -> bool) (l : list A) : list A :=
  fold_right (insert_by leb) [] l.

Definition by_id (a b : string * obj) : bool := String.leb (fst a) (fst b).

(** A document together with the instant of its [createdAt], when it is
    a timestamp. *)
Definition dated (e : string * obj) : option (Z * (string * obj)) :=
  match created_at (snd e) with
  | Some t => Some (t, e)
  | None => None
  end.

(** Newest first; documents created at the same instant by descending id. *)
Definition newest_first (a b : Z * (string * obj)) : bool :=
  (fst b <? fst a)
  || ((fst b =? fst a) && String.leb (fst (snd b)) (fst (snd a))).

(** [where("phone","==",p).where("status","==","SUCCESS").get()] *)
Definition successful_of (p : string) (s : store) : list (string * obj) :=
  sort_by by_id
    (List.filter (fun e => field_is "phone" p (snd e) &&
                           field_is "status" "SUCCESS" (snd e))
       (map_to_list (transactions s))).

(** [where("phone","==",p).orderBy("createdAt","desc").limit(5).get()]:
    an ordered query only returns documents that have the ordering field
    (the handlers only ever store a server timestamp there), and it is
    rejected while the index is missing. *)
Definition five_latest (p : string) (s : store) : list (Z * (string * obj)) :=
  take 5
    (sort_by newest_first
       (omap dated
          (List.filter (fun e => field_is "phone" p (snd e))
             (map_to_list (transactions s))))).

Definition latest_of (p : string) (s : store) : outcome (list (string * obj)) :=
  if index_ready s then Ok (map snd (five_latest p s))
  else Throw "FAILED_PRECONDITION: The query requires an index".

Definition tick (s : store) : store :=
  {| transactions := transactions s; users := users s;
     index_ready := index_ready s; clock := clock s + 1 |}.

(** [transactions.doc(id).set(data)] and [.set(data, {merge: true})] *)
Definition set_transaction (id : string) (data : obj) (merge : bool)
    (s : store) : store :=
  tick {| transactions :=
            <[id := if merge then merged data (transactions s !! id) else data]>
              (transactions s);
          users := users s;
          index_ready := index_ready s; clock := clock s |}.

Definition set_user (id : string) (data : obj) (merge : bool)
    (s : store) : store :=
  tick {| transactions := transactions s;
          users :=
            <[id := if merge then merged data (users s !! id) else data]>
              (users s);
          index_ready := index_ready s; clock := clock s |}.

(** [collection.doc(path)]: the path has to be a non-empty string.  What
    else Firestore asks of a path is not decided here; see [plain_name]. *)
Definition doc_id (v : value) : outcome string :=
  match v with
  | VStr "" => Throw "documentPath must be a non-empty string"
  | VStr s => Ok s
  | _ => Throw "documentPath must be a non-empty string"
  end.

(** A value that [set] accepts: [undefined] is rejected wherever it
    occurs in the data. *)
Fixpoint storable (v : value) : bool :=
  match v with
  | VUndef => false
  | VArr xs => forallb storable xs
  | VObj o => forallb (fun kv => storable (snd kv)) o
  | _ => true
  end.

(** ** What is certain to be accepted *)

(** Firestore refuses some document ids and field names (a path with a
    slash addresses another collection or is rejected, and so are the
    reserved names, the names that are too long and the empty field
    name) and some data (an array directly inside an array, maps nested
    too deeply, strings that are not valid Unicode).  These checks are
    spread over the client library and the backend, and [set] above does
    not decide them.  [plain_name] and [plain] describe the ids, the
    names and the data that pass every one of them.  The quotas on the
    size of a document are not part of the model. *)
Definition name_char (c : ascii) : bool :=
  Js.is_digit c
  || ((65 <=? Js.code c) && (Js.code c <=? 90))
  || ((97 <=? Js.code c) && (Js.code c <=? 122))
  || (Js.code c =? 95) || (Js.code c =? 45).

Fixpoint name_chars (s : string) : bool :=
  match s with
  | EmptyString => true
  | String c s' => name_char c && name_chars s'
  end.

(** One to a hundred letters, digits, underscores and hyphens, not
    starting with two underscores. *)
Definition plain_name (s : string) : bool :=
  negb (String.eqb s "") && (String.length s <=? 100)%nat
  && name_chars s && negb (String.prefix "__" s).

(** JSON data nested less than [depth] deep: [null], booleans, finite
    binary64 numbers, ASCII strings, arrays without an array as an
    element, and objects whose field names are plain and distinct. *)
Fixpoint plain (depth : nat) (v : value) : bool :=
  match depth with
  | O => false
  | S depth' =>
      match v with
      | VNull | VBool _ => true
      | VNum n => Js.is_binary64 n
      | VStr s => Js.is_ascii s
      | VArr xs =>
          forallb (fun x => match x with
                            | VArr _ => false
                            | _ => plain depth' x
                            end) xs
      | VObj o =>
          Js.distinct (map fst o)
          && forallb (fun kv => plain_name (fst kv) && plain depth' (snd kv)) o
      | VUndef | VTime _ => false
      end
  end.

(** A request body that can be stored as a field of a document. *)
Definition plain_payload (v : value) : bool := plain 16 v.

End Firestore.


Infix "|||" := Js.or_else (at level 50, left associativity).

(* ===================================================================== *)
(** * The world of the service *)
(* ===================================================================== *)

(** One live connection: the response object of its request and the
    heartbeat interval started for it. *)
Record client := { res : nat; hb : nat }.

(** What a handler does besides changing the stores. *)
Inductive event :=
  | Read (collection : string) (what : string)
  | Written (collection : string) (id : string)
  | Pushed (to : nat) (payload : value)
  | PushFailed (to : nat)
  | Posted (url : string) (payload : value) (timeout : option Z).

Record world := {
  db : Firestore.store;
  (** [sseClients]: phone -> connections, in order of arrival *)
  sseClients : gmap string (list client);
  (** the intervals that are running *)
  timers : gset nat;
  next_timer : nat;
  (** the responses on which [write] throws *)
  broken : gset nat;
  trace : list event;
}.

Definition log (e : event) (w : world) : world :=
  {| db := db w; sseClients := sseClients w; timers := timers w;
     next_timer := next_timer w; broken := broken w;
     trace := (trace w ++ [e])%list |}.

Definition with_db (s : Firestore.store) (w : world) : world :=
  {| db := s; sseClients := sseClients w; timers := timers w;
     next_timer := next_timer w; broken := broken w; trace := trace w |}.

(** A write to the [transactions] or [users] collection, stamped with
    the server time of the commit.  The write goes through: that holds
    for the ids and the data described by [Firestore.plain_name] and
    [Firestore.plain], and for what the handlers build themselves. *)
Definition write_transaction (id : string) (data : obj) (merge : bool)
    (w : world) : world :=
  with_db (Firestore.set_transaction id data merge (db w))
          (log (Written "transactions" id) w).

Definition write_user (id : string) (data : obj) (merge : bool)
    (w : world) : world :=
  with_db (Firestore.set_user id data merge (db w))
          (log (Written "users" id) w).

Definition serverTimestamp (w : world) : value := VTime (Firestore.clock (db w)).

(** Replies of the HTTP handlers. *)
Inductive reply :=
  | Json (status : Z) (body : value)
  | End (status : Z)
  | Stream.

(** [process.env] *)
Record env := {
  CALLBACK_SECRET : option string;
  BASE_URL : option string;
  CHANNEL_ID : option string;
  SWIFTWALLET_API_KEY : option string;
}.

(** An environment variable inside a template string or under [||]. *)
Definition env_value (x : option string) : value :=
  match x with Some s => VStr s | None => VUndef end.

(** What [axios.post] does: it resolves with the body of a 2xx response,
    and throws on a network error, on any other status and when the
    configured timeout elapses. *)
Inductive gateway :=
  | GwThrows
  | GwData (data : value).

(** [formatPhone], identical in every deployment. *)
Definition formatPhone (phone : value) : outcome (option string) :=
  do s <- Js.as_string (phone ||| VStr "");
  let digits := Js.only_digits s in
  if (String.length digits =? 9)%nat && Js.startsWith "7" digits
  then Ok (Some ("254" ++ digits))
  else if (String.length digits =? 10)%nat && Js.startsWith "07" digits
  then Ok (Some ("254" ++ Js.substring1 digits))
  else if (String.length digits =? 12)%nat && Js.startsWith "254" digits
  then Ok (Some digits)
  else Ok None.

(** The balance transaction that the callback and the manual update both
    run: [newBal = amount; if (doc.exists) newBal += doc.data().balance || 0]
    and then a [set] without merge. *)
Definition credit (phone : string) (amount : value) (w : world) : world :=
  let doc := Firestore.users (db w) !! phone in
  let w := log (Read "users" phone) w in
  let newBal :=
    match doc with
    | Some d => Js.plus amount (Js.get (VObj d) "balance" ||| VNum Js.zero)
    | None => amount
    end in
  write_user phone
    [("phone", VStr phone); ("balance", newBal);
     ("updatedAt", serverTimestamp w)] false w.


(* ===================================================================== *)
(** * The deployment with live updates ([src/unnamed/part_000], 156-662) *)
(* ===================================================================== *)

Module Server.

(** ** [snapshotFor] *)

(** [parseFloat(x) || 0] *)
Definition number_or_zero (n : number) : number :=
  if Js.truthy (VNum n) then n else Js.zero.

(** One entry of the transaction list.  [toISOString] is not applied:
    the instant itself stands for the date string. *)
Definition render (now : Z) (e : string * obj) : outcome value :=
  let d := VObj (snd e) in
  do date <-
    (if Js.truthy (Js.get d "createdAt") then
       match Js.get d "createdAt" with
       | VTime t => Ok (VTime t)
       | _ => Throw "TypeError: toDate is not a function"
       end
     else Ok (VTime now));
  Ok (VObj [("id", VStr (fst e));
            ("amount", Js.get d "amount" ||| VNum Js.zero);
            ("status", Js.get d "status" ||| VStr "PENDING");
            ("date", date);
            ("reference", Js.get d "reference" ||| VStr (fst e))]).

Fixpoint render_all (now : Z) (docs : list (string * obj)) : outcome (list value) :=
  match docs with
  | [] => Ok []
  | e :: docs' =>
      do x <- render now e;
      do xs <- render_all now docs';
      Ok (x :: xs)
  end.

(** The sum computed by the [reduce] over the SUCCESS documents. *)
Definition sum_amounts (docs : list (string * obj)) : number :=
  fold_left
    (fun sum d => Js.add sum (number_or_zero (Js.parseFloat (Js.get (VObj (snd d)) "amount"))))
    docs Js.zero.

(** The balance read from the user document, before any recalculation. *)
Definition stored_balance (userDoc : option obj) : number :=
  match userDoc with
  | Some d => Js.to_number (Js.get (VObj d) "balance" ||| VNum Js.zero)
  | None => Js.zero
  end.

(** The test guarding the recalculation. *)
Definition invalid (userDoc : option obj) : bool :=
  negb (bool_decide (is_Some userDoc))
  || negb (Js.isFinite (stored_balance userDoc))
  || Js.lt (stored_balance userDoc) Js.zero.

Definition snapshotFor (phone : string) (w : world) : (number * list value) * world :=
  let userDoc := Firestore.users (db w) !! phone in
  let w := log (Read "users" phone) w in
  let '(balance, w) :=
    if invalid userDoc then
      let okSnap := Firestore.successful_of phone (db w) in
      let w := log (Read "transactions" "phone, status == SUCCESS") w in
      let balance := sum_amounts okSnap in
      (balance,
       write_user phone
         [("phone", VStr phone); ("balance", VNum balance);
          ("updatedAt", serverTimestamp w)] true w)
    else (stored_balance userDoc, w) in
  let w := log (Read "transactions" "phone, newest 5") w in
  let transactions :=
    match (do docs <- Firestore.latest_of phone (db w);
           render_all (Firestore.clock (db w)) docs) with
    | Ok l => l
    | Throw _ => []
    end in
  ((balance, transactions), w).

(** ** The registry of live connections *)

Definition addSseClient (phone : string) (r : nat) (w : world) : world :=
  let set := default [] (sseClients w !! phone) in
  let h := next_timer w in
  {| db := db w;
     sseClients := <[phone := (set ++ [{| res := r; hb := h |}])%list]> (sseClients w);
     timers := {[h]} ∪ timers w;
     next_timer := S h;
     broken := broken w;
     trace := trace w |}.

(** The first entry for response [r], if any, and the set without it. *)
Fixpoint remove_first (r : nat) (set : list client) : option client * list client :=
  match set with
  | [] => (None, [])
  | c :: set' =>
      if (res c =? r)%nat then (Some c, set')
      else let '(found, rest) := remove_first r set' in (found, c :: rest)
  end.

Definition removeSseClient (phone : string) (r : nat) (w : world) : world :=
  match sseClients w !! phone with
  | None => w
  | Some set =>
      let '(found, set') := remove_first r set in
      {| db := db w;
         sseClients :=
           match set' with
           | [] => delete phone (sseClients w)
           | _ => <[phone := set']> (sseClients w)
           end;
         timers :=
           match found with
           | Some c => timers w ∖ {[hb c]}
           | None => timers w
           end;
         next_timer := next_timer w;
         broken := broken w;
         trace := trace w |}
  end.

(** [res.write(...)] inside [try]: [true] when the write went through. *)
Definition write (r : nat) (payload : value) (w : world) : bool * world :=
  if bool_decide (r ∈ broken w) then (false, log (PushFailed r) w)
  else (true, log (Pushed r payload) w).

(** One turn of the loop of [broadcast]. *)
Definition push (phone : string) (payload : value) (w : world) (c : client) : world :=
  let '(sent, w) := write (res c) payload w in
  if sent then w else removeSseClient phone (res c) w.

(** The object that is serialised onto the stream. *)
Definition message (phone : string) (snap : number * list value)
    (status reference : value) (now : Z) : value :=
  VObj [("phone", VStr phone);
        ("balance", VNum (fst snap));
        ("transactions", VArr (snd snap));
        ("status", status);
        ("reference", reference);
        ("timestamp", VTime now)].

(** [broadcast(phone, { status, reference })].  The loop visits the
    entries the set had when it started: the only entry removed while it
    runs is the one being visited. *)
Definition broadcast (phone : string) (status reference : value) (w : world) : world :=
  match sseClients w !! phone with
  | None | Some [] => w
  | Some set =>
      let '(snap, w) := snapshotFor phone w in
      let payload :=
        message phone snap (status ||| VNull) (reference ||| VNull)
          (Firestore.clock (db w)) in
      fold_left (push phone payload) set w
  end.

(** [broadcast] called with a phone read from a stored document: the
    registry only has string keys. *)
Definition broadcast_to (phone : value) (status reference : value) (w : world) : world :=
  match phone with
  | VStr p => broadcast p status reference w
  | _ => w
  end.

(** ** GET /events/:phone *)

Definition events (phone : string) (r : nat) (w : world) : reply * world :=
  match formatPhone (VStr phone) with
  | Throw _ => (End 500, w)
  | Ok None => (End 400, w)
  | Ok (Some phone) =>
      let w := addSseClient phone r w in
      let '(snap, w) := snapshotFor phone w in
      let '(_, w) :=
        write r (message phone snap VNull VNull (Firestore.clock (db w))) w in
      (Stream, w)
  end.

(** The [close] listener registered by [events]. *)
Definition on_close (phone : string) (r : nat) (w : world) : world :=
  removeSseClient phone r w.

(** ** POST /pay *)

Definition gateway_url : string := "https://swiftwallet.co.ke/pay-app-v2/payments.php".

(** The [timeout] option handed to [axios.post], in milliseconds. *)
Definition gateway_timeout : Z := 30000.

Definition failure (message : value) : value :=
  VObj [("success", VBool false); ("message", message)].

(** What runs inside the [try] of the handler. *)
Definition pay_body (e : env) (body : value) (now_ms : Z) (gw : gateway)
    (w : world) : outcome reply * world :=
  match (do phone <- Js.get_strict body "phone";
         do amount <- Js.get_strict body "amount";
         do formattedPhone <- formatPhone phone;
         Ok (formattedPhone, amount)) with
  | Throw m => (Throw m, w)
  | Ok (None, _) => (Ok (Json 400 (failure (VStr "Invalid phone format"))), w)
  | Ok (Some formattedPhone, amount) =>
      if negb (Js.truthy amount) || Js.lt (Js.to_number amount) (Fin 1)
      then (Ok (Json 400 (failure (VStr "Amount must be >= 1"))), w)
      else
        let external_reference :=
          "ORDER-" ++ Js.string_of_number (Js.of_Z now_ms) in
        let rounded := Js.round (Js.to_number amount) in
        let w :=
          write_transaction external_reference
            [("phone", VStr formattedPhone); ("amount", VNum rounded);
             ("status", VStr "PENDING");
             ("reference", VStr external_reference);
             ("createdAt", serverTimestamp w)] false w in
        let w :=
          broadcast formattedPhone (VStr "PENDING") (VStr external_reference) w in
        let payload :=
          VObj [("amount", VNum rounded);
                ("phone_number", VStr formattedPhone);
                ("external_reference", VStr external_reference);
                ("customer_name", VStr "Customer");
                ("callback_url",
                 VStr (Js.to_string (env_value (BASE_URL e)) ++ "/callback?secret="
                       ++ Js.to_string (env_value (CALLBACK_SECRET e))));
                ("channel_id", env_value (CHANNEL_ID e) ||| VStr "000041")] in
        let w := log (Posted gateway_url payload (Some gateway_timeout)) w in
        match gw with
        | GwThrows => (Throw "AxiosError", w)
        | GwData data =>
            if Js.truthy (Js.get data "success") then
              let w :=
                write_transaction external_reference
                  [("phone", VStr formattedPhone); ("amount", VNum rounded);
                   ("status", VStr "INITIATED");
                   ("reference", VStr external_reference);
                   ("swiftwallet", data);
                   ("updatedAt", serverTimestamp w)] true w in
              (Ok (Json 200
                     (VObj [("success", VBool true);
                            ("message", VStr "STK push sent, check your phone");
                            ("amount", VNum rounded);
                            ("phone", VStr formattedPhone);
                            ("reference", VStr external_reference)])), w)
            else
              let error := Js.get data "error" ||| VStr "Payment initiation failed" in
              let w :=
                write_transaction external_reference
                  [("phone", VStr formattedPhone); ("amount", VNum rounded);
                   ("status", VStr "FAILED");
                   ("reference", VStr external_reference);
                   ("error", error);
                   ("updatedAt", serverTimestamp w)] true w in
              let w :=
                broadcast formattedPhone (VStr "FAILED") (VStr external_reference) w in
              (Ok (Json 400 (failure error)), w)
        end
  end.

Definition pay (e : env) (body : value) (now_ms : Z) (gw : gateway)
    (w : world) : reply * world :=
  match pay_body e body now_ms gw w with
  | (Ok r, w') => (r, w')
  | (Throw _, w') => (Json 500 (failure (VStr "Server error during /pay")), w')
  end.

(** ** POST /callback *)

Definition ack (code : Z) (desc : string) : value :=
  VObj [("ResultCode", VNum (Fin (inject_Z code))); ("ResultDesc", VStr desc)].

(** [process.env.CALLBACK_SECRET && req.query.secret !== process.env.CALLBACK_SECRET] *)
Definition unauthorized (e : env) (secret : value) : bool :=
  match CALLBACK_SECRET e with
  | Some s => Js.truthy (VStr s) && negb (Js.is_str s secret)
  | None => false
  end.

(** The values read off the payload, several field names being tried
    for each. *)
Record extracted := {
  phone : option string;
  reference : value;
  rawAmount : value;
  amount : number;
}.

Definition extract (data : value) : outcome extracted :=
  do phone <-
    formatPhone
      (Js.get (Js.get data "result") "Phone"
       ||| Js.get data "phone_number"
       ||| Js.get data "Phone"
       ||| Js.get data "MSISDN");
  let reference :=
    Js.get data "external_reference"
    ||| Js.get data "CheckoutRequestID"
    ||| Js.get data "reference" in
  let rawAmount :=
    Js.get (Js.get data "result") "Amount"
    ||| Js.get data "amount"
    ||| Js.get data "Amount"
    ||| Js.get data "TransAmount"
    ||| VNum Js.zero in
  Ok {| phone := phone; reference := reference; rawAmount := rawAmount;
        amount := Js.parseFloat rawAmount |}.

Definition status_of (data : value) : value :=
  Js.get data "status"
  ||| Js.get (Js.get data "result") "status"
  ||| Js.get data "ResultCode".

Definition resultDesc_of (data : value) : value :=
  Js.get data "ResultDesc"
  ||| Js.get (Js.get data "result") "ResultDesc"
  ||| VStr "".

(** The disjunction [isSuccess], evaluated left to right; the method call
    on [resultDesc] is only reached when the earlier tests failed. *)
Definition isSuccess (data : value) : outcome bool :=
  let status := status_of data in
  let resultDesc := resultDesc_of data in
  do success <- Js.get_strict data "success";
  if Js.is_true success then Ok true
  else if Js.is_str "0" status then Ok true
  else if Js.is_num_zero status then Ok true
  else if Js.truthy status
          && String.eqb (Js.toLowerCase (Js.to_string status)) "completed"
  then Ok true
  else
    do described <-
      (if Js.truthy resultDesc then
         do d <- Js.as_string resultDesc;
         Ok (Js.includes "success" (Js.toLowerCase d))
       else Ok false);
    if described then Ok true
    else Ok (Js.is_str "0" (Js.get data "ResultCode")
             || Js.is_num_zero (Js.get data "ResultCode")).

(** What runs inside the [try] once the secret has been accepted. *)
Definition callback_body (data : value) (w : world) : outcome reply * world :=
  match extract data with
  | Throw m => (Throw m, w)
  | Ok x =>
      match phone x, Js.truthy (reference x) with
      | Some phone, true =>
          if Js.isNaN (amount x) || Js.le (amount x) Js.zero
          then (Ok (Json 200 (ack 0 "Ignored invalid amount")), w)
          else
            match isSuccess data with
            | Throw m => (Throw m, w)
            | Ok true =>
                match Firestore.doc_id (reference x) with
                | Throw m => (Throw m, w)
                | Ok id =>
                    let w :=
                      write_transaction id
                        [("phone", VStr phone); ("amount", VNum (amount x));
                         ("status", VStr "SUCCESS");
                         ("reference", reference x);
                         ("callback", data);
                         ("updatedAt", serverTimestamp w)] true w in
                    let w := credit phone (VNum (amount x)) w in
                    let w := broadcast phone (VStr "SUCCESS") (reference x) w in
                    (Ok (Json 200 (ack 0 "OK")), w)
                end
            | Ok false =>
                match Firestore.doc_id (reference x) with
                | Throw m => (Throw m, w)
                | Ok id =>
                    let w :=
                      write_transaction id
                        [("status", VStr "FAILED");
                         ("callback", data);
                         ("updatedAt", serverTimestamp w)] true w in
                    let w := broadcast phone (VStr "FAILED") (reference x) w in
                    (Ok (Json 200 (ack 0 "OK")), w)
                end
            end
      | _, _ => (Ok (Json 200 (ack 0 "Ignored (missing ids)")), w)
      end
  end.

Definition callback (e : env) (secret : value) (data : value) (w : world)
    : reply * world :=
  if unauthorized e secret then (Json 401 (ack 1 "Unauthorized"), w)
  else
    match callback_body data w with
    | (Ok r, w') => (r, w')
    | (Throw _, w') => (Json 500 (ack 1 "Failed"), w')
    end.

(** ** POST /update-status/:reference *)

Definition update_status_body (reference : string) (body : value) (w : world)
    : outcome reply * world :=
  match Js.get_strict body "status" with
  | Throw m => (Throw m, w)
  | Ok status =>
      let txnDoc := Firestore.transactions (db w) !! reference in
      let w := log (Read "transactions" reference) w in
      match txnDoc with
      | None => (Ok (Json 404 (failure (VStr "Transaction not found"))), w)
      | Some txnData =>
          match Js.as_string (status ||| VStr "") with
          | Throw m => (Throw m, w)
          | Ok text =>
              let up := Js.toUpperCase text in
              let phone := Js.get (VObj txnData) "phone" in
              let amount := Js.get (VObj txnData) "amount" in
              let w :=
                write_transaction reference
                  [("status", VStr up); ("updatedAt", serverTimestamp w)] true w in
              let done :=
                Json 200
                  (VObj [("success", VBool true);
                         ("message",
                          VStr ("Transaction " ++ reference ++ " updated to " ++ up))]) in
              if String.eqb up "SUCCESS" && Js.truthy phone && Js.truthy amount
              then
                match Firestore.doc_id phone with
                | Throw m => (Throw m, w)
                | Ok p =>
                    let w := credit p amount w in
                    let w := broadcast p (VStr "SUCCESS") (VStr reference) w in
                    (Ok done, w)
                end
              else if String.eqb up "FAILED" && Js.truthy phone
              then (Ok done, broadcast_to phone (VStr "FAILED") (VStr reference) w)
              else (Ok done, w)
          end
      end
  end.

Definition update_status (reference : string) (body : value) (w : world)
    : reply * world :=
  match update_status_body reference body w with
  | (Ok r, w') => (r, w')
  | (Throw _, w') => (Json 500 (failure (VStr "Server error")), w')
  end.

(** ** GET /balance/:phone *)

Definition balance (phone : string) (w : world) : reply * world :=
  match formatPhone (VStr phone) with
  | Throw _ =>
      (Json 500 (failure (VStr "Server error while fetching balance")), w)
  | Ok None => (Json 400 (failure (VStr "Invalid phone")), w)
  | Ok (Some phone) =>
      let '(snap, w) := snapshotFor phone w in
      (Json 200 (VObj [("success", VBool true); ("phone", VStr phone);
                       ("balance", VNum (fst snap));
                       ("transactions", VArr (snd snap))]), w)
  end.

(** ** The heartbeat *)

(** The heartbeat of a connection firing: a ping is written to the
    response inside [try], and a failure is ignored. *)
Definition heartbeat (c : client) (now : Z) (w : world) : world :=
  snd (write (res c) (VObj [("event", VStr "ping"); ("ts", VTime now)]) w).

(** ** GET /health *)

Definition health (now : Z) : reply :=
  Json 200 (VObj [("status", VStr "OK"); ("timestamp", VTime now)]).

(** ** The routes *)

Inductive request :=
  | GetEvents (phone : string) (r : nat)
  | PostPay (body : value) (now_ms : Z) (gw : gateway)
  | PostCallback (secret data : value)
  | PostUpdateStatus (reference : string) (body : value)
  | GetBalance (phone : string)
  | GetHealth.

Definition serve (e : env) (q : request) (w : world) : reply * world :=
  match q with
  | GetEvents phone r => events phone r w
  | PostPay body now_ms gw => pay e body now_ms gw w
  | PostCallback secret data => callback e secret data w
  | PostUpdateStatus reference body => update_status reference body w
  | GetBalance phone => balance phone w
  | GetHealth => (health (Firestore.clock (db w)), w)
  end.

End Server.


(* ===================================================================== *)
(** * The deployment of [src/server.js] *)
(* ===================================================================== *)

(** The callback of this deployment: no hub, no FAILED transition and a
    stricter reading of the payload. *)
Module Legacy.

Definition ack (code : Z) (desc : string) : value :=
  VObj [("ResultCode", VNum (Fin (inject_Z code))); ("ResultDesc", VStr desc)].

Definition unauthorized (e : env) (secret : value) : bool :=
  match CALLBACK_SECRET e with
  | Some s => Js.truthy (VStr s) && negb (Js.is_str s secret)
  | None => false
  end.

(** [a || data.k]: the property is only read when [a] is falsy. *)
Definition or_field (a : value) (data : value) (k : string) : outcome value :=
  if Js.truthy a then Ok a else Js.get_strict data k.

(** [data.success && data.status === "completed"], as tested by [if]. *)
Definition success (data : value) : outcome bool :=
  do flag <- Js.get_strict data "success";
  if Js.truthy flag
  then do status <- Js.get_strict data "status"; Ok (Js.is_str "completed" status)
  else Ok false.

(** The four constants read off the payload: phone, amount, reference
    and success. *)
Definition read (data : value) : outcome (option string * number * value * bool) :=
  do rawPhone <- or_field (Js.get (Js.get data "result") "Phone") data "phone_number";
  do phone <- formatPhone rawPhone;
  do rawAmount <- or_field (Js.get (Js.get data "result") "Amount") data "amount";
  do reference <- Js.get_strict data "external_reference";
  do ok <- success data;
  Ok (phone, Js.to_number rawAmount, reference, ok).

Definition callback_body (data : value) (w : world) : outcome reply * world :=
  match read data with
  | Throw m => (Throw m, w)
  | Ok (Some phone, amount, reference, true) =>
      if Js.truthy reference then
        match Firestore.doc_id reference with
        | Throw m => (Throw m, w)
        | Ok id =>
            let w :=
              write_transaction id
                [("status", VStr "SUCCESS"); ("callback", data);
                 ("updatedAt", serverTimestamp w)] true w in
            let w := credit phone (VNum amount) w in
            (Ok (Json 200 (ack 0 "Success")), w)
        end
      else (Ok (Json 200 (ack 0 "Success")), w)
  | Ok _ => (Ok (Json 200 (ack 0 "Success")), w)
  end.

Definition callback (e : env) (secret : value) (data : value) (w : world)
    : reply * world :=
  if unauthorized e secret then (Json 401 (ack 1 "Unauthorized"), w)
  else
    match callback_body data w with
    | (Ok r, w') => (r, w')
    | (Throw _, w') => (Json 500 (ack 1 "Failed"), w')
    end.

(** ** POST /pay *)

Definition failure (error : value) : value :=
  VObj [("success", VBool false); ("error", error)].

Definition gateway_url : string := "https://swiftwallet.co.ke/pay-app-v2/payments.php".

(** The fields of the gateway's reply that are kept with the
    transaction. *)
Definition kept (data : value) : value :=
  VObj [("reference", Js.get data "reference");
        ("transaction_id", Js.get data "transaction_id");
        ("checkout_request_id", Js.get data "checkout_request_id");
        ("merchant_request_id", Js.get data "merchant_request_id");
        ("channel_type", Js.get data "channel_type");
        ("message", Js.get data "message")].

(** What runs inside the [try] of the handler.  [axios.post] is called
    without a timeout.  The values read from JSON hold no [undefined];
    the six fields picked from the reply can, and [set] then throws. *)
Definition pay_body (e : env) (body : value) (now_ms : Z) (gw : gateway)
    (w : world) : outcome reply * world :=
  match (do phone <- Js.get_strict body "phone";
         do amount <- Js.get_strict body "amount";
         do formattedPhone <- formatPhone phone;
         Ok (formattedPhone, amount)) with
  | Throw m => (Throw m, w)
  | Ok (None, _) => (Ok (Json 400 (failure (VStr "Invalid phone format"))), w)
  | Ok (Some formattedPhone, amount) =>
      if negb (Js.truthy amount) || Js.lt (Js.to_number amount) (Fin 1)
      then (Ok (Json 400 (failure (VStr "Amount must be >= 1"))), w)
      else
        let external_reference :=
          "ORDER-" ++ Js.string_of_number (Js.of_Z now_ms) in
        let rounded := Js.round (Js.to_number amount) in
        let w :=
          write_transaction external_reference
            [("phone", VStr formattedPhone); ("amount", VNum rounded);
             ("status", VStr "PENDING");
             ("createdAt", serverTimestamp w)] false w in
        let payload :=
          VObj [("amount", VNum rounded);
                ("phone_number", VStr formattedPhone);
                ("external_reference", VStr external_reference);
                ("customer_name", VStr "Customer");
                ("callback_url",
                 VStr (Js.to_string (env_value (BASE_URL e)) ++ "/callback?secret="
                       ++ Js.to_string (env_value (CALLBACK_SECRET e))));
                ("channel_id", env_value (CHANNEL_ID e) ||| VStr "000041")] in
        let w := log (Posted gateway_url payload None) w in
        match gw with
        | GwThrows => (Throw "AxiosError", w)
        | GwData data =>
            if Js.truthy (Js.get data "success") then
              if Firestore.storable (kept data) then
                let w :=
                  write_transaction external_reference
                    [("status", VStr "INITIATED");
                     ("swiftwallet", kept data);
                     ("updatedAt", serverTimestamp w)] true w in
                (Ok (Json 200
                       (VObj [("success", VBool true);
                              ("message", VStr "STK push sent, check your phone")])), w)
              else (Throw "Cannot use undefined as a Firestore value", w)
            else
              let error := Js.get data "error" ||| VStr "Payment initiation failed" in
              let w :=
                write_transaction external_reference
                  [("status", VStr "FAILED");
                   ("error", error);
                   ("updatedAt", serverTimestamp w)] true w in
              (Ok (Json 400 (failure error)), w)
        end
  end.

Definition pay (e : env) (body : value) (now_ms : Z) (gw : gateway)
    (w : world) : reply * world :=
  match pay_body e body now_ms gw w with
  | (Ok r, w') => (r, w')
  | (Throw _, w') => (Json 500 (failure (VStr "Server error")), w')
  end.

(** ** GET /balance/:phone *)

(** One entry of the transaction list; [toDate] is not applied. *)
Definition render (e : string * obj) : outcome value :=
  let d := VObj (snd e) in
  do createdAt <-
    (if Js.truthy (Js.get d "createdAt") then
       match Js.get d "createdAt" with
       | VTime t => Ok (VTime t)
       | _ => Throw "TypeError: toDate is not a function"
       end
     else Ok VNull);
  Ok (VObj [("id", VStr (fst e));
            ("amount", Js.get d "amount");
            ("status", Js.get d "status");
            ("createdAt", createdAt)]).

Fixpoint render_all (docs : list (string * obj)) : outcome (list value) :=
  match docs with
  | [] => Ok []
  | e :: docs' =>
      do x <- render e;
      do xs <- render_all docs';
      Ok (x :: xs)
  end.

(** The handler has no [try]: when a read throws, the promise of the
    handler rejects and no reply is sent. *)
Definition balance (phone : string) (w : world) : outcome reply * world :=
  match formatPhone (VStr phone) with
  | Throw m => (Throw m, w)
  | Ok None => (Ok (Json 400 (failure (VStr "Invalid phone"))), w)
  | Ok (Some phone) =>
      let userDoc := Firestore.users (db w) !! phone in
      let w := log (Read "users" phone) w in
      let balance :=
        match userDoc with
        | Some d => Js.get (VObj d) "balance" ||| VNum Js.zero
        | None => VNum Js.zero
        end in
      let w := log (Read "transactions" "phone, newest 5") w in
      match (do docs <- Firestore.latest_of phone (db w); render_all docs) with
      | Throw m => (Throw m, w)
      | Ok transactions =>
          (Ok (Json 200 (VObj [("phone", VStr phone); ("balance", balance);
                               ("transactions", VArr transactions)])), w)
      end
  end.

End Legacy.

(* ===================================================================== *)
(** * The first deployment of [src/unnamed/part_000] (lines 1-154) *)
(* ===================================================================== *)

(** No hub and no manual update; [/pay] records the request and never
    comes back to it. *)
Module First.

Definition failure (error : value) : value :=
  VObj [("success", VBool false); ("error", error)].

Definition ack (code : Z) (desc : string) : value :=
  VObj [("ResultCode", VNum (Fin (inject_Z code))); ("ResultDesc", VStr desc)].

Definition gateway_url : string := "https://swiftwallet.co.ke/pay-app-v2/payments.php".

(** ** POST /pay *)

Definition pay_body (e : env) (body : value) (now_ms : Z) (gw : gateway)
    (w : world) : outcome reply * world :=
  match (do phone <- Js.get_strict body "phone";
         do amount <- Js.get_strict body "amount";
         do formattedPhone <- formatPhone phone;
         Ok (formattedPhone, amount)) with
  | Throw m => (Throw m, w)
  | Ok (None, _) => (Ok (Json 400 (failure (VStr "Invalid phone format"))), w)
  | Ok (Some formattedPhone, amount) =>
      if negb (Js.truthy amount) || Js.lt (Js.to_number amount) (Fin 1)
      then (Ok (Json 400 (failure (VStr "Amount must be >= 1"))), w)
      else
        let external_reference :=
          "ORDER-" ++ Js.string_of_number (Js.of_Z now_ms) in
        let rounded := Js.round (Js.to_number amount) in
        let w :=
          write_transaction external_reference
            [("phone", VStr formattedPhone); ("amount", VNum rounded);
             ("status", VStr "PENDING");
             ("createdAt", serverTimestamp w)] false w in
        let payload :=
          VObj [("amount", VNum rounded);
                ("phone_number", VStr formattedPhone);
                ("external_reference", VStr external_reference);
                ("customer_name", VStr "Customer");
                ("callback_url",
                 VStr (Js.to_string (env_value (BASE_URL e)) ++ "/callback?secret="
                       ++ Js.to_string (env_value (CALLBACK_SECRET e))));
                ("channel_id", VStr "000041")] in
        let w := log (Posted gateway_url payload None) w in
        match gw with
        | GwThrows => (Throw "AxiosError", w)
        | GwData data =>
            if Js.truthy (Js.get data "success") then
              (Ok (Json 200
                     (VObj [("success", VBool true);
                            ("message", VStr "STK push sent, check your phone")])), w)
            else
              (Ok (Json 400
                     (failure (Js.get data "error" ||| VStr "Payment initiation failed"))), w)
        end
  end.

Definition pay (e : env) (body : value) (now_ms : Z) (gw : gateway)
    (w : world) : reply * world :=
  match pay_body e body now_ms gw w with
  | (Ok r, w') => (r, w')
  | (Throw _, w') => (Json 500 (failure (VStr "Server error")), w')
  end.

(** ** POST /callback *)

Definition unauthorized (e : env) (secret : value) : bool :=
  match CALLBACK_SECRET e with
  | Some s => Js.truthy (VStr s) && negb (Js.is_str s secret)
  | None => false
  end.

(** The four constants read off the payload: phone, amount, reference
    and success. *)
Definition read (data : value) : outcome (option string * number * value * value) :=
  do rawPhone <- Js.get_strict data "phone_number";
  do phone <- formatPhone rawPhone;
  do rawAmount <- Js.get_strict data "amount";
  do reference <- Js.get_strict data "external_reference";
  do success <- Js.get_strict data "success";
  Ok (phone, Js.to_number rawAmount, reference, success).

Definition callback_body (data : value) (w : world) : outcome reply * world :=
  match read data with
  | Throw m => (Throw m, w)
  | Ok (phone, amount, reference, success) =>
      match phone with
      | Some phone =>
          if Js.truthy success && Js.truthy reference then
            match Firestore.doc_id reference with
            | Throw m => (Throw m, w)
            | Ok id =>
                let w :=
                  write_transaction id
                    [("status", VStr "SUCCESS"); ("callback", data);
                     ("updatedAt", serverTimestamp w)] true w in
                let w := credit phone (VNum amount) w in
                (Ok (Json 200 (ack 0 "Success")), w)
            end
          else (Ok (Json 200 (ack 0 "Success")), w)
      | None => (Ok (Json 200 (ack 0 "Success")), w)
      end
  end.

Definition callback (e : env) (secret : value) (data : value) (w : world)
    : reply * world :=
  if unauthorized e secret then (Json 401 (ack 1 "Unauthorized"), w)
  else
    match callback_body data w with
    | (Ok r, w') => (r, w')
    | (Throw _, w') => (Json 500 (ack 1 "Failed"), w')
    end.

(** ** GET /balance/:phone *)

(** The handler has no [try]. *)
Definition balance (phone : string) (w : world) : outcome reply * world :=
  match formatPhone (VStr phone) with
  | Throw m => (Throw m, w)
  | Ok None => (Ok (Json 400 (failure (VStr "Invalid phone"))), w)
  | Ok (Some phone) =>
      let doc := Firestore.users (db w) !! phone in
      let w := log (Read "users" phone) w in
      match doc with
      | None =>
          (Ok (Json 200 (VObj [("phone", VStr phone); ("balance", VNum Js.zero)])), w)
      | Some d =>
          (Ok (Json 200 (VObj [("phone", VStr phone);
                               ("balance", Js.get (VObj d) "balance")])), w)
      end
  end.

End First.


(* ===================================================================== *)
(** * The third deployment of [src/unnamed/part_000] (lines 664-882) *)
(* ===================================================================== *)

(** No hub either; the callback has a wider success test and
    [/balance] a fallback for a balance of 0. *)
Module Third.

Definition failure (error : value) : value :=
  VObj [("success", VBool false); ("error", error)].

Definition ack (code : Z) (desc : string) : value :=
  VObj [("ResultCode", VNum (Fin (inject_Z code))); ("ResultDesc", VStr desc)].

Definition gateway_url : string := "https://swiftwallet.co.ke/pay-app-v2/payments.php".

(** ** POST /pay *)

Definition pay_body (e : env) (body : value) (now_ms : Z) (gw : gateway)
    (w : world) : outcome reply * world :=
  match (do phone <- Js.get_strict body "phone";
         do amount <- Js.get_strict body "amount";
         do formattedPhone <- formatPhone phone;
         Ok (formattedPhone, amount)) with
  | Throw m => (Throw m, w)
  | Ok (None, _) => (Ok (Json 400 (failure (VStr "Invalid phone format"))), w)
  | Ok (Some formattedPhone, amount) =>
      if negb (Js.truthy amount) || Js.lt (Js.to_number amount) (Fin 1)
      then (Ok (Json 400 (failure (VStr "Amount must be >= 1"))), w)
      else
        let external_reference :=
          "ORDER-" ++ Js.string_of_number (Js.of_Z now_ms) in
        let rounded := Js.round (Js.to_number amount) in
        let w :=
          write_transaction external_reference
            [("phone", VStr formattedPhone); ("amount", VNum rounded);
             ("status", VStr "PENDING");
             ("createdAt", serverTimestamp w)] false w in
        let payload :=
          VObj [("amount", VNum rounded);
                ("phone_number", VStr formattedPhone);
                ("external_reference", VStr external_reference);
                ("customer_name", VStr "Customer");
                ("callback_url",
                 VStr (Js.to_string (env_value (BASE_URL e)) ++ "/callback?secret="
                       ++ Js.to_string (env_value (CALLBACK_SECRET e))));
                ("channel_id", env_value (CHANNEL_ID e) ||| VStr "000041")] in
        let w := log (Posted gateway_url payload None) w in
        match gw with
        | GwThrows => (Throw "AxiosError", w)
        | GwData data =>
            if Js.truthy (Js.get data "success") then
              let w :=
                write_transaction external_reference
                  [("phone", VStr formattedPhone);
                   ("status", VStr "INITIATED");
                   ("swiftwallet", data);
                   ("updatedAt", serverTimestamp w)] true w in
              (Ok (Json 200
                     (VObj [("success", VBool true);
                            ("message", VStr "STK push sent, check your phone")])), w)
            else
              let error := Js.get data "error" ||| VStr "Payment initiation failed" in
              let w :=
                write_transaction external_reference
                  [("phone", VStr formattedPhone);
                   ("status", VStr "FAILED");
                   ("error", error);
                   ("updatedAt", serverTimestamp w)] true w in
              (Ok (Json 400 (failure error)), w)
        end
  end.

Definition pay (e : env) (body : value) (now_ms : Z) (gw : gateway)
    (w : world) : reply * world :=
  match pay_body e body now_ms gw w with
  | (Ok r, w') => (r, w')
  | (Throw _, w') => (Json 500 (failure (VStr "Server error")), w')
  end.

(** ** POST /callback *)

Definition unauthorized (e : env) (secret : value) : bool :=
  match CALLBACK_SECRET e with
  | Some s => Js.truthy (VStr s) && negb (Js.is_str s secret)
  | None => false
  end.

Definition status_of (data : value) : value :=
  Js.get data "status" ||| Js.get (Js.get data "result") "status".

(** [(data.success === true) || (status && status.toLowerCase() === "completed")],
    as tested by [if]; the method is only called on a truthy status. *)
Definition isSuccess (data : value) : outcome bool :=
  let status := status_of data in
  do success <- Js.get_strict data "success";
  if Js.is_true success then Ok true
  else if Js.truthy status then
    do s <- Js.as_string status;
    Ok (String.eqb (Js.toLowerCase s) "completed")
  else Ok false.

(** The constants read off the payload: phone, amount, reference and
    the outcome of the success test. *)
Definition read (data : value) : outcome (option string * number * value * bool) :=
  do rawPhone <- Legacy.or_field (Js.get (Js.get data "result") "Phone") data "phone_number";
  do phone <- formatPhone rawPhone;
  do rawAmount <- Legacy.or_field (Js.get (Js.get data "result") "Amount") data "amount";
  do reference <- Js.get_strict data "external_reference";
  do ok <- isSuccess data;
  Ok (phone, Js.to_number rawAmount, reference, ok).

Definition callback_body (data : value) (w : world) : outcome reply * world :=
  match read data with
  | Throw m => (Throw m, w)
  | Ok (Some phone, amount, reference, true) =>
      if Js.truthy reference then
        match Firestore.doc_id reference with
        | Throw m => (Throw m, w)
        | Ok id =>
            let w :=
              write_transaction id
                [("phone", VStr phone); ("status", VStr "SUCCESS"); ("callback", data);
                 ("updatedAt", serverTimestamp w)] true w in
            let w := credit phone (VNum amount) w in
            (Ok (Json 200 (ack 0 "Success")), w)
        end
      else (Ok (Json 200 (ack 0 "Success")), w)
  | Ok _ => (Ok (Json 200 (ack 0 "Success")), w)
  end.

Definition callback (e : env) (secret : value) (data : value) (w : world)
    : reply * world :=
  if unauthorized e secret then (Json 401 (ack 1 "Unauthorized"), w)
  else
    match callback_body data w with
    | (Ok r, w') => (r, w')
    | (Throw _, w') => (Json 500 (ack 1 "Failed"), w')
    end.

(** ** GET /balance/:phone *)

(** The sum computed by the fallback: [sum + (amount || 0)] on the
    values as they are stored. *)
Definition sum_amounts (docs : list (string * obj)) : value :=
  fold_left
    (fun sum d => Js.plus sum (Js.get (VObj (snd d)) "amount" ||| VNum Js.zero))
    docs (VNum Js.zero).

(** One entry of the transaction list; [toDate] is not applied. *)
Definition render (e : string * obj) : outcome value :=
  let d := VObj (snd e) in
  do createdAt <-
    (if Js.truthy (Js.get d "createdAt") then
       match Js.get d "createdAt" with
       | VTime t => Ok (VTime t)
       | _ => Throw "TypeError: toDate is not a function"
       end
     else Ok VNull);
  Ok (VObj [("id", VStr (fst e));
            ("amount", Js.get d "amount");
            ("status", Js.get d "status");
            ("createdAt", createdAt)]).

Fixpoint render_all (docs : list (string * obj)) : outcome (list value) :=
  match docs with
  | [] => Ok []
  | e :: docs' =>
      do x <- render e;
      do xs <- render_all docs';
      Ok (x :: xs)
  end.

Definition balance (phone : string) (w : world) : reply * world :=
  match formatPhone (VStr phone) with
  | Throw _ => (Json 500 (failure (VStr "Server error while fetching balance")), w)
  | Ok None => (Json 400 (failure (VStr "Invalid phone")), w)
  | Ok (Some phone) =>
      let userDoc := Firestore.users (db w) !! phone in
      let w := log (Read "users" phone) w in
      let stored :=
        match userDoc with
        | Some d => Js.get (VObj d) "balance" ||| VNum Js.zero
        | None => VNum Js.zero
        end in
      let '(balance, w) :=
        if Js.is_num_zero stored then
          (sum_amounts (Firestore.successful_of phone (db w)),
           log (Read "transactions" "phone, status == SUCCESS") w)
        else (stored, w) in
      let w := log (Read "transactions" "phone, newest 5") w in
      let transactions :=
        match (do docs <- Firestore.latest_of phone (db w); render_all docs) with
        | Ok l => l
        | Throw _ => []
        end in
      (Json 200 (VObj [("success", VBool true); ("phone", VStr phone);
                       ("balance", balance);
                       ("transactions", VArr transactions)]), w)
  end.

End Third.


(* ===================================================================== *)
(** * Observations and scenarios *)
(* ===================================================================== *)

(** The [status] field of a transaction document, [undefined] when the
    document or the field is missing. *)
Definition txn_status (w : world) (id : string) : value :=
  match Firestore.transactions (db w) !! id with
  | Some d => Js.get (VObj d) "status"
  | None => VUndef
  end.

(** The [balance] field of a user document. *)
Definition user_balance (w : world) (phone : string) : option value :=
  match Firestore.users (db w) !! phone with
  | Some d => Some (Js.get (VObj d) "balance")
  | None => None
  end.

(** The events a handler added to the trace. *)
Definition since (before after : world) : list event :=
  drop (length (trace before)) (trace after).

Definition pushes_to (r : nat) (evs : list event) : list value :=
  omap (fun e => match e with
                 | Pushed to payload => if (to =? r)%nat then Some payload else None
                 | _ => None
                 end) evs.

Definition empty_store : Firestore.store :=
  {| Firestore.transactions := ∅; Firestore.users := ∅;
     Firestore.index_ready := true; Firestore.clock := 1000 |}.

Definition empty_world : world :=
  {| db := empty_store; sseClients := ∅; timers := ∅; next_timer := 0;
     broken := ∅; trace := [] |}.

Definition env_secret : env :=
  {| CALLBACK_SECRET := Some "s3cret"; BASE_URL := Some "https://pay.example";
     CHANNEL_ID := None; SWIFTWALLET_API_KEY := Some "key" |}.

Definition env_open : env :=
  {| CALLBACK_SECRET := None; BASE_URL := Some "https://pay.example";
     CHANNEL_ID := None; SWIFTWALLET_API_KEY := Some "key" |}.

Definition alice : string := "254712345678".

Definition order1 : string := "ORDER-1700000000000".

Definition pay_request : value :=
  VObj [("phone", VStr "0712345678"); ("amount", VNum (Fin 100))].

Definition accepted : gateway := GwData (VObj [("success", VBool true)]).

Definition success_payload : value :=
  VObj [("external_reference", VStr order1);
        ("phone_number", VStr alice);
        ("amount", VNum (Fin 100));
        ("success", VBool true)].

Definition failure_payload : value :=
  VObj [("external_reference", VStr order1);
        ("phone_number", VStr alice);
        ("amount", VNum (Fin 100));
        ("status", VStr "failed")].

Definition no_reference_payload : value :=
  VObj [("phone_number", VStr alice); ("amount", VNum (Fin 100));
        ("success", VBool true)].

(** One subscriber, one payment accepted by the gateway, and then its
    success callback. *)
Definition subscribed : world := snd (Server.events "0712345678" 7 empty_world).

Definition initiated : world :=
  snd (Server.pay env_secret pay_request 1700000000000 accepted subscribed).

Definition paid : world :=
  snd (Server.callback env_secret (VStr "s3cret") success_payload initiated).

(** The transaction document of the scenario once it is paid. *)
Definition paid_transaction : obj :=
  [("phone", VStr alice); ("amount", VNum (Fin 100));
   ("status", VStr "SUCCESS"); ("reference", VStr order1);
   ("createdAt", VTime 1001);
   ("swiftwallet", VObj [("success", VBool true)]);
   ("updatedAt", VTime 1003);
   ("callback", success_payload)].

(** No usable secret is configured: the variable is unset or empty. *)
Definition secret_missing (e : env) : Prop :=
  CALLBACK_SECRET e = None \/ CALLBACK_SECRET e = Some "".

(** The payload does not pass the validation of the callback: the
    identity or the reference is missing, or the amount read from it is
    not a number or not positive. *)
Definition rejected_by_validation (x : Server.extracted) : Prop :=
  Server.phone x = None
  \/ Js.truthy (Server.reference x) = false
  \/ Js.isNaN (Server.amount x) = true
  \/ Js.le (Server.amount x) Js.zero = true.

(** The identity [ph] has balance [b]: its user document stores the
    finite number [b], or there is no document yet and [b] is zero. *)
Definition holds_balance (w : world) (ph : string) (b : Q) : Prop :=
  (0 <= b)%Q /\
  match Firestore.users (db w) !! ph with
  | Some d => exists q, Js.get (VObj d) "balance" = VNum (Fin q) /\ (q == b)%Q
  | None => (b == 0)%Q
  end.

(** The no-break space U+00A0. *)
Definition nbsp : string := String (ascii_of_nat 194) (String (ascii_of_nat 160) "").

(** A request to [/pay] whose amount is a string just below 1, and a
    callback whose amount is a string too small for binary64. *)
Definition pay_request_nearly_one : value :=
  VObj [("phone", VStr "0712345678"); ("amount", VStr "0.99999999999999999999")].

Definition tiny_amount_payload : value :=
  VObj [("external_reference", VStr "ORDER-1700000000000");
        ("phone_number", VStr "254712345678");
        ("amount", VStr "1e-400");
        ("success", VBool true)].

(** A binary64 number: [m * 2^e] with [m] below 2^53 in magnitude and
    [e] from -1074 to 971.  The whole numbers up to 2^53 are of this
    kind. *)
Definition representable (q : Q) : Prop :=
  exists m e : Z,
    (Z.abs m < 2 ^ 53)%Z /\ (-1074 <= e <= 971)%Z /\ (q == inject_Z m * 2 ^ e)%Q.

(** The body of a manual update to SUCCESS. *)
Definition force_success : value := VObj [("status", VStr "SUCCESS")].

(** Whether [res.write] goes through for a connection. *)
Definition alive (w : world) (c : client) : bool :=
  negb (bool_decide (res c ∈ broken w)).

(** What [broadcast] does for one connection. *)
Definition attempt (w : world) (payload : value) (c : client) : event :=
  if alive w c then Pushed (res c) payload else PushFailed (res c).

(** What the registry holds for an identity whose connections are [l]. *)
Definition entry (l : list client) : option (list client) :=
  match l with
  | [] => None
  | _ => Some l
  end.

(** The registry with the connections of [p] replaced by [l], the entry
    being dropped when none is left. *)
Definition keep (p : string) (l : list client) (registry : gmap string (list client))
    : gmap string (list client) :=
  match l with
  | [] => delete p registry
  | _ => <[p := l]> registry
  end.

(** The world with the user document of [p] replaced. *)
Definition with_user (p : string) (d : obj) (w : world) : world :=
  with_db {| Firestore.transactions := Firestore.transactions (db w);
             Firestore.users := <[p := d]> (Firestore.users (db w));
             Firestore.index_ready := Firestore.index_ready (db w);
             Firestore.clock := Firestore.clock (db w) |} w.

(** The scenario after the payment, with the balance field lost, and
    with [NaN] stored in it. *)
Definition balance_missing : world := with_user alice [("phone", VStr alice)] paid.


(** When [snapshotFor] recalculates, in words: there is no user document,
    or [Number(balance || 0)] is not finite, or it is negative. *)
Definition needs_recalculation (userDoc : option obj) : Prop :=
  userDoc = None
  \/ Js.isFinite (Server.stored_balance userDoc) = false
  \/ Js.lt (Server.stored_balance userDoc) Js.zero = true.

(** [parseFloat(amount) || 0] of a transaction document, in words: the
    number its amount reads as, and 0 when there is none or it is 0. *)
Definition counted (d : obj) : number :=
  let a := Js.parseFloat (Js.get (VObj d) "amount") in
  if Js.isNaN a || Js.is_zero a then Js.zero else a.

(** The sum of a list of numbers, taken from the left starting at 0. *)
Definition total (l : list number) : number := fold_left Js.add l Js.zero.

(** The document written back by the recalculation. *)
Definition healed (p : string) (balance : number) (now : Z) : obj :=
  [("phone", VStr p); ("balance", VNum balance); ("updatedAt", VTime now)].

(** The scenario with the composite index of the ordered query missing. *)
Definition unindexed : world :=
  with_db {| Firestore.transactions := Firestore.transactions (db paid);
             Firestore.users := Firestore.users (db paid);
             Firestore.index_ready := false;
             Firestore.clock := Firestore.clock (db paid) |} paid.


(** The list entry made from a document created at [t]. *)
Definition listed (te : Z * (string * obj)) : value :=
  let d := VObj (snd (snd te)) in
  VObj [("id", VStr (fst (snd te)));
        ("amount", Js.get d "amount" ||| VNum Js.zero);
        ("status", Js.get d "status" ||| VStr "PENDING");
        ("date", VTime (fst te));
        ("reference", Js.get d "reference" ||| VStr (fst (snd te)))].

(** The identity has a transaction that carries a creation time. *)
Definition has_history (w : world) (p : string) : Prop :=
  exists id d t,
    Firestore.transactions (db w) !! id = Some d
    /\ Firestore.field_is "phone" p d = true
    /\ Firestore.created_at d = Some t.

(** The reference [/pay] makes from the clock reading [now_ms]. *)
Definition order_reference (now_ms : Z) : string :=
  "ORDER-" ++ Js.string_of_number (Js.of_Z now_ms).

(** A gateway reply that turns the payment down. *)
Definition declined : gateway :=
  GwData (VObj [("success", VBool false); ("error", VStr "Insufficient funds")]).

(** The world of [/pay] at the moment [axios.post] is called: the
    PENDING document is written and announced, the request is sent. *)
Definition awaiting_gateway (e : env) (formattedPhone : string) (amount : value)
    (now_ms : Z) (w : world) : world :=
  let external_reference := order_reference now_ms in
  let rounded := Js.round (Js.to_number amount) in
  log (Posted Server.gateway_url
         (VObj [("amount", VNum rounded);
                ("phone_number", VStr formattedPhone);
                ("external_reference", VStr external_reference);
                ("customer_name", VStr "Customer");
                ("callback_url",
                 VStr (Js.to_string (env_value (BASE_URL e)) ++ "/callback?secret="
                       ++ Js.to_string (env_value (CALLBACK_SECRET e))));
                ("channel_id", env_value (CHANNEL_ID e) ||| VStr "000041")])
         (Some Server.gateway_timeout))
    (Server.broadcast formattedPhone (VStr "PENDING") (VStr external_reference)
       (write_transaction external_reference
          [("phone", VStr formattedPhone); ("amount", VNum rounded);
           ("status", VStr "PENDING");
           ("reference", VStr external_reference);
           ("createdAt", serverTimestamp w)] false w)).

(** A callback payload for the transaction of the scenario carrying
    the given extra field. *)
Definition payload_with (k : string) (v : value) : value :=
  VObj [("external_reference", VStr order1);
        ("phone_number", VStr alice);
        ("amount", VNum (Fin 100));
        (k, v)].





(** [k] is not among the fields of [o]. *)
Definition absent (k : string) (o : obj) : bool :=
  forallb (fun kv => negb (String.eqb k (fst kv))) o.

(** Values that a merged write stores as they are. *)
Definition scalar (v : value) : bool :=
  match v with VObj _ => false | _ => true end.

(** The world after a callback that passed validation and was classified
    as a success. *)
Definition after_success (data : value) (x : Server.extracted) (ph id : string)
    (w : world) : world :=
  Server.broadcast ph (VStr "SUCCESS") (Server.reference x)
    (credit ph (VNum (Server.amount x))
       (write_transaction id
          [("phone", VStr ph); ("amount", VNum (Server.amount x));
           ("status", VStr "SUCCESS");
           ("reference", Server.reference x);
           ("callback", data);
           ("updatedAt", serverTimestamp w)] true w)).

(** The world after one that was classified as a failure. *)
Definition after_failure (data : value) (x : Server.extracted) (ph id : string)
    (w : world) : world :=
  Server.broadcast ph (VStr "FAILED") (Server.reference x)
    (write_transaction id
       [("status", VStr "FAILED"); ("callback", data);
        ("updatedAt", serverTimestamp w)] true w).

(** Every entry kept by the ordered query carries the creation time it
    was sorted by. *)
Definition timed (te : Z * (string * obj)) : Prop :=
  Firestore.created_at (snd (snd te)) = Some (fst te).

(** A callback that reports success with a negative amount. *)
Definition negative_payload : value :=
  VObj [("external_reference", VStr order1);
        ("phone_number", VStr alice);
        ("amount", VNum (Fin (-5)));
        ("success", VBool true);
        ("status", VStr "completed")].

(** A callback that reports success and carries no amount. *)
Definition amountless_payload : value :=
  VObj [("external_reference", VStr order1);
        ("phone_number", VStr alice);
        ("success", VBool true);
        ("status", VStr "completed")].

(** A success callback for a reference that [/pay] never created, sent
    to the empty world: the transaction document it creates has no
    [createdAt]. *)
Definition unsolicited : world :=
  snd (Server.callback env_secret (VStr "s3cret") success_payload empty_world).

(** A normalised identity: twelve decimal digits, the first three being
    254. *)
Definition canonical (ph : string) : Prop :=
  String.length ph = 12%nat
  /\ Js.startsWith "254" ph = true
  /\ Js.only_digits ph = ph.

(** A national subscriber number: nine decimal digits, the first a 7. *)
Definition subscriber (d : string) : Prop :=
  String.length d = 9%nat
  /\ Js.startsWith "7" d = true
  /\ Js.only_digits d = d.

(** A response stops accepting writes. *)
Definition break (r : nat) (w : world) : world :=
  {| db := db w; sseClients := sseClients w; timers := timers w;
     next_timer := next_timer w; broken := {[r]} ∪ broken w; trace := trace w |}.

(** The connection [c] is registered for the identity [p]. *)
Definition registered (w : world) (p : string) (c : client) : Prop :=
  exists l, sseClients w !! p = Some l /\ c ∈ l.

(** What can happen to the service: a request is served, the [close]
    listener of a stream fires, a heartbeat that is still running fires,
    or a response stops accepting writes. *)
Inductive step (e : env) (w : world) : world -> Prop :=
  | served (q : Server.request) : step e w (snd (Server.serve e q w))
  | closed (phone : string) (r : nat) : step e w (Server.on_close phone r w)
  | beat (p : string) (c : client) (now : Z) :
      registered w p c -> hb c ∈ timers w -> step e w (Server.heartbeat c now w)
  | broke (r : nat) : step e w (break r w).

(** The registry and the heartbeats agree: no identity is mapped to an
    empty set, the intervals that run are exactly the heartbeats of the
    registered connections, no two connections share one, and every
    interval was handed out before [next_timer]. *)
Definition hub_ok (w : world) : Prop :=
  (forall p, sseClients w !! p <> Some [])
  /\ (forall h, h ∈ timers w <-> exists p c, registered w p c /\ hb c = h)
  /\ (forall p l, sseClients w !! p = Some l -> NoDup (map hb l))
  /\ (forall p p' c c', p <> p' -> registered w p c -> registered w p' c' -> hb c <> hb c')
  /\ (forall h, h ∈ timers w -> (h < next_timer w)%nat).

(** A number that is not [NaN] and not below zero. *)
Definition nonneg (n : number) : Prop :=
  n = PosInf \/ exists q, n = Fin q /\ (0 <= q)%Q.

(** What the handlers store in the [balance] of a user document, in the
    [amount] of a transaction document and in its [phone]. *)
Definition sound_balance (v : value) : Prop :=
  exists n, v = VNum n /\ nonneg n.

Definition sound_amount (v : value) : Prop :=
  v = VUndef \/ v = VNum NaN \/ exists n, v = VNum n /\ nonneg n.

Definition sound_phone (v : value) : Prop :=
  v = VUndef \/ exists ph, v = VStr ph /\ canonical ph.

Definition user_ok (k : string) (d : obj) : Prop :=
  canonical k
  /\ Js.get (VObj d) "phone" = VStr k
  /\ sound_balance (Js.get (VObj d) "balance").

Definition transaction_ok (d : obj) : Prop :=
  sound_phone (Js.get (VObj d) "phone")
  /\ sound_amount (Js.get (VObj d) "amount").

(** Every user document is kept under a canonical identity, repeats it
    in its [phone] and holds a balance that is a number, not [NaN] and
    not negative; every transaction document names a canonical identity
    or none, and an amount that is a number, not negative, or none. *)
Definition store_ok (s : Firestore.store) : Prop :=
  (forall k d, Firestore.users s !! k = Some d -> user_ok k d)
  /\ (forall id d, Firestore.transactions s !! id = Some d -> transaction_ok d).

(** The document [/pay] writes before it calls the gateway. *)
Definition pending (formattedPhone : string) (rounded : number) (id : string)
    (now : Z) : obj :=
  [("phone", VStr formattedPhone); ("amount", VNum rounded);
   ("status", VStr "PENDING"); ("reference", VStr id); ("createdAt", VTime now)].

(** A request body with a phone that is accepted and an amount that is
    not a number. *)
Definition pay_request_unparseable : value :=
  VObj [("phone", VStr "0712345678"); ("amount", VStr "lots")].

(** A second request, from another subscriber. *)
Definition bob : string := "254798765432".

Definition pay_request_bob : value :=
  VObj [("phone", VStr "0798765432"); ("amount", VNum (Fin (5 # 2)))].

(** The identity as the callback reads it off the payload, before it is
    normalised. *)
Definition raw_phone (data : value) : value :=
  Js.get (Js.get data "result") "Phone"
  ||| Js.get data "phone_number"
  ||| Js.get data "Phone"
  ||| Js.get data "MSISDN".

(** A callback that carries the identity as a JSON number. *)
Definition numeric_phone_payload : value :=
  VObj [("external_reference", VStr order1);
        ("phone_number", VNum (Fin 254712345678));
        ("amount", VNum (Fin 100));
        ("success", VBool true);
        ("status", VStr "completed")].

(** The user document of [p] stores a finite balance that is not
    negative. *)
Definition valid_balance (w : world) (p : string) : Prop :=
  exists d q, Firestore.users (db w) !! p = Some d
              /\ Js.get (VObj d) "balance" = VNum (Fin q) /\ (0 <= q)%Q.

(** The body of [GET /balance] for a snapshot. *)
Definition balance_body (p : string) (balance : number) (transactions : list value) : value :=
  VObj [("success", VBool true); ("phone", VStr p);
        ("balance", VNum balance); ("transactions", VArr transactions)].

(** A gateway reply that accepts the payment and names all six fields
    that are kept, and one that leaves the last of them out. *)
Definition accepted_in_full : value :=
  VObj [("success", VBool true); ("reference", VStr "SW-1");
        ("transaction_id", VStr "T-1"); ("checkout_request_id", VStr "ws_CO_1");
        ("merchant_request_id", VStr "M-1"); ("channel_type", VStr "till");
        ("message", VStr "sent")].

Definition accepted_in_part : value :=
  VObj [("success", VBool true); ("reference", VStr "SW-1");
        ("transaction_id", VStr "T-1"); ("checkout_request_id", VStr "ws_CO_1");
        ("merchant_request_id", VStr "M-1"); ("channel_type", VStr "till")].

(** The world of the [/pay] of [src/server.js] when [axios.post] is
    called. *)
Definition legacy_awaiting (e : env) (formattedPhone : string) (amount : value)
    (now_ms : Z) (w : world) : world :=
  let external_reference := order_reference now_ms in
  let rounded := Js.round (Js.to_number amount) in
  log (Posted Legacy.gateway_url
         (VObj [("amount", VNum rounded);
                ("phone_number", VStr formattedPhone);
                ("external_reference", VStr external_reference);
                ("customer_name", VStr "Customer");
                ("callback_url",
                 VStr (Js.to_string (env_value (BASE_URL e)) ++ "/callback?secret="
                       ++ Js.to_string (env_value (CALLBACK_SECRET e))));
                ("channel_id", env_value (CHANNEL_ID e) ||| VStr "000041")])
         None)
    (write_transaction external_reference
       [("phone", VStr formattedPhone); ("amount", VNum rounded);
        ("status", VStr "PENDING");
        ("createdAt", serverTimestamp w)] false w).

(** A manual update that names no status, and one to a status that is
    neither SUCCESS nor FAILED. *)
Definition no_status : value := VObj [].

Definition force_pending : value := VObj [("status", VStr "pending")].

(** A callback whose status is a number. *)
Definition status_code_payload : value :=
  VObj [("external_reference", VStr order1);
        ("phone_number", VStr alice);
        ("amount", VNum (Fin 100));
        ("status", VNum (Fin 1))].

(** The world of the first [/pay] when [axios.post] is called. *)
Definition first_awaiting (e : env) (formattedPhone : string) (amount : value)
    (now_ms : Z) (w : world) : world :=
  let external_reference := order_reference now_ms in
  let rounded := Js.round (Js.to_number amount) in
  log (Posted First.gateway_url
         (VObj [("amount", VNum rounded);
                ("phone_number", VStr formattedPhone);
                ("external_reference", VStr external_reference);
                ("customer_name", VStr "Customer");
                ("callback_url",
                 VStr (Js.to_string (env_value (BASE_URL e)) ++ "/callback?secret="
                       ++ Js.to_string (env_value (CALLBACK_SECRET e))));
                ("channel_id", VStr "000041")])
         None)
    (write_transaction external_reference
       [("phone", VStr formattedPhone); ("amount", VNum rounded);
        ("status", VStr "PENDING");
        ("createdAt", serverTimestamp w)] false w).

(** [balance || 0] of a user document, 0 when there is none. *)
Definition stored_or_zero (userDoc : option obj) : value :=
  match userDoc with
  | Some d => Js.get (VObj d) "balance" ||| VNum Js.zero
  | None => VNum Js.zero
  end.

(* ===================================================================== *)
(** * Properties *)
(* ===================================================================== *)

(** Two values with different readings are different. *)
Lemma differ {A : Type} (x y a b : A) : x = a -> y = b -> a <> b -> x <> y.
Proof. intros -> ->. done. Qed.

(** ** Documents *)

Lemma lookup_set_field_eq k v o :
  Js.lookup_field k (Firestore.set_field k v o) = Some v.
Proof.
  induction o as [|[k' v'] o IH]; simpl.
  - now rewrite String.eqb_refl.
  - destruct (String.eqb k k') eqn:E; simpl.
    + now rewrite String.eqb_refl.
    + now rewrite E.
Qed.

Lemma lookup_set_field_ne k k' v o :
  k <> k' ->
  Js.lookup_field k (Firestore.set_field k' v o) = Js.lookup_field k o.
Proof.
  intros Hne. induction o as [|[k2 v2] o IH]; simpl.
  - destruct (String.eqb k k') eqn:E; [apply String.eqb_eq in E; done | done].
  - destruct (String.eqb k' k2) eqn:E; simpl.
    + apply String.eqb_eq in E. subst k2.
      destruct (String.eqb k k') eqn:E'; [apply String.eqb_eq in E'; done | done].
    + destruct (String.eqb k k2); [done | apply IH].
Qed.

(** ** What the helpers leave alone *)

Section Frames.

Variables (p : string) (w : world).

Lemma snapshotFor_transactions :
  Firestore.transactions (db (snd (Server.snapshotFor p w)))
  = Firestore.transactions (db w).
Proof. unfold Server.snapshotFor. now destruct (Server.invalid _). Qed.

Lemma snapshotFor_registry :
  sseClients (snd (Server.snapshotFor p w)) = sseClients w
  /\ timers (snd (Server.snapshotFor p w)) = timers w
  /\ broken (snd (Server.snapshotFor p w)) = broken w
  /\ next_timer (snd (Server.snapshotFor p w)) = next_timer w.
Proof. unfold Server.snapshotFor. now destruct (Server.invalid _). Qed.

End Frames.

Lemma removeSseClient_db p r w : db (Server.removeSseClient p r w) = db w.
Proof.
  unfold Server.removeSseClient. destruct (sseClients w !! p); [|done].
  now destruct (Server.remove_first r l).
Qed.

Lemma push_db p payload w c : db (Server.push p payload w c) = db w.
Proof.
  unfold Server.push, Server.write. case_bool_decide; simpl; [|done].
  now rewrite removeSseClient_db.
Qed.

Lemma pushes_db p payload set w :
  db (fold_left (Server.push p payload) set w) = db w.
Proof.
  revert w. induction set as [|c set IH]; intros w; simpl; [done|].
  now rewrite IH, push_db.
Qed.

Lemma broadcast_transactions p st r w :
  Firestore.transactions (db (Server.broadcast p st r w))
  = Firestore.transactions (db w).
Proof.
  unfold Server.broadcast. destruct (sseClients w !! p) as [[|c set]|]; try done.
  destruct (Server.snapshotFor p w) as [snap w1] eqn:E.
  rewrite pushes_db. change w1 with (snd (snap, w1)). rewrite <- E.
  apply snapshotFor_transactions.
Qed.

(** ** The shared secret *)

Lemma is_str_false s v : v <> VStr s -> Js.is_str s v = false.
Proof.
  intros Hne. destruct v; try done. simpl.
  destruct (String.eqb s0 s) eqn:E; [|done].
  apply String.eqb_eq in E. congruence.
Qed.

Lemma truthy_str s : s <> "" -> Js.truthy (VStr s) = true.
Proof.
  intros Hne. simpl. destruct (String.eqb s "") eqn:E; [|done].
  apply String.eqb_eq in E. done.
Qed.

(** C9. With a callback secret configured, a request whose [secret] query
    parameter differs from it is answered 401 with result code 1 before
    the payload is looked at, and the world is left exactly as it was. *)
Theorem wrong_secret_rejected (e : env) (s : string) (secret data : value) (w : world) :
  CALLBACK_SECRET e = Some s ->
  s <> "" ->
  secret <> VStr s ->
  Server.callback e secret data w = (Json 401 (Server.ack 1 "Unauthorized"), w).
Proof.
  intros He Hs Hne. unfold Server.callback, Server.unauthorized.
  now rewrite He, (truthy_str _ Hs), (is_str_false _ _ Hne).
Qed.

Lemma wrong_secret_rejected_witness :
  CALLBACK_SECRET env_secret = Some "s3cret"
  /\ "s3cret" <> ""
  /\ VStr "guess" <> VStr "s3cret"
  /\ Server.callback env_secret (VStr "guess") success_payload initiated
     = (Json 401 (Server.ack 1 "Unauthorized"), initiated).
Proof.
  split; [reflexivity|]. split; [discriminate|]. split; [discriminate|].
  apply (wrong_secret_rejected env_secret "s3cret"); [reflexivity | discriminate | discriminate].
Defined.

(** C10. When [CALLBACK_SECRET] is unset or empty neither deployment
    checks anything: whatever the [secret] parameter is, or when it is
    absent, the payload is processed, and such a request can create a
    SUCCESS transaction and a balance. *)
Theorem unset_secret_disables_check (e : env) (secret data : value) (w : world) :
  secret_missing e ->
  Server.callback e secret data w
  = match Server.callback_body data w with
    | (Ok r, w') => (r, w')
    | (Throw _, w') => (Json 500 (Server.ack 1 "Failed"), w')
    end
  /\ Legacy.callback e secret data w
     = match Legacy.callback_body data w with
       | (Ok r, w') => (r, w')
       | (Throw _, w') => (Json 500 (Legacy.ack 1 "Failed"), w')
       end
  /\ (let w' := snd (Server.callback e secret success_payload empty_world) in
      txn_status empty_world order1 = VUndef
      /\ txn_status w' order1 = VStr "SUCCESS"
      /\ user_balance empty_world alice = None
      /\ user_balance w' alice = Some (VNum (Fin 100))).
Proof.
  intros Hmiss.
  assert (Hs : Server.unauthorized e secret = false).
  { unfold Server.unauthorized. now destruct Hmiss as [-> | ->]. }
  assert (Hl : Legacy.unauthorized e secret = false).
  { unfold Legacy.unauthorized. now destruct Hmiss as [-> | ->]. }
  split; [|split].
  - unfold Server.callback. now rewrite Hs.
  - unfold Legacy.callback. now rewrite Hl.
  - unfold Server.callback. rewrite Hs. repeat split; reflexivity.
Qed.

Lemma unset_secret_disables_check_witness :
  secret_missing env_open
  /\ Server.callback env_open (VStr "anything") success_payload initiated
     = match Server.callback_body success_payload initiated with
       | (Ok r, w') => (r, w')
       | (Throw _, w') => (Json 500 (Server.ack 1 "Failed"), w')
       end.
Proof.
  split; [left; reflexivity|].
  apply (unset_secret_disables_check env_open (VStr "anything") success_payload initiated).
  left; reflexivity.
Defined.

(** ** Validation of the callback *)

(** X20.  The validation of this deployment: an authorised callback whose
    JSON payload lacks the identity or the reference, or carries an
    amount that [parseFloat] does not read as a number or reads as a
    number that is not positive, is answered 200 with result code 0 and
    an "Ignored" description, and the world (transactions, balances,
    connections, trace) is unchanged. *)
Lemma invalid_callback_ignored (e : env) (secret data : value) (w : world)
    (x : Server.extracted) :
  Server.unauthorized e secret = false ->
  Js.is_json data = true ->
  Server.extract data = Ok x ->
  rejected_by_validation x ->
  exists desc,
    Server.callback e secret data w = (Json 200 (Server.ack 0 desc), w)
    /\ String.prefix "Ignored" desc = true.
Proof.
  intros Hauth _ Hx Hrej. unfold Server.callback, Server.callback_body.
  rewrite Hauth, Hx.
  destruct (Server.phone x) as [ph|] eqn:Hp;
    [destruct (Js.truthy (Server.reference x)) eqn:Hr|].
  - destruct Hrej as [H|[H|[H|H]]]; try congruence.
    + rewrite H. simpl. exists "Ignored invalid amount". now split.
    + rewrite H, orb_true_r. exists "Ignored invalid amount". now split.
  - exists "Ignored (missing ids)". now split.
  - exists "Ignored (missing ids)". now split.
Qed.

(** The amount is read as [parseFloat] reads it: a string that is too
    small for binary64 is 0, and the callback is ignored. *)
Remark tiny_amount_is_ignored :
  Server.callback env_secret (VStr "s3cret") tiny_amount_payload initiated
  = (Json 200 (Server.ack 0 "Ignored invalid amount"), initiated).
Proof. reflexivity. Qed.

(** When the identity cannot be read at all ([formatPhone] throws on a
    field that is not a string) the handler answers 500 with result code
    1; the world is unchanged there too. *)
Remark unreadable_callback_fails (e : env) (secret data : value) (w : world) (m : string) :
  Server.unauthorized e secret = false ->
  Server.extract data = Throw m ->
  Server.callback e secret data w = (Json 500 (Server.ack 1 "Failed"), w).
Proof.
  intros Hauth Hx. unfold Server.callback, Server.callback_body.
  now rewrite Hauth, Hx.
Qed.

Lemma invalid_callback_ignored_witness :
  Server.unauthorized env_secret (VStr "s3cret") = false
  /\ (exists x, Server.extract no_reference_payload = Ok x /\ rejected_by_validation x)
  /\ exists desc,
       Server.callback env_secret (VStr "s3cret") no_reference_payload initiated
       = (Json 200 (Server.ack 0 desc), initiated)
       /\ String.prefix "Ignored" desc = true.
Proof.
  split; [reflexivity|]. split.
  - eexists. split; [reflexivity|]. right; left. reflexivity.
  - eapply (invalid_callback_ignored env_secret (VStr "s3cret") no_reference_payload initiated).
    + reflexivity.
    + reflexivity.
    + reflexivity.
    + right; left. reflexivity.
Defined.

(** ** The two branches of the callback *)

Lemma doc_id_truthy v id : Firestore.doc_id v = Ok id -> v = VStr id /\ Js.truthy v = true.
Proof.
  destruct v; try discriminate. destruct s; [discriminate|].
  intros [= <-]. now split.
Qed.

(** A plain name is a document id. *)
Lemma plain_doc_id v id :
  v = VStr id -> Firestore.plain_name id = true -> Firestore.doc_id v = Ok id.
Proof. intros -> H. destruct id; [discriminate | reflexivity]. Qed.

Section CallbackBranches.

Variables (e : env) (secret data : value) (w : world).
Variables (x : Server.extracted) (ph id : string).

Hypothesis Hauth : Server.unauthorized e secret = false.
Hypothesis Hx : Server.extract data = Ok x.
Hypothesis Hph : Server.phone x = Some ph.
Hypothesis Hid : Firestore.doc_id (Server.reference x) = Ok id.
Hypothesis Hnan : Js.isNaN (Server.amount x) = false.
Hypothesis Hpos : Js.le (Server.amount x) Js.zero = false.

Lemma callback_success_branch :
  Server.isSuccess data = Ok true ->
  Server.callback e secret data w
  = (Json 200 (Server.ack 0 "OK"), after_success data x ph id w).
Proof.
  intros Hs. unfold Server.callback, Server.callback_body.
  rewrite Hauth, Hx, Hph.
  destruct (doc_id_truthy _ _ Hid) as [_ ->].
  now rewrite Hnan, Hpos, Hs, Hid.
Qed.

Lemma callback_failure_branch :
  Server.isSuccess data = Ok false ->
  Server.callback e secret data w
  = (Json 200 (Server.ack 0 "OK"), after_failure data x ph id w).
Proof.
  intros Hs. unfold Server.callback, Server.callback_body.
  rewrite Hauth, Hx, Hph.
  destruct (doc_id_truthy _ _ Hid) as [_ ->].
  now rewrite Hnan, Hpos, Hs, Hid.
Qed.

End CallbackBranches.

(** ** Status after a write *)

Lemma merge_value_scalar v old : scalar v = true -> Firestore.merge_value v old = v.
Proof. destruct v; try discriminate; now destruct old. Qed.

Lemma lookup_field_absent k o : absent k o = true -> Js.lookup_field k o = None.
Proof.
  induction o as [|[k' v'] o IH]; simpl; [done|].
  intros [H1 H2]%andb_true_iff. apply negb_true_iff in H1.
  rewrite H1. now apply IH.
Qed.

Lemma lookup_field_app k pre o :
  absent k pre = true -> Js.lookup_field k (pre ++ o)%list = Js.lookup_field k o.
Proof.
  induction pre as [|[k' v'] pre IH]; simpl; [done|].
  intros [H1 H2]%andb_true_iff. apply negb_true_iff in H1.
  rewrite H1. now apply IH.
Qed.

Lemma merge_fields_app a b old :
  Firestore.merge_fields (a ++ b)%list old
  = Firestore.merge_fields b (Firestore.merge_fields a old).
Proof.
  revert old. induction a as [|[k v] a IH]; intros old; simpl; [done|].
  apply IH.
Qed.

Lemma lookup_merge_fields_absent k new old :
  absent k new = true ->
  Js.lookup_field k (Firestore.merge_fields new old) = Js.lookup_field k old.
Proof.
  revert old. induction new as [|[k' v'] new IH]; intros old; simpl; [done|].
  intros [H1 H2]%andb_true_iff. apply negb_true_iff in H1.
  rewrite IH by done. apply lookup_set_field_ne.
  intros ->. now rewrite String.eqb_refl in H1.
Qed.

(** After a write, merged or not, a scalar field of the data is read back
    as written. *)
Lemma lookup_merged k v pre post stored :
  scalar v = true -> absent k pre = true -> absent k post = true ->
  Js.lookup_field k (Firestore.merged (pre ++ (k, v) :: post)%list stored) = Some v.
Proof.
  intros Hv Hpre Hpost. destruct stored as [d|]; simpl.
  - rewrite merge_fields_app. simpl.
    rewrite lookup_merge_fields_absent by done.
    rewrite lookup_set_field_eq.
    destruct (Js.lookup_field k _); [|done]. now rewrite merge_value_scalar.
  - rewrite lookup_field_app by done. simpl. now rewrite String.eqb_refl.
Qed.

Lemma status_after_write id s pre post w :
  absent "status" pre = true -> absent "status" post = true ->
  txn_status (write_transaction id (pre ++ ("status", VStr s) :: post)%list true w) id
  = VStr s.
Proof.
  intros Hpre Hpost. unfold txn_status, write_transaction. simpl.
  rewrite lookup_insert_eq. simpl. now rewrite lookup_merged.
Qed.

Lemma txn_status_eq w w' id :
  Firestore.transactions (db w') = Firestore.transactions (db w) ->
  txn_status w' id = txn_status w id.
Proof. unfold txn_status. now intros ->. Qed.

Lemma credit_transactions ph a w :
  Firestore.transactions (db (credit ph a w)) = Firestore.transactions (db w).
Proof. reflexivity. Qed.

Lemma status_after_success data x ph id w :
  txn_status (after_success data x ph id w) id = VStr "SUCCESS".
Proof.
  unfold after_success.
  rewrite (txn_status_eq _ _ _ (broadcast_transactions _ _ _ _)).
  rewrite (txn_status_eq _ _ _ (credit_transactions _ _ _)).
  now apply (status_after_write id "SUCCESS"
               [("phone", VStr ph); ("amount", VNum (Server.amount x))]).
Qed.

Lemma status_after_failure data x ph id w :
  txn_status (after_failure data x ph id w) id = VStr "FAILED".
Proof.
  unfold after_failure.
  rewrite (txn_status_eq _ _ _ (broadcast_transactions _ _ _ _)).
  now apply (status_after_write id "FAILED" []).
Qed.

Lemma broadcast_to_transactions v st r w :
  Firestore.transactions (db (Server.broadcast_to v st r w))
  = Firestore.transactions (db w).
Proof. destruct v; try done. apply broadcast_transactions. Qed.

Lemma update_status_writes ref body w d st text :
  Firestore.transactions (db w) !! ref = Some d ->
  Js.get_strict body "status" = Ok st ->
  Js.as_string (st ||| VStr "") = Ok text ->
  txn_status (snd (Server.update_status ref body w)) ref = VStr (Js.toUpperCase text).
Proof.
  intros Hd Hst Htext. unfold Server.update_status, Server.update_status_body.
  rewrite Hst. simpl db. rewrite Hd, Htext.
  set (w1 := write_transaction ref _ true _).
  assert (H1 : txn_status w1 ref = VStr (Js.toUpperCase text)).
  { now apply (status_after_write ref _ []). }
  destruct (_ && _ && _).
  - destruct (Firestore.doc_id _); cbn [snd]; [|done].
    rewrite <- H1. apply txn_status_eq.
    now rewrite broadcast_transactions, credit_transactions.
  - destruct (_ && _); cbn [snd]; [|done].
    rewrite <- H1. apply txn_status_eq, broadcast_to_transactions.
Qed.

(** ** No terminal status *)

(** C2, as stated, fails: the transaction of the scenario is SUCCESS, a
    failure callback for the same reference arrives, and the stored
    status becomes FAILED. *)
Lemma success_overwritten_by_failure :
  let w' := snd (Server.callback env_secret (VStr "s3cret") failure_payload paid) in
  txn_status paid order1 = VStr "SUCCESS"
  /\ txn_status w' order1 = VStr "FAILED"
  /\ txn_status w' order1 <> txn_status paid order1.
Proof.
  intros w'.
  assert (H0 : txn_status paid order1 = VStr "SUCCESS") by reflexivity.
  assert (H1 : txn_status w' order1 = VStr "FAILED") by reflexivity.
  split; [exact H0|]. split; [exact H1|].
  apply (differ _ _ _ _ H1 H0). discriminate.
Qed.

(** C2, amended.  The stored status is whatever the latest operation
    writes, whatever it was before (SUCCESS and FAILED included).  A
    validated callback with a plain payload and a plain reference writes
    FAILED when it is classified as failure and SUCCESS when it is
    classified as success, and a manual update of an existing
    transaction with a plain reference, by a JSON body, writes the
    requested status, an ASCII string, in upper case. *)
Theorem status_follows_latest_operation
    (e : env) (secret data : value) (w : world) (x : Server.extracted)
    (ph id ref : string) (body st : value) (text : string) (d : obj) :
  Server.unauthorized e secret = false ->
  Firestore.plain_payload data = true ->
  Server.extract data = Ok x ->
  Server.phone x = Some ph ->
  Server.reference x = VStr id ->
  Firestore.plain_name id = true ->
  Js.isNaN (Server.amount x) = false ->
  Js.le (Server.amount x) Js.zero = false ->
  Firestore.plain_name ref = true ->
  Firestore.transactions (db w) !! ref = Some d ->
  Js.is_json body = true ->
  Js.get_strict body "status" = Ok st ->
  Js.as_string (st ||| VStr "") = Ok text ->
  Js.is_ascii text = true ->
  (Server.isSuccess data = Ok false ->
   txn_status (snd (Server.callback e secret data w)) id = VStr "FAILED")
  /\ (Server.isSuccess data = Ok true ->
      txn_status (snd (Server.callback e secret data w)) id = VStr "SUCCESS")
  /\ txn_status (snd (Server.update_status ref body w)) ref
     = VStr (Js.toUpperCase text).
Proof.
  intros Hauth _ Hx Hph Href Hplain Hnan Hpos _ Hd _ Hst Htext _.
  assert (Hid : Firestore.doc_id (Server.reference x) = Ok id) by now apply plain_doc_id.
  split; [|split].
  - intros Hs. rewrite (callback_failure_branch e secret data w x ph id) by done.
    apply status_after_failure.
  - intros Hs. rewrite (callback_success_branch e secret data w x ph id) by done.
    apply status_after_success.
  - now apply (update_status_writes ref body w d st text).
Qed.

Lemma status_follows_latest_operation_witness :
  txn_status paid order1 = VStr "SUCCESS"
  /\ txn_status (snd (Server.callback env_secret (VStr "s3cret") failure_payload paid)) order1
     = VStr "FAILED"
  /\ txn_status
       (snd (Server.update_status order1 (VObj [("status", VStr "pending")]) paid)) order1
     = VStr "PENDING".
Proof.
  split; [reflexivity|].
  assert (Hd : Firestore.transactions (db paid) !! order1 = Some paid_transaction)
    by reflexivity.
  pose proof (status_follows_latest_operation env_secret (VStr "s3cret")
                failure_payload paid
                {| Server.phone := Some alice; Server.reference := VStr order1;
                   Server.rawAmount := VNum (Fin 100); Server.amount := Fin 100 |}
                alice order1 order1 (VObj [("status", VStr "pending")])
                (VStr "pending") "pending" paid_transaction
                eq_refl eq_refl eq_refl eq_refl eq_refl eq_refl eq_refl eq_refl eq_refl
                Hd eq_refl eq_refl eq_refl eq_refl)
    as [Hf [_ Hu]].
  split; [apply Hf; reflexivity | exact Hu].
Defined.

(** ** Crediting *)

Lemma max_double_pos : (0 < Js.max_double)%Q.
Proof. reflexivity. Qed.

Lemma norm_in_range q :
  (- Js.max_double < q)%Q -> (q < Js.max_double)%Q -> Js.norm q = Fin (Qred q).
Proof.
  intros Hlo Hhi. unfold Js.norm.
  destruct (Qle_bool Js.max_double q) eqn:E1.
  { apply Qle_bool_iff in E1. generalize dependent Js.max_double. intros. lra. }
  destruct (Qle_bool q (- Js.max_double)) eqn:E2; [|done].
  apply Qle_bool_iff in E2. generalize dependent Js.max_double. intros. lra.
Qed.

Lemma Qle_bool_false x y : (y < x)%Q -> Qle_bool x y = false.
Proof.
  intros H. destruct (Qle_bool x y) eqn:E; [|done].
  apply Qle_bool_iff in E. lra.
Qed.

Lemma Qeq_bool_false x y : ~ (x == y)%Q -> Qeq_bool x y = false.
Proof.
  intros H. destruct (Qeq_bool x y) eqn:E; [|done].
  apply Qeq_bool_iff in E. done.
Qed.

(** ** Rounding *)

Lemma two_pos e : (0 < 2 ^ e)%Q.
Proof. now apply Qpower_0_lt. Qed.

Lemma Qred_idem q : Qred (Qred q) = Qred q.
Proof. apply Qred_complete, Qred_correct. Qed.

Lemma Qdiv_le_cross a b c d :
  (0 < a)%Q -> (a <= c)%Q -> (0 < d)%Q -> (d <= b)%Q -> (a / b <= c / d)%Q.
Proof.
  intros Ha Hac Hd Hdb.
  assert (Hb : (0 < b)%Q) by lra.
  apply Qle_shift_div_l; [exact Hd|].
  unfold Qdiv. rewrite <- Qmult_assoc, (Qmult_comm (/ b)), Qmult_assoc.
  apply Qle_shift_div_r; [exact Hb|]. nra.
Qed.

(** The exponent that [log2_floor] finds is not too large. *)
Lemma log2_floor_le x : (0 < x)%Q -> (2 ^ Js.log2_floor x <= x)%Q.
Proof.
  intros Hx. unfold Js.log2_floor.
  set (n := Qnum x). set (d := Zpos (Qden x)).
  destruct (Qle_bool (2 ^ (Z.log2 n - Z.log2 d)) x) eqn:E.
  - now apply Qle_bool_iff.
  - assert (Hn : (0 < n)%Z).
    { unfold Qlt in Hx. simpl in Hx. unfold n. lia. }
    assert (Hd : (0 < d)%Z) by (unfold d; lia).
    pose proof (Z.log2_spec n Hn) as [Hn1 _].
    pose proof (Z.log2_spec d Hd) as [_ Hd2].
    pose proof (Z.log2_nonneg n) as Hln. pose proof (Z.log2_nonneg d) as Hld.
    replace (Z.log2 n - Z.log2 d - 1)%Z with (Z.log2 n - Z.succ (Z.log2 d))%Z by lia.
    rewrite Qpower_minus by discriminate.
    change (2:Q) with (inject_Z 2).
    rewrite <- !Zpower_Qpower by lia.
    assert (Hx' : (x == inject_Z n / inject_Z d)%Q).
    { unfold n, d. rewrite <- Qmake_Qdiv. now destruct x. }
    rewrite Hx'.
    apply Qdiv_le_cross.
    + rewrite <- (Zlt_Qlt 0). apply Z.pow_pos_nonneg; lia.
    + now rewrite <- Zle_Qle.
    + now rewrite <- (Zlt_Qlt 0).
    + rewrite <- Zle_Qle. lia.
Qed.

(** An integer is the nearest integer to itself. *)
Lemma nearest_even_integer x z : (x == inject_Z z)%Q -> Js.nearest_even x = z.
Proof.
  intros H. unfold Js.nearest_even.
  rewrite (Qfloor_comp _ _ H), Qfloor_Z.
  assert (Hc : (x - inject_Z z ?= 1 # 2)%Q = Lt).
  { apply Qlt_alt. rewrite H. unfold Qminus. rewrite Qplus_opp_r. reflexivity. }
  now rewrite Hc.
Qed.

Lemma nearest_even_nonneg x : (0 <= x)%Q -> (0 <= Js.nearest_even x)%Z.
Proof.
  intros H. unfold Js.nearest_even.
  assert (Hf : (0 <= Qfloor x)%Z).
  { change 0%Z with (Qfloor 0). now apply Qfloor_resp_le. }
  destruct (_ ?= _)%Q; [destruct (Z.even _) | |]; lia.
Qed.

Lemma round_positive_nonneg x : (0 < x)%Q -> nonneg (Js.round_positive x).
Proof.
  intros Hx. unfold Js.round_positive.
  set (e := Z.max _ _). set (m := Js.nearest_even _).
  destruct (_ || _); [now left|]. right. eexists. split; [reflexivity|].
  rewrite Qred_correct.
  assert (Hm : (0 <= m)%Z).
  { apply nearest_even_nonneg. apply Qle_shift_div_l; [apply two_pos | lra]. }
  apply Qmult_le_0_compat; [now rewrite <- (Zle_Qle 0) | apply Qlt_le_weak, two_pos].
Qed.

Lemma round_positive_representable x m e :
  (0 < m < 2 ^ 53)%Z -> (-1074 <= e <= 971)%Z -> (x == inject_Z m * 2 ^ e)%Q ->
  Js.round_positive x = Fin (Qred x).
Proof.
  intros Hm He Hx.
  assert (Hpos : (0 < x)%Q).
  { rewrite Hx. apply Qmult_lt_0_compat; [now rewrite <- (Zlt_Qlt 0) | apply two_pos]. }
  unfold Js.round_positive.
  set (fl := Js.log2_floor x).
  assert (Hfl : (fl - 52 <= e)%Z).
  { pose proof (log2_floor_le x Hpos) as Hle. fold fl in Hle.
    assert (Hlt : ((2:Q) ^ fl < 2 ^ (53 + e))%Q).
    { eapply Qle_lt_trans; [exact Hle|]. rewrite Hx.
      rewrite Qpower_plus by discriminate.
      apply Qmult_lt_compat_r; [apply two_pos|].
      change (2:Q) with (inject_Z 2). rewrite <- Zpower_Qpower by lia.
      rewrite <- Zlt_Qlt. lia. }
    apply Qpower_lt_compat_l_inv in Hlt; [lia | reflexivity]. }
  set (e' := Z.max (fl - 52) (-1074)).
  assert (He' : (e' <= e)%Z) by (unfold e'; lia).
  assert (Hscaled : (x / 2 ^ e' == inject_Z (m * 2 ^ (e - e')))%Q).
  { rewrite inject_Z_mult, Zpower_Qpower by lia. change (inject_Z 2) with (2:Q).
    rewrite Qpower_minus by discriminate. rewrite Hx. unfold Qdiv.
    now rewrite Qmult_assoc. }
  rewrite (nearest_even_integer _ _ Hscaled).
  assert (Hno : (971 <? e') || ((e' =? 971) && (2 ^ 53 <=? m * 2 ^ (e - e'))) = false).
  { apply orb_false_iff. split; [apply Z.ltb_ge; lia|].
    destruct (e' =? 971) eqn:E; [|reflexivity]. apply Z.eqb_eq in E.
    replace (e - e')%Z with 0%Z by lia. rewrite Z.pow_0_r, Z.mul_1_r.
    apply Z.leb_gt. lia. }
  rewrite Hno. f_equal. apply Qred_complete.
  rewrite <- Hscaled. unfold Qdiv. rewrite <- Qmult_assoc, (Qmult_comm (/ _)).
  rewrite Qmult_inv_r; [apply Qmult_1_r|]. apply Qpower_not_0. discriminate.
Qed.

(** Rounding leaves a binary64 number as it is. *)
Lemma binary64_representable q : representable q -> Js.binary64 q = Fin (Qred q).
Proof.
  intros (m & e & Hm & He & Hq). unfold Js.binary64. cbv zeta.
  pose proof (Qred_correct q) as Hr.
  assert (Hsign : forall r, (r == inject_Z m * 2 ^ e)%Q ->
            ((0 < r)%Q -> (0 < m)%Z) /\ ((r < 0)%Q -> (m < 0)%Z)).
  { intros r Hre. pose proof (two_pos e) as H2. split; intros H.
    - destruct (Z_lt_le_dec 0 m) as [|Hle]; [done|exfalso].
      rewrite Zle_Qle in Hle. rewrite Hre in H. change (inject_Z 0) with 0%Q in Hle. nra.
    - destruct (Z_lt_le_dec m 0) as [|Hle]; [done|exfalso].
      rewrite Zle_Qle in Hle. rewrite Hre in H. change (inject_Z 0) with 0%Q in Hle. nra. }
  destruct (Qnum (Qred q)) as [|p|p] eqn:En.
  - f_equal. symmetry. rewrite <- (Qred_idem q). change 0%Q with (Qred 0).
    apply Qred_complete. unfold Qeq. simpl. rewrite En. reflexivity.
  - assert (Hpos : (0 < Qred q)%Q) by (unfold Qlt; simpl; rewrite En; lia).
    rewrite (round_positive_representable (Qred q) m e); [now rewrite Qred_idem| |done|].
    + split; [|lia]. apply (Hsign (Qred q)); [now rewrite Hr | done].
    + now rewrite Hr.
  - assert (Hneg : (Qred q < 0)%Q) by (unfold Qlt; simpl; rewrite En; lia).
    rewrite (round_positive_representable (- Qred q) (- m) e).
    + unfold Js.negate. f_equal. apply Qred_complete.
      now rewrite Qred_correct, Qopp_involutive.
    + split; [|lia]. assert (m < 0)%Z; [|lia].
      apply (Hsign (Qred q)); [now rewrite Hr | done].
    + done.
    + rewrite Hr, Hq, inject_Z_opp. ring.
Qed.

(** Rounding keeps the sign, and what it returns is in lowest terms. *)
Lemma binary64_nonneg q : (0 <= q)%Q -> nonneg (Js.binary64 q).
Proof.
  intros Hq. unfold Js.binary64. cbv zeta.
  pose proof (Qred_correct q) as Hr.
  destruct (Qnum (Qred q)) as [|p|p] eqn:En.
  - right. exists 0%Q. split; [reflexivity | apply Qle_refl].
  - apply round_positive_nonneg. unfold Qlt. simpl. rewrite En. lia.
  - exfalso. rewrite <- Hr in Hq. unfold Qle in Hq. simpl in Hq. rewrite En in Hq. lia.
Qed.

Lemma binary64_reduced q x : Js.binary64 q = Fin x -> Qred x = x.
Proof.
  unfold Js.binary64. cbv zeta. destruct (Qnum (Qred q)).
  - now intros [= <-].
  - unfold Js.round_positive. destruct (_ || _); [discriminate|].
    intros [= <-]. apply Qred_idem.
  - unfold Js.round_positive. destruct (_ || _); [discriminate|].
    simpl. intros [= <-]. apply Qred_idem.
Qed.

(** ** Rounding is to nearest *)

Lemma Qdiv_lt_cross a b c d :
  (0 < a)%Q -> (a < c)%Q -> (0 < d)%Q -> (d <= b)%Q -> (a / b < c / d)%Q.
Proof.
  intros Ha Hac Hd Hdb.
  assert (Hb : (0 < b)%Q) by lra.
  apply Qlt_shift_div_l; [exact Hd|].
  unfold Qdiv. rewrite <- Qmult_assoc, (Qmult_comm (/ b)), Qmult_assoc.
  apply Qlt_shift_div_r; [exact Hb|]. nra.
Qed.

Lemma log2_floor_lt x : (0 < x)%Q -> (x < 2 ^ (Js.log2_floor x + 1))%Q.
Proof.
  intros Hx. unfold Js.log2_floor.
  set (n := Qnum x). set (d := Zpos (Qden x)).
  destruct (Qle_bool (2 ^ (Z.log2 n - Z.log2 d)) x) eqn:E.
  - assert (Hn : (0 < n)%Z).
    { unfold Qlt in Hx. simpl in Hx. unfold n. lia. }
    assert (Hd : (0 < d)%Z) by (unfold d; lia).
    pose proof (Z.log2_spec n Hn) as [_ Hn2].
    pose proof (Z.log2_spec d Hd) as [Hd1 _].
    pose proof (Z.log2_nonneg n) as Hln. pose proof (Z.log2_nonneg d) as Hld.
    replace (Z.log2 n - Z.log2 d + 1)%Z with (Z.succ (Z.log2 n) - Z.log2 d)%Z by lia.
    rewrite Qpower_minus by discriminate.
    change (2:Q) with (inject_Z 2).
    rewrite <- !Zpower_Qpower by lia.
    assert (Hx' : (x == inject_Z n / inject_Z d)%Q).
    { unfold n, d. rewrite <- Qmake_Qdiv. now destruct x. }
    rewrite Hx'.
    apply Qdiv_lt_cross.
    + now rewrite <- (Zlt_Qlt 0).
    + now rewrite <- Zlt_Qlt.
    + rewrite <- (Zlt_Qlt 0). apply Z.pow_pos_nonneg; lia.
    + now rewrite <- Zle_Qle.
  - replace (Z.log2 n - Z.log2 d - 1 + 1)%Z with (Z.log2 n - Z.log2 d)%Z by lia.
    apply Qnot_le_lt. intros H. apply Qle_bool_iff in H. congruence.
Qed.

(** [nearest_even x] is within one half of [x], and no integer is nearer. *)
Lemma nearest_even_half x :
  (inject_Z (Js.nearest_even x) - (1 # 2) <= x <= inject_Z (Js.nearest_even x) + (1 # 2))%Q.
Proof.
  unfold Js.nearest_even.
  pose proof (Qfloor_le x) as H1. pose proof (Qlt_floor x) as H2.
  rewrite inject_Z_plus in H2. change (inject_Z 1) with 1%Q in H2.
  set (f := Qfloor x) in *.
  destruct (Qcompare_spec (x - inject_Z f) (1 # 2)) as [H|H|H].
  - destruct (Z.even f); [|rewrite inject_Z_plus; change (inject_Z 1) with 1%Q]; lra.
  - lra.
  - rewrite inject_Z_plus. change (inject_Z 1) with 1%Q. lra.
Qed.

Lemma nearest_even_nearest x (k : Z) :
  (Qabs (inject_Z (Js.nearest_even x) - x) <= Qabs (inject_Z k - x))%Q.
Proof.
  pose proof (nearest_even_half x) as [H1 H2].
  set (m := Js.nearest_even x) in *.
  destruct (Z.eq_dec k m) as [->|Hne]; [apply Qle_refl|].
  assert (Hm : (Qabs (inject_Z m - x) <= 1 # 2)%Q).
  { apply Qabs_Qle_condition. lra. }
  eapply Qle_trans; [exact Hm|].
  destruct (Z_lt_le_dec k m) as [Hlt|Hge].
  - assert (H : (inject_Z k + 1 <= inject_Z m)%Q).
    { change 1%Q with (inject_Z 1). rewrite <- inject_Z_plus, <- Zle_Qle. lia. }
    apply (Qabs_case (inject_Z k - x)); intros; lra.
  - assert (H : (inject_Z m + 1 <= inject_Z k)%Q).
    { change 1%Q with (inject_Z 1). rewrite <- inject_Z_plus, <- Zle_Qle. lia. }
    apply (Qabs_case (inject_Z k - x)); intros; lra.
Qed.

Lemma scaled_abs (k : Z) (s : Q) (e : Z) :
  (Qabs (inject_Z k * 2 ^ e - s * 2 ^ e) == Qabs (inject_Z k - s) * 2 ^ e)%Q.
Proof.
  pose proof (two_pos e) as H2.
  setoid_replace (inject_Z k * 2 ^ e - s * 2 ^ e)%Q with ((inject_Z k - s) * 2 ^ e)%Q
    using relation Qeq by ring.
  rewrite Qabs_Qmult. now rewrite (Qabs_pos (2 ^ e)) by lra.
Qed.

Lemma pow2_le a b : (a <= b)%Z -> ((2:Q) ^ a <= 2 ^ b)%Q.
Proof. intros H. now apply Qpower_le_compat_l. Qed.

Lemma pow2_Z (n : Z) : (0 <= n)%Z -> ((2:Q) ^ n == inject_Z (2 ^ n))%Q.
Proof. intros H. now rewrite Zpower_Qpower. Qed.

(** What [round_positive] returns is a binary64 number, and no binary64
    number is nearer to [x]. *)
Lemma round_positive_nearest x r :
  (0 < x)%Q -> Js.round_positive x = Fin r ->
  representable r /\ forall y, representable y -> (Qabs (r - x) <= Qabs (y - x))%Q.
Proof.
  intros Hx. unfold Js.round_positive.
  pose proof (log2_floor_le x Hx) as Hlo. pose proof (log2_floor_lt x Hx) as Hhi.
  set (fl := Js.log2_floor x) in *.
  set (e := Z.max (fl - 52) (-1074)).
  set (s := (x / 2 ^ e)%Q).
  pose proof (nearest_even_half s) as [Hm1 Hm2].
  pose proof (nearest_even_nearest s) as Hnear.
  set (m := Js.nearest_even s) in *.
  destruct ((971 <? e) || ((e =? 971) && (2 ^ 53 <=? m))) eqn:Hover; [discriminate|].
  intros [= <-].
  apply orb_false_iff in Hover as [He1 He2]. apply Z.ltb_ge in He1.
  pose proof (two_pos e) as H2e.
  assert (Hxs : (x == s * 2 ^ e)%Q).
  { unfold s. field. lra. }
  assert (Hs0 : (0 < s)%Q).
  { unfold s. apply Qlt_shift_div_l; [exact H2e | lra]. }
  assert (Hs53 : (s < inject_Z (2 ^ 53))%Q).
  { unfold s. apply Qlt_shift_div_r; [exact H2e|].
    eapply Qlt_le_trans; [exact Hhi|].
    rewrite <- pow2_Z by lia. rewrite <- Qpower_plus by discriminate.
    apply pow2_le. unfold e. lia. }
  clearbody s.
  assert (Hm0 : (0 <= m)%Z).
  { apply nearest_even_nonneg. lra. }
  assert (Hm53 : (m <= 2 ^ 53)%Z).
  { destruct (Z_le_gt_dec m (2 ^ 53)) as [|Hgt]; [done|exfalso].
    assert (H : (inject_Z (2 ^ 53) + 1 <= inject_Z m)%Q).
    { change 1%Q with (inject_Z 1). rewrite <- inject_Z_plus, <- Zle_Qle. lia. }
    lra. }
  assert (Hr : (Qred (inject_Z m * 2 ^ e) == inject_Z m * 2 ^ e)%Q) by apply Qred_correct.
  split.
  - (* a binary64 number *)
    destruct (Z.eq_dec m (2 ^ 53)) as [Heq|Hne].
    + exists (2 ^ 52)%Z, (e + 1)%Z. split; [reflexivity|].
      assert (He : e <> 971%Z).
      { intros E. rewrite E, Z.eqb_refl in He2. simpl in He2.
        apply Z.leb_gt in He2. lia. }
      split; [unfold e in *; lia|].
      rewrite Hr, Heq. rewrite Qpower_plus by discriminate.
      change (2 ^ 53)%Z with (2 ^ 52 * 2)%Z. rewrite inject_Z_mult.
      change (inject_Z 2) with (2:Q). change ((2:Q) ^ 1)%Q with (2:Q). ring.
    + exists m, e. split; [lia|]. split; [unfold e; lia | exact Hr].
  - (* the nearest one *)
    intros y (M & E & HM & HE & Hy).
    rewrite Hr.
    assert (Hrx : (Qabs (inject_Z m * 2 ^ e - x) == Qabs (inject_Z m - s) * 2 ^ e)%Q).
    { rewrite Hxs. apply scaled_abs. }
    pose proof (two_pos E) as H2E.
    destruct (Z_lt_le_dec 0 M) as [HMpos|HMneg].
    + destruct (Z_le_gt_dec e E) as [HeE|HEe].
      * (* [y] is a multiple of [2^e] *)
        assert (Hyk : (y == inject_Z (M * 2 ^ (E - e)) * 2 ^ e)%Q).
        { rewrite Hy, inject_Z_mult, <- pow2_Z by lia.
          rewrite <- Qmult_assoc, <- Qpower_plus by discriminate.
          now replace (E - e + e)%Z with E by lia. }
        rewrite Hrx, Hyk, Hxs, scaled_abs.
        apply Qmult_le_compat_r; [apply Hnear | lra].
      * (* [y] is below [2^fl], which is a multiple of [2^e] below [x] *)
        assert (Hefl : e = (fl - 52)%Z) by (unfold e in *; lia).
        assert (Hy_lt : (y < 2 ^ fl)%Q).
        { rewrite Hy. apply Qlt_le_trans with (inject_Z (2 ^ 53) * 2 ^ E)%Q.
          - apply Qmult_lt_compat_r; [exact H2E|]. rewrite <- Zlt_Qlt. lia.
          - rewrite <- pow2_Z by lia. rewrite <- Qpower_plus by discriminate.
            apply pow2_le. lia. }
        assert (Hfl : ((2:Q) ^ fl == inject_Z (2 ^ 52) * 2 ^ e)%Q).
        { rewrite <- pow2_Z by lia. rewrite <- Qpower_plus by discriminate.
          now replace (52 + e)%Z with fl by lia. }
        apply Qle_trans with (Qabs (inject_Z (2 ^ 52) * 2 ^ e - x)).
        -- rewrite Hrx, Hxs, scaled_abs.
           apply Qmult_le_compat_r; [apply Hnear | lra].
        -- rewrite <- Hfl.
           apply (Qabs_case (2 ^ fl - x)); intros; apply (Qabs_case (y - x)); intros; lra.
    + (* [y] is not positive *)
      assert (Hy0 : (y <= 0)%Q).
      { rewrite Hy. rewrite Zle_Qle in HMneg. change (inject_Z 0) with 0%Q in HMneg. nra. }
      apply Qle_trans with x.
      * rewrite Hrx.
        destruct (Z.eq_dec m 0) as [Hm|Hm].
        -- rewrite Hm. setoid_replace (inject_Z 0 - s)%Q with (- s)%Q using relation Qeq by ring.
           rewrite Qabs_opp, Qabs_pos by lra. rewrite Hxs. apply Qle_refl.
        -- assert (H1 : (1 <= inject_Z m)%Q).
           { change 1%Q with (inject_Z 1). rewrite <- Zle_Qle. lia. }
           rewrite Hxs. apply Qmult_le_compat_r; [|lra].
           apply Qabs_Qle_condition. lra.
      * apply (Qabs_case (y - x)); intros; lra.
Qed.

Lemma representable_proper q q' : (q == q')%Q -> representable q -> representable q'.
Proof. intros H (m & e & Hm & He & Hq). exists m, e. now rewrite <- H. Qed.

Lemma representable_opp q : representable q -> representable (- q).
Proof.
  intros (m & e & Hm & He & Hq). exists (- m)%Z, e.
  split; [now rewrite Z.abs_opp|]. split; [exact He|].
  rewrite Hq, inject_Z_opp. ring.
Qed.

(** Rounding is to nearest: a finite result of [binary64] is a binary64
    number, and no binary64 number is nearer to the argument. *)
Lemma binary64_nearest q r :
  Js.binary64 q = Fin r ->
  representable r /\ forall y, representable y -> (Qabs (r - q) <= Qabs (y - q))%Q.
Proof.
  unfold Js.binary64. cbv zeta. pose proof (Qred_correct q) as Hq.
  destruct (Qnum (Qred q)) as [|p|p] eqn:En.
  - intros [= <-].
    assert (H0 : (q == 0)%Q).
    { rewrite <- Hq. unfold Qeq. simpl. rewrite En. reflexivity. }
    split.
    + exists 0%Z, 0%Z. split; [reflexivity|]. split; [lia | reflexivity].
    + intros y _. rewrite H0. setoid_replace (0 - 0)%Q with 0%Q using relation Qeq by ring.
      apply Qabs_nonneg.
  - intros H.
    assert (Hpos : (0 < Qred q)%Q) by (unfold Qlt; simpl; rewrite En; lia).
    destruct (round_positive_nearest _ _ Hpos H) as [Hrep Hnear].
    split; [exact Hrep|]. intros y Hy. rewrite <- Hq. now apply Hnear.
  - destruct (Js.round_positive (- Qred q)) as [| | |r'] eqn:H; try discriminate.
    unfold Js.negate. intros [= <-].
    assert (Hpos : (0 < - Qred q)%Q) by (unfold Qlt; simpl; rewrite En; lia).
    destruct (round_positive_nearest _ _ Hpos H) as [Hrep Hnear].
    pose proof (Qred_correct (- r')) as Hr'.
    split.
    + apply (representable_proper (- r')); [now symmetry|].
      now apply representable_opp.
    + intros y Hy. rewrite Hr'.
      specialize (Hnear (- y)%Q (representable_opp y Hy)). rewrite Hq in Hnear.
      setoid_replace (- r' - q)%Q with (- (r' - - q))%Q using relation Qeq by ring.
      setoid_replace (y - q)%Q with (- (- y - - q))%Q using relation Qeq by ring.
      now rewrite !Qabs_opp.
Qed.

(** Readings and sums are rounded as JavaScript rounds them: a string
    just below 1 reads as 1, one that is too small reads as 0, blanks
    other than the ASCII ones are skipped, 0.1 + 0.2 is not 0.3, and 1
    is absorbed by 2^53. *)
Remark rounding_examples :
  Js.to_number (VStr "0.99999999999999999999") = Fin 1
  /\ Js.parseFloat (VStr "1e-400") = Fin 0
  /\ Js.parseFloat (VStr (nbsp ++ "100")) = Fin 100
  /\ Js.to_number (VStr (nbsp ++ "0x1F" ++ nbsp)) = Fin 31
  /\ Js.add (Js.parseFloat (VStr "0.1")) (Js.parseFloat (VStr "0.2"))
     = Js.parseFloat (VStr "0.30000000000000004")
  /\ Js.parseFloat (VStr "0.30000000000000004") <> Js.parseFloat (VStr "0.3")
  /\ Js.add (Fin 1) (Fin 9007199254740992) = Fin 9007199254740992.
Proof.
  split; [reflexivity|]. split; [reflexivity|]. split; [reflexivity|].
  split; [reflexivity|]. split; [reflexivity|]. split; [|reflexivity].
  apply (differ _ _ (Fin (1351079888211149 # 4503599627370496))
           (Fin (5404319552844595 # 18014398509481984))); [reflexivity | reflexivity |].
  discriminate.
Qed.

(** Ties go to the even neighbour, the least positive number is 2^-1074,
    and what lies half way between the greatest number and 2^1024, or
    beyond, is infinite. *)
Remark rounding_at_the_limits :
  Js.binary64 (inject_Z (2 ^ 53 + 1)) = Fin (inject_Z (2 ^ 53))
  /\ Js.binary64 (inject_Z (2 ^ 53 + 3)) = Fin (inject_Z (2 ^ 53 + 4))
  /\ Js.binary64 (1 # Z.to_pos (2 ^ 1075)) = Fin 0
  /\ Js.binary64 (3 # Z.to_pos (2 ^ 1075)) = Fin (1 # Z.to_pos (2 ^ 1073))
  /\ Js.binary64 (inject_Z (2 ^ 1024 - 2 ^ 970 - 1)) = Fin (inject_Z (2 ^ 1024 - 2 ^ 971))
  /\ Js.binary64 (inject_Z (2 ^ 1024 - 2 ^ 970)) = PosInf
  /\ Js.parseFloat (VStr "1.7976931348623159e308") = PosInf
  /\ Js.parseFloat (VStr "-1e400") = NegInf.
Proof. repeat split; vm_compute; reflexivity. Qed.

Lemma plus_numbers x y : Js.plus (VNum (Fin x)) (VNum (Fin y)) = VNum (Js.binary64 (x + y)).
Proof. reflexivity. Qed.

(** The sum written by the balance transaction. *)
Lemma credited_sum a q :
  (0 <= q)%Q -> representable (a + q) ->
  exists q', Js.plus (VNum (Fin a)) (VNum (Fin q) ||| VNum Js.zero) = VNum (Fin q')
             /\ (q' == a + q)%Q.
Proof.
  intros Hq Hrep.
  unfold Js.or_else. simpl Js.truthy.
  destruct (Qeq_bool q 0) eqn:E; cbn [negb]; unfold Js.zero; rewrite plus_numbers.
  - apply Qeq_bool_iff in E. exists (Qred (a + 0)). split.
    + f_equal. apply binary64_representable.
      apply (representable_proper (a + q)); [now rewrite E | exact Hrep].
    + rewrite Qred_correct. now rewrite E.
  - exists (Qred (a + q)). split.
    + f_equal. now apply binary64_representable.
    + apply Qred_correct.
Qed.

Lemma credit_users ph amount w :
  Firestore.users (db (credit ph amount w))
  = <[ph := [("phone", VStr ph);
             ("balance",
              match Firestore.users (db w) !! ph with
              | Some d => Js.plus amount (Js.get (VObj d) "balance" ||| VNum Js.zero)
              | None => amount
              end);
             ("updatedAt", serverTimestamp w)]]> (Firestore.users (db w)).
Proof. reflexivity. Qed.

Lemma write_transaction_users id data m w :
  Firestore.users (db (write_transaction id data m w)) = Firestore.users (db w).
Proof. reflexivity. Qed.

Lemma holds_balance_eq w w' ph b :
  Firestore.users (db w') = Firestore.users (db w) ->
  holds_balance w ph b -> holds_balance w' ph b.
Proof. unfold holds_balance. now intros ->. Qed.

Lemma credit_holds ph a b w :
  (0 < a)%Q -> representable (a + b) ->
  holds_balance w ph b ->
  holds_balance (credit ph (VNum (Fin a)) w) ph (a + b).
Proof.
  intros Ha Hrep [Hb Hdoc]. split; [lra|].
  rewrite credit_users, lookup_insert_eq.
  destruct (Firestore.users (db w) !! ph) as [d|].
  - destruct Hdoc as (q & Hq & Hqb). rewrite Hq.
    destruct (credited_sum a q) as (q' & Hplus & Hq'); [lra | |].
    { apply (representable_proper (a + b)); [now rewrite Hqb | exact Hrep]. }
    exists q'. split; [now simpl; rewrite Hplus | lra].
  - exists a. split; [done | lra].
Qed.

(** A user document with a finite, non-negative balance is left alone by
    [snapshotFor], hence by [broadcast]. *)
Lemma valid_not_invalid d q :
  Js.get (VObj d) "balance" = VNum (Fin q) -> (0 <= q)%Q ->
  Server.invalid (Some d) = false.
Proof.
  intros Hq Hpos. unfold Server.invalid, Server.stored_balance. rewrite Hq.
  rewrite bool_decide_eq_true_2 by eauto. simpl negb at 1.
  unfold Js.or_else. simpl Js.truthy.
  destruct (Qeq_bool q 0); simpl; [done|].
  now rewrite (proj2 (Qle_bool_iff 0 q) Hpos).
Qed.

Lemma snapshotFor_valid p w :
  Server.invalid (Firestore.users (db w) !! p) = false ->
  db (snd (Server.snapshotFor p w)) = db w.
Proof. intros H. unfold Server.snapshotFor. simpl db. now rewrite H. Qed.

Lemma broadcast_valid p st r w :
  Server.invalid (Firestore.users (db w) !! p) = false ->
  db (Server.broadcast p st r w) = db w.
Proof.
  intros H. unfold Server.broadcast.
  destruct (sseClients w !! p) as [[|c set]|]; try done.
  destruct (Server.snapshotFor p w) as [snap w1] eqn:E.
  rewrite pushes_db. change w1 with (snd (snap, w1)). rewrite <- E.
  now apply snapshotFor_valid.
Qed.

Lemma holds_balance_valid w ph b d :
  Firestore.users (db w) !! ph = Some d ->
  holds_balance w ph b ->
  Server.invalid (Firestore.users (db w) !! ph) = false.
Proof.
  intros Hd [Hb Hdoc]. rewrite Hd in *. destruct Hdoc as (q & Hq & Hqb).
  apply (valid_not_invalid d q); [done | lra].
Qed.

Lemma credit_some ph amount w : is_Some (Firestore.users (db (credit ph amount w)) !! ph).
Proof. rewrite credit_users, lookup_insert_eq. eauto. Qed.

Lemma formatPhone_nonempty v ph : formatPhone v = Ok (Some ph) -> ph <> "".
Proof.
  unfold formatPhone. destruct (Js.as_string _) as [s|]; [|discriminate]. simpl.
  destruct (_ && _); [intros [= <-]; discriminate|].
  destruct (_ && _); [intros [= <-]; discriminate|].
  destruct (_ && _) eqn:E; [|discriminate].
  intros [= <-]. apply andb_true_iff in E as [E _].
  now destruct (Js.only_digits s).
Qed.

Lemma extract_phone_nonempty data x ph :
  Server.extract data = Ok x -> Server.phone x = Some ph -> ph <> "".
Proof.
  unfold Server.extract. destruct (formatPhone _) as [o|] eqn:E; [|discriminate].
  simpl. intros [= <-]. simpl. intros ->. now apply formatPhone_nonempty in E.
Qed.

Lemma after_success_holds data x ph id a b w :
  Server.amount x = Fin a ->
  (0 < a)%Q -> representable (a + b) ->
  holds_balance w ph b ->
  holds_balance (after_success data x ph id w) ph (a + b).
Proof.
  intros Hamount Ha Hmax Hb. unfold after_success. rewrite Hamount.
  set (w1 := write_transaction id _ true w).
  assert (H2 : holds_balance (credit ph (VNum (Fin a)) w1) ph (a + b)).
  { apply credit_holds; [done | done |]. now apply (holds_balance_eq w). }
  apply (holds_balance_eq (credit ph (VNum (Fin a)) w1)); [|done].
  rewrite broadcast_valid; [done|].
  destruct (credit_some ph (VNum (Fin a)) w1) as [d Hd].
  now apply (holds_balance_valid _ ph (a + b) d).
Qed.

Lemma write_transaction_lookup id data w :
  Firestore.transactions (db (write_transaction id data true w)) !! id
  = Some (Firestore.merged data (Firestore.transactions (db w) !! id)).
Proof. unfold write_transaction. simpl. apply lookup_insert_eq. Qed.

Lemma get_merged k v pre post stored :
  scalar v = true -> absent k pre = true -> absent k post = true ->
  Js.get (VObj (Firestore.merged (pre ++ (k, v) :: post)%list stored)) k = v.
Proof. intros. unfold Js.get. now rewrite lookup_merged. Qed.

(** What the first success callback leaves in the transaction document. *)
Lemma after_success_document data x ph id w :
  exists d,
    Firestore.transactions (db (after_success data x ph id w)) !! id = Some d
    /\ Js.get (VObj d) "phone" = VStr ph
    /\ Js.get (VObj d) "amount" = VNum (Server.amount x).
Proof.
  unfold after_success.
  rewrite broadcast_transactions, credit_transactions, write_transaction_lookup.
  eexists. split; [reflexivity|]. split.
  - now apply (get_merged "phone" (VStr ph) []).
  - now apply (get_merged "amount" (VNum (Server.amount x)) [("phone", VStr ph)]).
Qed.

Lemma update_status_success_holds id ph a b d w :
  Firestore.transactions (db w) !! id = Some d ->
  Js.get (VObj d) "phone" = VStr ph -> ph <> "" ->
  Js.get (VObj d) "amount" = VNum (Fin a) ->
  (0 < a)%Q -> representable (a + b) ->
  holds_balance w ph b ->
  let w' := snd (Server.update_status id force_success w) in
  txn_status w' id = VStr "SUCCESS" /\ holds_balance w' ph (a + b).
Proof.
  intros Hd Hph Hne Ha Hpos Hmax Hb. split.
  { now apply (update_status_writes id force_success w d (VStr "SUCCESS") "SUCCESS"). }
  unfold Server.update_status, Server.update_status_body. simpl Js.get_strict.
  simpl db. rewrite Hd. simpl Js.as_string. cbv iota beta.
  rewrite Hph, Ha.
  replace (Js.truthy (VNum (Fin a))) with true
    by (simpl; rewrite Qeq_bool_false; [done | lra]).
  replace (Js.truthy (VStr ph)) with true by (symmetry; now apply truthy_str).
  replace (Firestore.doc_id (VStr ph)) with (Ok (A:=string) ph)
    by (destruct ph; done).
  simpl andb. cbv iota. cbn [snd].
  set (w1 := write_transaction id _ true _).
  assert (H2 : holds_balance (credit ph (VNum (Fin a)) w1) ph (a + b)).
  { apply credit_holds; [done | done |]. now apply (holds_balance_eq w). }
  apply (holds_balance_eq (credit ph (VNum (Fin a)) w1)); [|done].
  rewrite broadcast_valid; [done|].
  destruct (credit_some ph (VNum (Fin a)) w1) as [d' Hd'].
  now apply (holds_balance_valid _ ph (a + b) d').
Qed.

(** ** The fan-out *)

Lemma remove_first_here r acc c rest :
  Forall (fun c' => res c' <> r) acc -> res c = r ->
  Server.remove_first r (acc ++ c :: rest) = (Some c, (acc ++ rest)%list).
Proof.
  intros Hacc Hc. induction Hacc as [|c' acc Hc' _ IH]; simpl.
  - now rewrite Hc, Nat.eqb_refl.
  - rewrite (proj2 (Nat.eqb_neq _ _) Hc'). now rewrite IH.
Qed.

Lemma keep_keep p l l' (m : gmap string (list client)) :
  keep p l (keep p l' m) = keep p l m.
Proof.
  destruct l, l'; simpl.
  - apply delete_delete_eq.
  - apply delete_insert_eq.
  - apply insert_delete_eq.
  - apply insert_insert_eq.
Qed.

Lemma keep_same p l (m : gmap string (list client)) :
  m !! p = entry l -> keep p l m = m.
Proof.
  destruct l; simpl; intros H.
  - now apply delete_id.
  - now apply insert_id.
Qed.

Lemma lookup_keep p l (m : gmap string (list client)) :
  keep p l m !! p = entry l.
Proof. destruct l; simpl; [apply lookup_delete_eq | apply lookup_insert_eq]. Qed.

(** The loop of [broadcast], started with [rest] still to visit and the
    connections [acc] already visited and kept; [w] is the world whose
    broken responses are the ones of the loop. *)
Lemma pushes_spec (p : string) (payload : value) (w : world) (rest : list client) :
  forall (acc : list client) (w0 : world),
    broken w0 = broken w ->
    Forall (fun c => alive w c = true) acc ->
    sseClients w0 !! p = entry (acc ++ rest) ->
    let w' := fold_left (Server.push p payload) rest w0 in
    trace w' = (trace w0 ++ map (attempt w payload) rest)%list
    /\ sseClients w' = keep p (acc ++ List.filter (alive w) rest) (sseClients w0)
    /\ timers w'
       = timers w0 ∖ list_to_set (map hb (List.filter (fun c => negb (alive w c)) rest))
    /\ broken w' = broken w
    /\ next_timer w' = next_timer w0.
Proof.
  induction rest as [|c rest IH]; intros acc w0 HB Hacc Hreg;
    cbn [fold_left List.filter map].
  - rewrite !app_nil_r in *. repeat split; try done.
    + symmetry. now apply keep_same.
    + simpl. now rewrite difference_empty_L.
  - assert (Hpush : Server.push p payload w0 c
                    = if alive w c
                      then log (Pushed (res c) payload) w0
                      else Server.removeSseClient p (res c) (log (PushFailed (res c)) w0)).
    { unfold Server.push, Server.write, alive. rewrite HB.
      now destruct (bool_decide _). }
    rewrite Hpush. clear Hpush. unfold attempt at 1.
    destruct (alive w c) eqn:Hc; cbn [negb map].
    + (* the write goes through *)
      set (w1 := log (Pushed (res c) payload) w0).
      assert (Hacc1 : Forall (fun c => alive w c = true) (acc ++ [c])).
      { apply Forall_app. split; [done|]. now constructor. }
      assert (Hreg1 : sseClients w1 !! p = entry ((acc ++ [c]) ++ rest)).
      { rewrite <- app_assoc. exact Hreg. }
      destruct (IH (acc ++ [c])%list w1 HB Hacc1 Hreg1) as (Htr & Hs & Ht & Hb & Hn).
      repeat split.
      * rewrite Htr. simpl. now rewrite <- app_assoc.
      * rewrite Hs. simpl. now rewrite <- app_assoc.
      * done.
      * done.
      * done.
    + (* the write throws: the entry is removed *)
      assert (Hlook : sseClients w0 !! p = Some (acc ++ c :: rest)%list).
      { rewrite Hreg. now destruct acc. }
      set (w1 := Server.removeSseClient p (res c) (log (PushFailed (res c)) w0)).
      assert (Hrem : Server.remove_first (res c) (acc ++ c :: rest)
                     = (Some c, (acc ++ rest)%list)).
      { apply remove_first_here; [|done].
        eapply Forall_impl; [exact Hacc|]. intros c' Hc' Heq.
        unfold alive in Hc', Hc. rewrite Heq in Hc'. congruence. }
      assert (H1 : sseClients w1 = keep p (acc ++ rest) (sseClients w0)
                   /\ timers w1 = timers w0 ∖ {[hb c]}
                   /\ broken w1 = broken w /\ next_timer w1 = next_timer w0
                   /\ trace w1 = (trace w0 ++ [PushFailed (res c)])%list).
      { unfold w1, Server.removeSseClient. simpl sseClients.
        rewrite Hlook, Hrem. simpl. repeat split; done. }
      destruct H1 as (Hs1 & Ht1 & Hb1 & Hn1 & Htr1).
      assert (Hreg1 : sseClients w1 !! p = entry (acc ++ rest)).
      { rewrite Hs1. apply lookup_keep. }
      destruct (IH acc w1 Hb1 Hacc Hreg1) as (Htr & Hs & Ht & Hb & Hn).
      repeat split.
      * rewrite Htr, Htr1, <- app_assoc. done.
      * rewrite Hs, Hs1. apply keep_keep.
      * rewrite Ht, Ht1. simpl. apply difference_difference_l_L.
      * done.
      * now rewrite Hn.
Qed.

(** ** Traces only grow *)

Lemma snapshotFor_trace p w :
  exists evs, trace (snd (Server.snapshotFor p w)) = (trace w ++ evs)%list.
Proof.
  unfold Server.snapshotFor. destruct (Server.invalid _); simpl;
    rewrite <- ?app_assoc; eexists; reflexivity.
Qed.

Lemma since_app w w' evs : trace w' = (trace w ++ evs)%list -> since w w' = evs.
Proof. unfold since. intros ->. now rewrite drop_app_length. Qed.

(** With connections registered, the trace of [broadcast] is the one of
    its snapshot followed by one attempt per connection. *)
Lemma broadcast_pushes p st r w c set :
  sseClients w !! p = Some (c :: set) ->
  exists payload,
    trace (Server.broadcast p st r w)
    = (trace (snd (Server.snapshotFor p w)) ++ map (attempt w payload) (c :: set))%list.
Proof.
  intros Hreg. unfold Server.broadcast. rewrite Hreg.
  destruct (Server.snapshotFor p w) as [snap w1] eqn:E.
  destruct (snapshotFor_registry p w) as (Hs & _ & Hb & _).
  rewrite E in Hs, Hb. simpl in Hs, Hb. cbn [snd].
  eexists.
  apply (pushes_spec p _ w (c :: set) [] w1 Hb); [constructor|].
  now rewrite Hs, Hreg.
Qed.

(** A success callback reaches every connection of the identity whose
    write goes through. *)
Lemma after_success_pushes data x ph id w set c :
  sseClients w !! ph = Some set ->
  In c set -> alive w c = true ->
  exists payload, In (Pushed (res c) payload) (since w (after_success data x ph id w)).
Proof.
  intros Hset Hin Halive. unfold after_success.
  set (w2 := credit ph _ (write_transaction id _ true w)).
  assert (Htr2 : exists evs, trace w2 = (trace w ++ evs)%list).
  { unfold w2. simpl. rewrite <- !app_assoc. eexists. reflexivity. }
  destruct set as [|c0 set']; [destruct Hin|].
  destruct (broadcast_pushes ph (VStr "SUCCESS") (Server.reference x) w2 c0 set')
    as [payload Htr]; [exact Hset|].
  destruct (snapshotFor_trace ph w2) as [evs1 Hevs1].
  destruct Htr2 as [evs2 Hevs2].
  exists payload. erewrite since_app.
  2: { rewrite Htr, Hevs1, Hevs2, <- !app_assoc. reflexivity. }
  apply in_or_app. right. apply in_or_app. right.
  apply in_map_iff. exists c. split; [|done].
  unfold attempt. change (alive w2 c) with (alive w c). now rewrite Halive.
Qed.

(** ** No idempotency guard *)

(** C1, as stated, fails: the transaction of the scenario is SUCCESS and
    the balance is 100; the same success callback once more, or a manual
    update to SUCCESS, leaves the status as it is, raises the balance to
    200 and sends the subscriber one more snapshot. *)
Lemma second_success_credits_again :
  let again := snd (Server.callback env_secret (VStr "s3cret") success_payload paid) in
  let forced := snd (Server.update_status order1 force_success paid) in
  txn_status paid order1 = VStr "SUCCESS"
  /\ user_balance paid alice = Some (VNum (Fin 100))
  /\ user_balance again alice = Some (VNum (Fin 200))
  /\ user_balance forced alice = Some (VNum (Fin 200))
  /\ user_balance again alice <> user_balance paid alice
  /\ length (pushes_to 7 (since paid again)) = 1%nat.
Proof.
  intros again forced.
  assert (H0 : user_balance paid alice = Some (VNum (Fin 100))) by reflexivity.
  assert (H1 : user_balance again alice = Some (VNum (Fin 200))) by reflexivity.
  split; [reflexivity|]. split; [exact H0|]. split; [exact H1|].
  split; [reflexivity|]. split; [|reflexivity].
  apply (differ _ _ _ _ H1 H0). discriminate.
Qed.

(** C1, amended.  There is no guard: on a transaction that is already
    SUCCESS a further success callback, like a manual update to SUCCESS,
    is processed in full.  Take a callback with a plain payload and
    reference and an amount [a > 0], and a balance [b], where [a + b]
    and [a + (a + b)] are binary64 numbers, so that the additions are
    exact.  The first callback leaves SUCCESS and [a + b]; the same
    callback again, or the manual update, leaves SUCCESS and
    [a + (a + b)]; and each callback is broadcast to every connection of
    the identity whose write goes through. *)
Theorem success_is_credited_every_time
    (e : env) (secret data : value) (w : world) (x : Server.extracted)
    (ph id : string) (a b : Q) :
  Server.unauthorized e secret = false ->
  Firestore.plain_payload data = true ->
  Server.extract data = Ok x ->
  Server.phone x = Some ph ->
  Server.reference x = VStr id ->
  Firestore.plain_name id = true ->
  Server.amount x = Fin a ->
  (0 < a)%Q ->
  Server.isSuccess data = Ok true ->
  holds_balance w ph b ->
  representable (a + b) ->
  representable (a + (a + b)) ->
  let once := snd (Server.callback e secret data w) in
  let twice := snd (Server.callback e secret data once) in
  let forced := snd (Server.update_status id force_success once) in
  (txn_status once id = VStr "SUCCESS" /\ holds_balance once ph (a + b))
  /\ (txn_status twice id = VStr "SUCCESS" /\ holds_balance twice ph (a + (a + b)))
  /\ (txn_status forced id = VStr "SUCCESS" /\ holds_balance forced ph (a + (a + b)))
  /\ (forall set c, sseClients once !! ph = Some set -> In c set -> alive once c = true ->
      exists payload, In (Pushed (res c) payload) (since once twice)).
Proof.
  intros Hauth _ Hx Hph Href Hplain Ha Hpos Hs Hb Hrep1 Hrep2.
  assert (Hid : Firestore.doc_id (Server.reference x) = Ok id) by now apply plain_doc_id.
  assert (Hnan : Js.isNaN (Server.amount x) = false) by now rewrite Ha.
  assert (Hle : Js.le (Server.amount x) Js.zero = false).
  { rewrite Ha. simpl. now apply Qle_bool_false. }
  assert (Hb0 : (0 <= b)%Q) by apply Hb.
  cbv zeta.
  rewrite (callback_success_branch e secret data w x ph id) by done. cbn [snd].
  set (once := after_success data x ph id w).
  rewrite (callback_success_branch e secret data once x ph id) by done. cbn [snd].
  assert (H1 : holds_balance once ph (a + b)) by now apply after_success_holds.
  split; [split; [apply status_after_success | exact H1]|].
  split; [split; [apply status_after_success | now apply after_success_holds]|].
  split.
  - destruct (after_success_document data x ph id w) as (d & Hd & Hdp & Hda).
    rewrite Ha in Hda.
    apply (update_status_success_holds id ph a (a + b) d once); try done.
    now apply (extract_phone_nonempty data x).
  - intros set c Hset Hin Halive.
    now apply (after_success_pushes data x ph id once set c).
Qed.

(** The whole numbers below 2^53 are binary64 numbers. *)
Lemma representable_integer (z : Z) : (Z.abs z < 2 ^ 53)%Z -> representable (inject_Z z).
Proof.
  intros Hz. exists z, 0%Z. split; [exact Hz|]. split; [lia|].
  now rewrite Qmult_1_r.
Qed.

Lemma success_is_credited_every_time_witness :
  let once := snd (Server.callback env_secret (VStr "s3cret") success_payload initiated) in
  let twice := snd (Server.callback env_secret (VStr "s3cret") success_payload once) in
  holds_balance initiated alice 0
  /\ (0 < 100)%Q
  /\ representable (100 + 0)
  /\ representable (100 + (100 + 0))
  /\ (txn_status once order1 = VStr "SUCCESS" /\ holds_balance once alice (100 + 0))
  /\ (txn_status twice order1 = VStr "SUCCESS"
      /\ holds_balance twice alice (100 + (100 + 0))).
Proof.
  assert (Hb : holds_balance initiated alice 0).
  { split; [apply Qle_refl|]. exists 0%Q. split; reflexivity. }
  assert (Hr1 : representable (100 + 0)) by (now apply (representable_integer 100)).
  assert (Hr2 : representable (100 + (100 + 0))) by (now apply (representable_integer 200)).
  pose proof (success_is_credited_every_time env_secret (VStr "s3cret")
                success_payload initiated
                {| Server.phone := Some alice; Server.reference := VStr order1;
                   Server.rawAmount := VNum (Fin 100); Server.amount := Fin 100 |}
                alice order1 100 0
                eq_refl eq_refl eq_refl eq_refl eq_refl eq_refl eq_refl eq_refl eq_refl
                Hb Hr1 Hr2)
    as (H1 & H2 & _).
  split; [exact Hb|]. split; [reflexivity|]. split; [exact Hr1|]. split; [exact Hr2|].
  split; [exact H1 | exact H2].
Defined.

(** ** Queries *)

Section Sorting.

Context {A : Type} (leb : A -> A -> bool).

Lemma insert_by_perm x l : Permutation (Firestore.insert_by leb x l) (x :: l).
Proof.
  induction l as [|y l IH]; simpl; [done|].
  destruct (leb x y); [done|].
  rewrite IH. apply perm_swap.
Qed.

Lemma sort_by_perm l : Permutation (Firestore.sort_by leb l) l.
Proof.
  induction l as [|x l IH]; simpl; [done|].
  now rewrite insert_by_perm, IH.
Qed.

Hypothesis leb_total : forall x y, leb x y = true \/ leb y x = true.

Lemma insert_by_sorted x l :
  Sorted (fun a b => leb a b = true) l ->
  Sorted (fun a b => leb a b = true) (Firestore.insert_by leb x l).
Proof.
  induction 1 as [|y l Hs IH Hhd]; simpl.
  - repeat constructor.
  - destruct (leb x y) eqn:E.
    + constructor; [now constructor | now constructor].
    + constructor; [exact IH|].
      destruct l as [|z l]; simpl.
      * constructor. destruct (leb_total x y); [congruence | done].
      * destruct (leb x z); constructor.
        -- destruct (leb_total x y); [congruence | done].
        -- now inversion Hhd.
Qed.

Lemma sort_by_sorted l :
  Sorted (fun a b => leb a b = true) (Firestore.sort_by leb l).
Proof.
  induction l as [|x l IH]; simpl; [constructor | now apply insert_by_sorted].
Qed.

End Sorting.

Lemma in_map_to_list (m : gmap string obj) id d :
  In (id, d) (map_to_list m) <-> m !! id = Some d.
Proof. rewrite <- list_elem_of_In. apply elem_of_map_to_list. Qed.

(** The documents summed by the recalculation are the transactions of
    the identity whose status is SUCCESS. *)
Lemma successful_of_spec p s id d :
  In (id, d) (Firestore.successful_of p s)
  <-> Firestore.transactions s !! id = Some d
      /\ Firestore.field_is "phone" p d = true
      /\ Firestore.field_is "status" "SUCCESS" d = true.
Proof.
  unfold Firestore.successful_of. split.
  - intros Hin. apply (Permutation_in _ (sort_by_perm _ _)) in Hin.
    apply filter_In in Hin as [Hin Hf]. simpl in Hf.
    apply andb_true_iff in Hf. now rewrite <- in_map_to_list.
  - intros (Hd & Hp & Hs).
    apply (Permutation_in _ (Permutation_sym (sort_by_perm _ _))).
    apply filter_In. split; [now apply in_map_to_list|].
    simpl. now rewrite Hp, Hs.
Qed.

(** ** Self-healing read *)

Lemma invalid_iff userDoc :
  Server.invalid userDoc = true <-> needs_recalculation userDoc.
Proof.
  unfold Server.invalid, needs_recalculation. destruct userDoc as [d|].
  - rewrite bool_decide_eq_true_2 by eauto. simpl negb at 1.
    rewrite orb_false_l, orb_true_iff, negb_true_iff.
    split; [intros [H|H]; auto | intros [H|[H|H]]; [discriminate | auto | auto]].
  - rewrite bool_decide_eq_false_2 by (intros [? ?]; discriminate).
    simpl. split; auto.
Qed.



(** ** The transaction list of a snapshot *)

Lemma newest_first_total a b :
  Firestore.newest_first a b = true \/ Firestore.newest_first b a = true.
Proof.
  unfold Firestore.newest_first.
  destruct (Z.lt_trichotomy (fst a) (fst b)) as [H|[H|H]].
  - right. apply orb_true_iff. left. now apply Z.ltb_lt.
  - rewrite H, Z.ltb_irrefl, Z.eqb_refl. simpl.
    destruct (String.leb_total (fst (snd a)) (fst (snd b))); auto.
  - left. apply orb_true_iff. left. now apply Z.ltb_lt.
Qed.

Lemma newest_first_le a b : Firestore.newest_first a b = true -> fst b <= fst a.
Proof.
  unfold Firestore.newest_first. intros [H|H]%orb_true_iff.
  - apply Z.ltb_lt in H. lia.
  - apply andb_true_iff in H as [H _]. apply Z.eqb_eq in H. lia.
Qed.

Lemma Sorted_take {A} (R : A -> A -> Prop) n l : Sorted R l -> Sorted R (take n l).
Proof.
  intros Hs. revert n. induction Hs as [|x l Hs IH Hhd]; intros [|n]; simpl;
    try constructor.
  - apply IH.
  - destruct Hhd; destruct n; simpl; constructor. done.
Qed.

Lemma Sorted_map {A B} (R : A -> A -> Prop) (R' : B -> B -> Prop) (f : A -> B) l :
  (forall x y, R x y -> R' (f x) (f y)) -> Sorted R l -> Sorted R' (map f l).
Proof.
  intros Hf. induction 1 as [|x l Hs IH Hhd]; simpl; constructor; [done|].
  destruct Hhd; simpl; constructor. now apply Hf.
Qed.

Lemma dated_timed e te : Firestore.dated e = Some te -> timed te.
Proof.
  unfold Firestore.dated, timed.
  destruct (Firestore.created_at (snd e)) eqn:E; [|discriminate].
  now intros [= <-].
Qed.

Lemma five_latest_timed p s : Forall timed (Firestore.five_latest p s).
Proof.
  unfold Firestore.five_latest. apply Forall_take.
  rewrite (sort_by_perm Firestore.newest_first).
  apply Forall_forall. intros te [e [_ He]]%list_elem_of_omap.
  now apply (dated_timed e).
Qed.

Lemma five_latest_sorted p s :
  Sorted (fun a b => fst b <= fst a) (Firestore.five_latest p s).
Proof.
  unfold Firestore.five_latest. apply Sorted_take.
  pose proof (sort_by_sorted Firestore.newest_first newest_first_total
                (omap Firestore.dated
                   (List.filter (fun e => Firestore.field_is "phone" p (snd e))
                      (map_to_list (Firestore.transactions s))))) as H.
  apply (Sorted_map (fun a b => Firestore.newest_first a b = true)
           (fun a b => fst b <= fst a) (fun x => x) _ newest_first_le) in H.
  now rewrite map_id in H.
Qed.

Lemma render_timed now te :
  timed te -> Server.render now (snd te) = Ok (listed te).
Proof.
  unfold timed, Firestore.created_at, Server.render, listed. intros Ht.
  assert (Hc : Js.get (VObj (snd (snd te))) "createdAt" = VTime (fst te)).
  { unfold Js.get. destruct (Js.lookup_field _ _) as [[]|]; try discriminate.
    now injection Ht as ->. }
  now rewrite Hc.
Qed.

Lemma render_all_timed now l :
  Forall timed l -> Server.render_all now (map snd l) = Ok (map listed l).
Proof.
  induction 1 as [|te l Ht _ IH]; simpl; [done|].
  now rewrite (render_timed now te Ht), IH.
Qed.

(** The list of a snapshot: the five latest documents when the ordered
    query is answered, nothing when it is rejected. *)
Lemma snapshotFor_list p w :
  snd (fst (Server.snapshotFor p w))
  = if Firestore.index_ready (db w)
    then map listed (Firestore.five_latest p (db w))
    else [].
Proof.
  assert (H : forall s now,
            Firestore.index_ready s = Firestore.index_ready (db w) ->
            Firestore.five_latest p s = Firestore.five_latest p (db w) ->
            match (do docs <- Firestore.latest_of p s; Server.render_all now docs) with
            | Ok l => l
            | Throw _ => []
            end
            = if Firestore.index_ready (db w)
              then map listed (Firestore.five_latest p (db w))
              else []).
  { intros s now Hi Hf. unfold Firestore.latest_of. rewrite Hi, Hf.
    destruct (Firestore.index_ready (db w)); simpl; [|done].
    now rewrite render_all_timed by apply five_latest_timed. }
  unfold Server.snapshotFor.
  destruct (Server.invalid _); cbn [fst snd]; now apply H.
Qed.

Lemma five_latest_nonempty p s id d t :
  Firestore.transactions s !! id = Some d ->
  Firestore.field_is "phone" p d = true ->
  Firestore.created_at d = Some t ->
  Firestore.five_latest p s <> [].
Proof.
  intros Hd Hp Ht. unfold Firestore.five_latest.
  assert (Hin : (t, (id, d)) ∈ omap Firestore.dated
                  (List.filter (fun e => Firestore.field_is "phone" p (snd e))
                     (map_to_list (Firestore.transactions s)))).
  { apply list_elem_of_omap. exists (id, d). split.
    - apply list_elem_of_In, filter_In. split; [now apply in_map_to_list | done].
    - unfold Firestore.dated. simpl. now rewrite Ht. }
  apply list_elem_of_In in Hin.
  apply (Permutation_in _ (Permutation_sym (sort_by_perm Firestore.newest_first _))) in Hin.
  destruct (Firestore.sort_by _ _); [destruct Hin | discriminate].
Qed.



(** ** The fan-out of a snapshot *)

Lemma counted_spec d :
  Server.number_or_zero (Js.parseFloat (Js.get (VObj d) "amount")) = counted d.
Proof.
  unfold counted, Server.number_or_zero. cbv zeta.
  destruct (Js.parseFloat _) as [| | |q]; try reflexivity.
  simpl. now destruct (Qeq_bool q 0).
Qed.

Lemma sum_amounts_total docs :
  Server.sum_amounts docs = total (map (fun e => counted (snd e)) docs).
Proof.
  unfold Server.sum_amounts, total. generalize Js.zero.
  induction docs as [|e docs IH]; intros acc; cbn [fold_left map]; [done|].
  now rewrite IH, counted_spec.
Qed.

(** What [snapshotFor] returns, stores and reads. *)
Lemma snapshotFor_spec p w :
  let userDoc := Firestore.users (db w) !! p in
  let balance :=
    if Server.invalid userDoc
    then Server.sum_amounts (Firestore.successful_of p (db w))
    else Server.stored_balance userDoc in
  fst (fst (Server.snapshotFor p w)) = balance
  /\ db (snd (Server.snapshotFor p w))
     = (if Server.invalid userDoc
        then Firestore.set_user p (healed p balance (Firestore.clock (db w))) true (db w)
        else db w)
  /\ trace (snd (Server.snapshotFor p w))
     = (trace w ++ [Read "users" p]
        ++ (if Server.invalid userDoc
            then [Read "transactions" "phone, status == SUCCESS"; Written "users" p]
            else [])
        ++ [Read "transactions" "phone, newest 5"])%list.
Proof.
  cbv zeta. unfold Server.snapshotFor. simpl db.
  destruct (Server.invalid (Firestore.users (db w) !! p)); cbn [fst snd].
  - split; [reflexivity|]. split; [reflexivity|].
    simpl. now rewrite <- !app_assoc.
  - split; [reflexivity|]. split; [reflexivity|].
    simpl. now rewrite <- !app_assoc.
Qed.

Lemma stored_balance_spec userDoc :
  Server.stored_balance userDoc = Js.to_number (stored_or_zero userDoc).
Proof. now destruct userDoc. Qed.

(** Every entry of the ordered query is a stored transaction of the
    identity, with the creation time it is listed under. *)
Lemma five_latest_in p s te :
  In te (Firestore.five_latest p s) ->
  Firestore.transactions s !! fst (snd te) = Some (snd (snd te))
  /\ Firestore.field_is "phone" p (snd (snd te)) = true
  /\ Firestore.created_at (snd (snd te)) = Some (fst te).
Proof.
  unfold Firestore.five_latest. intros Hin.
  apply list_elem_of_In, elem_of_take in Hin as (i & Hi & _).
  apply list_elem_of_lookup_2, list_elem_of_In in Hi.
  apply (Permutation_in _ (sort_by_perm Firestore.newest_first _)) in Hi.
  apply list_elem_of_In, list_elem_of_omap in Hi as ([id d] & He & Hdated).
  apply list_elem_of_In, filter_In in He as [He Hp]. apply in_map_to_list in He.
  unfold Firestore.dated in Hdated. simpl in Hdated, Hp.
  destruct (Firestore.created_at d) as [t|] eqn:Ht; [|discriminate].
  injection Hdated as <-. now simpl.
Qed.

Lemma StronglySorted_app_inv {A} (R : A -> A -> Prop) l1 l2 a b :
  StronglySorted R (l1 ++ l2) -> In a l1 -> In b l2 -> R a b.
Proof.
  induction l1 as [|x l1 IH]; simpl; [now intros _ []|].
  intros Hs [->|Ha] Hb; apply StronglySorted_inv in Hs as [Hs Hall].
  - rewrite Forall_forall in Hall. apply Hall, list_elem_of_In, in_or_app. now right.
  - now apply IH.
Qed.

(** The ordered query returns the five newest: a transaction of the
    identity that has a creation time and is not returned is not newer
    than any of the five that are. *)
Lemma five_latest_newest p s id d t :
  Firestore.transactions s !! id = Some d ->
  Firestore.field_is "phone" p d = true ->
  Firestore.created_at d = Some t ->
  In (t, (id, d)) (Firestore.five_latest p s)
  \/ (length (Firestore.five_latest p s) = 5%nat
      /\ Forall (fun te => t <= fst te) (Firestore.five_latest p s)).
Proof.
  intros Hd Hp Ht. unfold Firestore.five_latest.
  set (all := Firestore.sort_by Firestore.newest_first _).
  assert (Hin : In (t, (id, d)) all).
  { apply (Permutation_in _ (Permutation_sym (sort_by_perm Firestore.newest_first _))).
    apply list_elem_of_In, list_elem_of_omap. exists (id, d). split.
    - apply list_elem_of_In, filter_In. split; [now apply in_map_to_list | done].
    - unfold Firestore.dated. simpl. now rewrite Ht. }
  assert (Hsorted : StronglySorted (fun a b : Z * (string * obj) => fst b <= fst a) all).
  { apply Sorted_StronglySorted; [intros a b c Hab Hbc; lia|].
    pose proof (sort_by_sorted Firestore.newest_first newest_first_total
                  (omap Firestore.dated
                     (List.filter (fun e => Firestore.field_is "phone" p (snd e))
                        (map_to_list (Firestore.transactions s))))) as H.
    apply (Sorted_map (fun a b => Firestore.newest_first a b = true)
             (fun a b => fst b <= fst a) (fun x => x) _ newest_first_le) in H.
    now rewrite map_id in H. }
  rewrite <- (take_drop 5 all) in Hin, Hsorted.
  apply in_app_or in Hin as [Hin|Hin]; [now left|]. right.
  assert (Hlen : (5 <= length all)%nat).
  { destruct (le_lt_dec 5 (length all)) as [|Hlt]; [done|].
    rewrite drop_ge in Hin by lia. destruct Hin. }
  split; [now apply length_take_le|].
  apply Forall_forall. intros te Hte%list_elem_of_In.
  apply (StronglySorted_app_inv _ _ _ te (t, (id, d)) Hsorted Hte Hin).
Qed.

(** C7. [broadcast] does nothing at all, not even a read, when the
    identity has no connection.  Otherwise it reads the stores as they
    are at the call: the balance is the stored one, or, when that is
    missing, not finite or negative, the sum of the amounts of the
    identity's SUCCESS transactions, which is then written back; the
    list holds the five newest transactions of the identity (none while
    the index is missing).  One message with the identity, this balance,
    this list, the status, the reference and the time is written to
    every connection registered for the identity, in order, and each
    connection whose write throws is dropped from the registry with its
    heartbeat interval cleared (the entry of the identity goes when none
    is left). *)
Theorem broadcast_fans_out (p : string) (status reference : value) (w : world) :
  match sseClients w !! p with
  | None | Some [] => Server.broadcast p status reference w = w
  | Some set =>
      let userDoc := Firestore.users (db w) !! p in
      let docs := Firestore.successful_of p (db w) in
      let recalculated := Server.invalid userDoc in
      let balance :=
        if recalculated then total (map (fun e => counted (snd e)) docs)
        else Js.to_number (stored_or_zero userDoc) in
      let latest := Firestore.five_latest p (db w) in
      let transactions :=
        if Firestore.index_ready (db w) then map listed latest else [] in
      let w' := Server.broadcast p status reference w in
      let payload :=
        VObj [("phone", VStr p);
              ("balance", VNum balance);
              ("transactions", VArr transactions);
              ("status", status ||| VNull);
              ("reference", reference ||| VNull);
              ("timestamp", VTime (Firestore.clock (db w')))] in
      (recalculated = true <-> needs_recalculation userDoc)
      /\ (forall id d,
            In (id, d) docs
            <-> Firestore.transactions (db w) !! id = Some d
                /\ Firestore.field_is "phone" p d = true
                /\ Firestore.field_is "status" "SUCCESS" d = true)
      /\ (forall te,
            In te latest ->
            Firestore.transactions (db w) !! fst (snd te) = Some (snd (snd te))
            /\ Firestore.field_is "phone" p (snd (snd te)) = true
            /\ Firestore.created_at (snd (snd te)) = Some (fst te))
      /\ (length latest <= 5)%nat
      /\ Sorted (fun a b => fst b <= fst a) latest
      /\ (forall id d t,
            Firestore.transactions (db w) !! id = Some d ->
            Firestore.field_is "phone" p d = true ->
            Firestore.created_at d = Some t ->
            In (t, (id, d)) latest
            \/ (length latest = 5%nat /\ Forall (fun te => t <= fst te) latest))
      /\ db w'
         = (if recalculated
            then Firestore.set_user p (healed p balance (Firestore.clock (db w))) true (db w)
            else db w)
      /\ since w w'
         = ([Read "users" p]
            ++ (if recalculated
                then [Read "transactions" "phone, status == SUCCESS"; Written "users" p]
                else [])
            ++ [Read "transactions" "phone, newest 5"]
            ++ map (attempt w payload) set)%list
      /\ sseClients w' = keep p (List.filter (alive w) set) (sseClients w)
      /\ timers w'
         = timers w ∖ list_to_set (map hb (List.filter (fun c => negb (alive w c)) set))
      /\ broken w' = broken w
      /\ next_timer w' = next_timer w
  end.
Proof.
  destruct (sseClients w !! p) as [[|c set]|] eqn:Hreg;
    [unfold Server.broadcast; now rewrite Hreg | | unfold Server.broadcast; now rewrite Hreg].
  cbv zeta.
  split; [apply invalid_iff|]. split; [apply successful_of_spec|].
  split; [apply five_latest_in|].
  split; [unfold Firestore.five_latest; apply firstn_le_length|].
  split; [apply five_latest_sorted|]. split; [apply five_latest_newest|].
  unfold Server.broadcast. rewrite Hreg.
  destruct (snapshotFor_spec p w) as (Hbal & Hdb & Htrace).
  pose proof (snapshotFor_list p w) as Hlist.
  destruct (snapshotFor_registry p w) as (Hs & Ht & Hb & Hn).
  rewrite <- sum_amounts_total, <- stored_balance_spec.
  destruct (Server.snapshotFor p w) as [[bal txs] w1].
  cbn [fst snd] in Hbal, Hdb, Htrace, Hlist, Hs, Ht, Hb, Hn.
  destruct (pushes_spec p
              (Server.message p (bal, txs) (status ||| VNull) (reference ||| VNull)
                 (Firestore.clock (db w1)))
              w (c :: set) [] w1 Hb)
    as (Htr & Hs' & Ht' & Hb' & Hn').
  { constructor. }
  { now rewrite Hs, Hreg. }
  rewrite pushes_db.
  split; [exact Hdb|]. split.
  - erewrite since_app.
    2: { rewrite Htr, Htrace, <- !app_assoc. reflexivity. }
    unfold Server.message. cbn [fst snd]. now rewrite Hbal, Hlist.
  - split; [now rewrite Hs', Hs|]. split; [now rewrite Ht', Ht|].
    split; [done | now rewrite Hn'].
Qed.

(** ** Opening a stream *)


(** The same happens with the index in place when the only transaction
    of the identity was created by a callback: that document has no
    [createdAt], and an ordered query does not return it. *)
Remark snapshot_list_empty_without_creation_time :
  let w' := snd (Server.events "0712345678" 8 unsolicited) in
  txn_status unsolicited order1 = VStr "SUCCESS"
  /\ user_balance unsolicited alice = Some (VNum (Fin 100))
  /\ Firestore.index_ready (db unsolicited) = true
  /\ pushes_to 8 (since unsolicited w')
     = [Server.message alice (Fin 100, []) VNull VNull 1002].
Proof.
  intros w'. split; [reflexivity|]. split; [reflexivity|]. split; reflexivity.
Qed.



(** ** The call to the gateway *)

Lemma broadcast_trace p st r w :
  exists evs, trace (Server.broadcast p st r w) = (trace w ++ evs)%list.
Proof.
  destruct (sseClients w !! p) as [[|c set]|] eqn:Hreg.
  - unfold Server.broadcast. rewrite Hreg. exists []. now rewrite app_nil_r.
  - destruct (broadcast_pushes p st r w c set Hreg) as [payload Htr].
    destruct (snapshotFor_trace p w) as [evs Hevs].
    rewrite Htr, Hevs, <- app_assoc. eexists. reflexivity.
  - unfold Server.broadcast. rewrite Hreg. exists []. now rewrite app_nil_r.
Qed.

Section Pay.

Variables (e : env) (body : value) (now_ms : Z) (w : world).
Variables (phone amount : value) (formattedPhone : string).

Hypothesis Hphone : Js.get_strict body "phone" = Ok phone.
Hypothesis Hamount : Js.get_strict body "amount" = Ok amount.
Hypothesis Hformat : formatPhone phone = Ok (Some formattedPhone).
Hypothesis Hgiven : Js.truthy amount = true.
Hypothesis Hatleast1 : Js.lt (Js.to_number amount) (Fin 1) = false.

Lemma awaiting_pending :
  txn_status (awaiting_gateway e formattedPhone amount now_ms w)
    (order_reference now_ms) = VStr "PENDING".
Proof.
  unfold awaiting_gateway. cbv zeta.
  set (w0 := write_transaction (order_reference now_ms) _ false w).
  transitivity (txn_status w0 (order_reference now_ms)).
  - apply txn_status_eq. simpl. apply broadcast_transactions.
  - unfold txn_status, w0, write_transaction. simpl.
    now rewrite lookup_insert_eq.
Qed.

Lemma awaiting_posted :
  exists payload,
    In (Posted Server.gateway_url payload (Some Server.gateway_timeout))
      (since w (awaiting_gateway e formattedPhone amount now_ms w)).
Proof.
  unfold awaiting_gateway. cbv zeta.
  set (w0 := write_transaction (order_reference now_ms) _ false w).
  destruct (broadcast_trace formattedPhone (VStr "PENDING")
              (VStr (order_reference now_ms)) w0) as [evs Hevs].
  eexists. erewrite since_app.
  2: { simpl trace at 1. rewrite Hevs. unfold w0. simpl trace.
       rewrite <- !app_assoc. reflexivity. }
  apply in_or_app. right. apply in_or_app. right. now left.
Qed.

(** [axios.post] throws: nothing more is written. *)
Lemma pay_gateway_throws :
  Server.pay e body now_ms GwThrows w
  = (Json 500 (Server.failure (VStr "Server error during /pay")),
     awaiting_gateway e formattedPhone amount now_ms w).
Proof.
  unfold Server.pay, Server.pay_body. rewrite Hphone, Hamount. simpl bind.
  rewrite Hformat. simpl bind. cbv iota beta. now rewrite Hgiven, Hatleast1.
Qed.

(** The gateway answers without [success]: FAILED is written and announced. *)
Lemma pay_gateway_declines data :
  Js.truthy (Js.get data "success") = false ->
  exists answer w',
    Server.pay e body now_ms (GwData data) w = (Json 400 answer, w')
    /\ txn_status w' (order_reference now_ms) = VStr "FAILED".
Proof.
  intros Hno. unfold Server.pay, Server.pay_body. rewrite Hphone, Hamount. simpl bind.
  rewrite Hformat. simpl bind. cbv iota beta. rewrite Hgiven, Hatleast1.
  simpl orb. cbv iota zeta. rewrite Hno.
  eexists. eexists. split; [reflexivity|].
  erewrite txn_status_eq by apply broadcast_transactions.
  now apply (status_after_write _ "FAILED"
               [("phone", VStr formattedPhone);
                ("amount", VNum (Js.round (Js.to_number amount)))]).
Qed.

End Pay.

(** C6.  The request to the gateway carries a timeout of 30000 ms, and a
    reply that declines the payment marks the transaction FAILED and is
    answered 400.  But when the call throws, as it does on a timeout, the
    handler answers 500 and the transaction stays PENDING. *)
Theorem gateway_error_leaves_pending
    (e : env) (body : value) (now_ms : Z) (w : world)
    (phone amount : value) (formattedPhone : string) :
  Js.get_strict body "phone" = Ok phone ->
  Js.get_strict body "amount" = Ok amount ->
  formatPhone phone = Ok (Some formattedPhone) ->
  Js.truthy amount = true ->
  Js.lt (Js.to_number amount) (Fin 1) = false ->
  let id := order_reference now_ms in
  let thrown := Server.pay e body now_ms GwThrows w in
  fst thrown = Json 500 (Server.failure (VStr "Server error during /pay"))
  /\ txn_status (snd thrown) id = VStr "PENDING"
  /\ (exists payload,
        In (Posted Server.gateway_url payload (Some 30000)) (since w (snd thrown)))
  /\ (forall data, Js.truthy (Js.get data "success") = false ->
       exists answer w',
         Server.pay e body now_ms (GwData data) w = (Json 400 answer, w')
         /\ txn_status w' id = VStr "FAILED").
Proof.
  intros Hphone Hamount Hformat Hgiven Hatleast1. cbv zeta.
  rewrite (pay_gateway_throws e body now_ms w phone amount formattedPhone) by done.
  cbn [fst snd]. split; [done|]. split; [apply awaiting_pending|].
  split; [apply awaiting_posted|].
  intros data Hno.
  now apply (pay_gateway_declines e body now_ms w phone amount formattedPhone).
Qed.

Lemma gateway_error_leaves_pending_witness :
  let thrown := Server.pay env_secret pay_request 1700000000000 GwThrows subscribed in
  txn_status subscribed order1 = VUndef
  /\ fst thrown = Json 500 (Server.failure (VStr "Server error during /pay"))
  /\ txn_status (snd thrown) order1 = VStr "PENDING"
  /\ exists answer w',
       Server.pay env_secret pay_request 1700000000000 declined subscribed
       = (Json 400 answer, w')
       /\ txn_status w' order1 = VStr "FAILED".
Proof.
  intros thrown. split; [reflexivity|].
  pose proof (gateway_error_leaves_pending env_secret pay_request 1700000000000
                subscribed (VStr "0712345678") (VNum (Fin 100)) alice
                eq_refl eq_refl eq_refl eq_refl eq_refl) as (H1 & H2 & _ & H4).
  split; [exact H1|]. split; [exact H2|].
  apply (H4 (VObj [("success", VBool false); ("error", VStr "Insufficient funds")])).
  reflexivity.
Defined.

(** ** Classification of callbacks *)

Lemma is_true_iff v : Js.is_true v = true <-> v = VBool true.
Proof. destruct v as [| |[]| | | | |]; simpl; split; congruence. Qed.




Lemma prefix_iff p s : String.prefix p s = true <-> exists suf, s = p ++ suf.
Proof.
  revert s. induction p as [|c p IH]; intros s; simpl.
  - destruct s; split; eauto.
  - destruct s as [|c' s]; simpl; [split; [discriminate | intros [? ?]; discriminate]|].
    destruct (Ascii.ascii_dec c c') as [->|Hne]; simpl.
    + rewrite IH. split; intros [suf H]; exists suf.
      * now rewrite H.
      * now injection H.
    + split; [discriminate | intros [suf H]; injection H as H _; done].
Qed.




(** C5.  A payload whose [status] is the number 0 is read through
    [data.status || data.result.status || data.ResultCode]: 0 is falsy,
    the lookup yields [undefined], no test applies, and the callback is
    treated as a failure: FAILED is written and nothing is credited.  The
    string "0" under [status] and the number 0 under [ResultCode] are
    both successes. *)
Theorem numeric_zero_status_is_failure :
  let payload := payload_with "status" (VNum (Fin 0)) in
  let w' := snd (Server.callback env_secret (VStr "s3cret") payload initiated) in
  Js.get payload "status" = VNum (Fin 0)
  /\ Server.status_of payload = VUndef
  /\ Server.isSuccess payload = Ok false
  /\ txn_status initiated order1 = VStr "INITIATED"
  /\ txn_status w' order1 = VStr "FAILED"
  /\ user_balance w' alice = user_balance initiated alice
  /\ Server.isSuccess (payload_with "status" (VStr "0")) = Ok true
  /\ Server.isSuccess (payload_with "ResultCode" (VNum (Fin 0))) = Ok true.
Proof.
  intros payload w'.
  assert (Hstatus : Server.status_of payload = VUndef) by reflexivity.
  assert (Hclass : Server.isSuccess payload = Ok false).
  { unfold Server.isSuccess. rewrite Hstatus. reflexivity. }
  assert (Hx : Server.extract payload
               = Ok {| Server.phone := Some alice; Server.reference := VStr order1;
                       Server.rawAmount := VNum (Fin 100);
                       Server.amount := Fin 100 |}) by reflexivity.
  assert (Hw : w' = after_failure payload
                      {| Server.phone := Some alice; Server.reference := VStr order1;
                         Server.rawAmount := VNum (Fin 100);
                         Server.amount := Fin 100 |} alice order1 initiated).
  { unfold w'.
    now rewrite (callback_failure_branch env_secret (VStr "s3cret") payload initiated
                   _ alice order1 eq_refl Hx eq_refl eq_refl eq_refl eq_refl Hclass). }
  split; [reflexivity|]. split; [exact Hstatus|]. split; [exact Hclass|].
  split; [reflexivity|]. split; [rewrite Hw; apply status_after_failure|].
  split; [rewrite Hw; reflexivity|]. split; reflexivity.
Qed.

(** ** The earlier deployment *)

(** The callback of [src/server.js] shares the secret check with the
    deployment above but neither its validation nor its classification. *)
Remark legacy_and_hub_disagree :
  Server.callback env_secret (VStr "s3cret") negative_payload initiated
  = (Json 200 (Server.ack 0 "Ignored invalid amount"), initiated)
  /\ Server.callback env_secret (VStr "s3cret") amountless_payload initiated
     = (Json 200 (Server.ack 0 "Ignored invalid amount"), initiated).
Proof. split; reflexivity. Qed.

(** C4.  The callback of [src/server.js] has no test on the amount.  An
    authorised callback that reports success with the amount -5, or with
    no amount at all, is answered with result code 0 like an ignored
    one, but the transaction becomes SUCCESS and the balance becomes -5,
    respectively [NaN]. *)
Theorem legacy_credits_unvalidated_amount :
  let credited := Legacy.callback env_secret (VStr "s3cret") negative_payload initiated in
  let spoiled := Legacy.callback env_secret (VStr "s3cret") amountless_payload initiated in
  (txn_status initiated order1 = VStr "INITIATED"
   /\ user_balance initiated alice = Some (VNum (Fin 0)))
  /\ (fst credited = Json 200 (Legacy.ack 0 "Success")
      /\ txn_status (snd credited) order1 = VStr "SUCCESS"
      /\ user_balance (snd credited) alice = Some (VNum (Fin (-5))))
  /\ (fst spoiled = Json 200 (Legacy.ack 0 "Success")
      /\ txn_status (snd spoiled) order1 = VStr "SUCCESS"
      /\ user_balance (snd spoiled) alice = Some (VNum NaN)).
Proof.
  intros credited spoiled. split; [|split].
  - (* before: the order is initiated and nothing is credited *)
    split; reflexivity.
  - (* amount -5: [success && phone && reference] holds, so both writes run *)
    assert (Hread : Legacy.read negative_payload
                    = Ok (Some alice, Fin (-5), VStr order1, true)) by reflexivity.
    unfold credited, Legacy.callback, Legacy.callback_body.
    rewrite Hread. repeat split; reflexivity.
  - (* no amount: [Number(undefined)] is [NaN], which is credited *)
    assert (Hread : Legacy.read amountless_payload
                    = Ok (Some alice, NaN, VStr order1, true)) by reflexivity.
    unfold spoiled, Legacy.callback, Legacy.callback_body.
    rewrite Hread. repeat split; reflexivity.
Qed.

(** X29.  The callback of [src/server.js] does check the identity and
    the reference: an authorised callback that lacks one of them is
    answered 200 with result code 0 and changes nothing. *)
Remark legacy_ignores_missing_ids (e : env) (secret data : value) (w : world)
    (phone : option string) (amount : number) (reference : value) (ok : bool) :
  Legacy.unauthorized e secret = false ->
  Legacy.read data = Ok (phone, amount, reference, ok) ->
  phone = None \/ Js.truthy reference = false ->
  Legacy.callback e secret data w = (Json 200 (Legacy.ack 0 "Success"), w).
Proof.
  intros Hauth Hread Hmiss. unfold Legacy.callback, Legacy.callback_body.
  rewrite Hauth, Hread. destruct Hmiss as [-> | Href]; [done|].
  rewrite Href. now destruct phone, ok.
Qed.

Remark legacy_wants_flag_and_status :
  Legacy.success success_payload = Ok false
  /\ Server.isSuccess success_payload = Ok true
  /\ Legacy.success negative_payload = Ok true.
Proof. repeat split; reflexivity. Qed.

(** ** Normalising identities *)

Lemma only_digits_idem s : Js.only_digits (Js.only_digits s) = Js.only_digits s.
Proof.
  induction s as [|c s IH]; simpl; [done|].
  destruct (Js.is_digit c) eqn:E; simpl; [|done].
  now rewrite E, IH.
Qed.

Lemma only_digits_app a b :
  Js.only_digits (a ++ b) = Js.only_digits a ++ Js.only_digits b.
Proof.
  induction a as [|c a IH]; simpl; [done|].
  destruct (Js.is_digit c); simpl; now rewrite IH.
Qed.

Lemma length_append a b :
  String.length (a ++ b) = (String.length a + String.length b)%nat.
Proof. induction a as [|c a IH]; simpl; [done | now rewrite IH]. Qed.

Lemma startsWith_app p s : Js.startsWith p (p ++ s) = true.
Proof. apply prefix_iff. now exists s. Qed.

(** What [formatPhone] does once its argument is known to be a string. *)
Lemma formatPhone_digits s :
  formatPhone (VStr s)
  = let digits := Js.only_digits s in
    if (String.length digits =? 9)%nat && Js.startsWith "7" digits
    then Ok (Some ("254" ++ digits))
    else if (String.length digits =? 10)%nat && Js.startsWith "07" digits
    then Ok (Some ("254" ++ Js.substring1 digits))
    else if (String.length digits =? 12)%nat && Js.startsWith "254" digits
    then Ok (Some digits)
    else Ok None.
Proof. now destruct s. Qed.

Lemma formatPhone_string v ph :
  formatPhone v = Ok (Some ph) -> exists s, v = VStr s.
Proof.
  unfold formatPhone, Js.or_else.
  destruct (Js.truthy v) eqn:E; [|discriminate].
  destruct v; try discriminate. eauto.
Qed.

Lemma formatPhone_is_canonical v ph : formatPhone v = Ok (Some ph) -> canonical ph.
Proof.
  intros H. destruct (formatPhone_string v ph H) as [s ->].
  rewrite formatPhone_digits in H. cbv zeta in H.
  pose proof (only_digits_idem s) as Hidem.
  destruct (Js.only_digits s) as [|c1 digits] eqn:Ed; [discriminate|].
  destruct (_ && _) eqn:E1 in H.
  { injection H as <-. apply andb_true_iff in E1 as [Hlen _].
    apply Nat.eqb_eq in Hlen. unfold canonical. rewrite length_append, Hlen.
    split; [reflexivity|]. split; [reflexivity|]. now rewrite only_digits_app, Hidem. }
  destruct (_ && _) eqn:E2 in H.
  { injection H as <-. apply andb_true_iff in E2 as [Hlen Hpre].
    apply Nat.eqb_eq in Hlen. unfold canonical, Js.substring1.
    rewrite length_append. simpl in Hlen. injection Hlen as Hlen. rewrite Hlen.
    split; [reflexivity|]. split; [apply prefix_iff; now exists digits|].
    rewrite only_digits_app.
    apply prefix_iff in Hpre as [suf Hsuf]. injection Hsuf as -> _.
    injection Hidem as Hidem. now rewrite Hidem. }
  destruct (_ && _) eqn:E3 in H; [|discriminate].
  injection H as <-. apply andb_true_iff in E3 as [Hlen Hpre].
  apply Nat.eqb_eq in Hlen. now split.
Qed.

Lemma formatPhone_fixes_canonical ph : canonical ph -> formatPhone (VStr ph) = Ok (Some ph).
Proof.
  intros (Hlen & Hpre & Hdig). rewrite formatPhone_digits. cbv zeta.
  now rewrite Hdig, Hlen, Hpre.
Qed.

(** X1. Whatever [formatPhone] returns is a canonical identity (twelve
    digits starting with 254), and [formatPhone] maps a canonical
    identity to itself: normalising twice is normalising once. *)
Theorem formatPhone_canonical (v : value) (ph : string) :
  formatPhone v = Ok (Some ph) ->
  canonical ph /\ formatPhone (VStr ph) = Ok (Some ph).
Proof.
  intros H. assert (Hc : canonical ph) by now apply (formatPhone_is_canonical v).
  split; [exact Hc|]. now apply formatPhone_fixes_canonical.
Qed.

Lemma formatPhone_canonical_witness :
  formatPhone (VStr "0712 345 678") = Ok (Some alice)
  /\ canonical alice
  /\ formatPhone (VStr alice) = Ok (Some alice).
Proof.
  split; [reflexivity|].
  apply (formatPhone_canonical (VStr "0712 345 678") alice). reflexivity.
Defined.

(** X2. The three ways of writing a subscriber number [d] (nine digits,
    the first a 7) are one identity: [d] itself, [0d] and [254d], with
    or without a leading [+], all normalise to [254d]. *)
Theorem formatPhone_forms_agree (d : string) :
  subscriber d ->
  formatPhone (VStr d) = Ok (Some ("254" ++ d))
  /\ formatPhone (VStr ("0" ++ d)) = Ok (Some ("254" ++ d))
  /\ formatPhone (VStr ("254" ++ d)) = Ok (Some ("254" ++ d))
  /\ formatPhone (VStr ("+254" ++ d)) = Ok (Some ("254" ++ d)).
Proof.
  intros (Hlen & Hpre & Hdig).
  assert (Hc : canonical ("254" ++ d)).
  { unfold canonical. rewrite length_append, Hlen, only_digits_app, Hdig.
    repeat split; try reflexivity. apply startsWith_app. }
  assert (Hfix : forall s, Js.only_digits s = "254" ++ d ->
                           formatPhone (VStr s) = Ok (Some ("254" ++ d))).
  { intros s Hs. rewrite formatPhone_digits. cbv zeta. rewrite Hs.
    destruct Hc as (Hl & Hp & _). now rewrite Hl, Hp. }
  split; [|split; [|split]].
  - rewrite formatPhone_digits. cbv zeta. now rewrite Hdig, Hlen, Hpre.
  - apply prefix_iff in Hpre as [d' ->].
    rewrite formatPhone_digits. cbv zeta. rewrite only_digits_app, Hdig.
    change (Js.only_digits "0") with "0". rewrite length_append, Hlen.
    assert (H07 : Js.startsWith "07" ("0" ++ "7" ++ d') = true)
      by (apply prefix_iff; now exists d').
    now rewrite H07.
  - apply Hfix. now rewrite only_digits_app, Hdig.
  - apply Hfix. now rewrite only_digits_app, Hdig.
Qed.

Lemma formatPhone_forms_agree_witness :
  subscriber "712345678"
  /\ formatPhone (VStr "0712345678") = Ok (Some alice)
  /\ formatPhone (VStr "+254712345678") = Ok (Some alice).
Proof.
  assert (H : subscriber "712345678") by (repeat split; reflexivity).
  split; [exact H|].
  destruct (formatPhone_forms_agree "712345678" H) as (_ & H0 & _ & Hplus).
  split; [exact H0 | exact Hplus].
Defined.

(** X3. Only the digits of the argument matter: spaces, dashes, letters
    and every other character are dropped before anything is tested. *)
Theorem formatPhone_ignores_separators (s : string) :
  formatPhone (VStr s) = formatPhone (VStr (Js.only_digits s)).
Proof.
  rewrite !formatPhone_digits. cbv zeta. now rewrite only_digits_idem.
Qed.

Lemma formatPhone_falsy v : Js.truthy v = false -> formatPhone v = Ok None.
Proof. intros H. unfold formatPhone, Js.or_else. now rewrite H. Qed.

Lemma formatPhone_throws v :
  Js.truthy v = true -> (forall s, v <> VStr s) ->
  formatPhone v = Throw "TypeError: not a function".
Proof.
  intros Ht Hns. unfold formatPhone, Js.or_else. rewrite Ht.
  destruct v; try done. now destruct (Hns s).
Qed.

(** ** The registry and its heartbeats *)

Lemma hub_ok_ext w w' :
  sseClients w' = sseClients w -> timers w' = timers w ->
  next_timer w' = next_timer w -> hub_ok w -> hub_ok w'.
Proof.
  unfold hub_ok, registered. intros -> -> ->. done.
Qed.

Lemma remove_first_spec r set :
  match Server.remove_first r set with
  | (None, set') => set' = set /\ Forall (fun c => res c <> r) set
  | (Some c, set') =>
      exists pre post, set = (pre ++ c :: post)%list /\ set' = (pre ++ post)%list
                       /\ res c = r /\ Forall (fun c' => res c' <> r) pre
  end.
Proof.
  induction set as [|c set IH]; simpl; [done|].
  destruct (res c =? r)%nat eqn:E.
  - apply Nat.eqb_eq in E. exists [], set. done.
  - apply Nat.eqb_neq in E. destruct (Server.remove_first r set) as [[c'|] set'].
    + destruct IH as (pre & post & -> & -> & Hc & Hpre).
      exists (c :: pre), post. repeat split; try done. now constructor.
    + destruct IH as [-> Hall]. split; [done | now constructor].
Qed.

Lemma lookup_keep_ne p p' l (m : gmap string (list client)) :
  p <> p' -> keep p l m !! p' = m !! p'.
Proof.
  intros Hne. destruct l; simpl; [now apply lookup_delete_ne | now apply lookup_insert_ne].
Qed.

Lemma entry_some l l' : entry l = Some l' -> l' = l /\ l <> [].
Proof. destruct l; [discriminate|]. now intros [= <-]. Qed.

Lemma addSseClient_ok p r w : hub_ok w -> hub_ok (Server.addSseClient p r w).
Proof.
  intros (Hne & Htim & Hin & Hacross & Hfresh).
  set (n := next_timer w). set (c := {| res := r; hb := n |}).
  set (old := default [] (sseClients w !! p)).
  assert (Hold : forall c0, c0 ∈ old -> registered w p c0).
  { intros c0 Hc0. unfold old in Hc0. exists old. unfold old.
    destruct (sseClients w !! p); [done | inversion Hc0]. }
  assert (Hlt : forall p0 c0, registered w p0 c0 -> (hb c0 < n)%nat).
  { intros p0 c0 Hr. apply Hfresh, Htim. eauto. }
  assert (Hreg : forall p0 c0,
            registered (Server.addSseClient p r w) p0 c0
            <-> registered w p0 c0 \/ (p0 = p /\ c0 = c)).
  { intros p0 c0. unfold registered, Server.addSseClient. simpl. fold old n c.
    destruct (decide (p = p0)) as [<-|Hp].
    - rewrite lookup_insert_eq. split.
      + intros (l & [= <-] & [H|H%list_elem_of_singleton]%elem_of_app);
          [left; now apply Hold | now right].
      + intros [H|[_ ->]]; eexists; (split; [reflexivity|]); apply elem_of_app.
        * left. destruct H as (l & Hl & Hc0). unfold old. now rewrite Hl.
        * right. now apply list_elem_of_singleton.
    - rewrite lookup_insert_ne by done. split; [auto|].
      intros [H|[-> _]]; done. }
  unfold hub_ok. split; [|split; [|split; [|split]]].
  - intros p0. simpl. destruct (decide (p = p0)) as [<-|Hp].
    + rewrite lookup_insert_eq. intros [= H]. apply app_eq_nil in H as [_ H].
      discriminate.
    + rewrite lookup_insert_ne by done. apply Hne.
  - intros h. simpl timers. rewrite elem_of_union, elem_of_singleton, Htim. split.
    + intros [->|(p0 & c0 & Hr & <-)].
      * exists p, c. split; [apply Hreg; auto | done].
      * exists p0, c0. split; [apply Hreg; auto | done].
    + intros (p0 & c0 & [Hr|[-> ->]]%Hreg & <-); [right; eauto | now left].
  - intros p0 l. simpl. destruct (decide (p = p0)) as [<-|Hp].
    + rewrite lookup_insert_eq. intros [= <-]. rewrite map_app. apply NoDup_app.
      split; [|split].
      * unfold old. destruct (sseClients w !! p) eqn:E; [now apply (Hin p) | constructor].
      * intros h [c0 [-> Hc0]]%list_elem_of_fmap [Hh|Hh]%elem_of_cons; [|inversion Hh].
        apply Hold, (Hlt p) in Hc0. simpl in Hh. lia.
      * apply NoDup_singleton.
    + rewrite lookup_insert_ne by done. apply Hin.
  - intros p1 p2 c1 c2 Hp [H1|[-> ->]]%Hreg [H2|[-> ->]]%Hreg.
    + now apply (Hacross p1 p2).
    + apply Hlt in H1. simpl. lia.
    + apply Hlt in H2. simpl. lia.
    + done.
  - intros h. simpl. rewrite elem_of_union, elem_of_singleton.
    intros [->|H%Hfresh]; fold n; lia.
Qed.

Lemma removeSseClient_ok p r w : hub_ok w -> hub_ok (Server.removeSseClient p r w).
Proof.
  intros Hok. pose proof Hok as (Hne & Htim & Hin & Hacross & Hfresh).
  unfold Server.removeSseClient.
  destruct (sseClients w !! p) as [set|] eqn:Hset; [|done].
  pose proof (remove_first_spec r set) as Hspec.
  destruct (Server.remove_first r set) as [[c|] set'].
  2: { destruct Hspec as [-> _]. apply (hub_ok_ext w); try done. simpl.
       destruct set; [now destruct (Hne p) | now apply insert_id]. }
  destruct Hspec as (pre & post & -> & -> & Hc & Hpre).
  change (match (pre ++ post)%list with
          | [] => delete p (sseClients w)
          | _ => <[p:=(pre ++ post)%list]> (sseClients w)
          end) with (keep p (pre ++ post) (sseClients w)).
  set (w' := {| db := db w; sseClients := keep p (pre ++ post) (sseClients w);
                timers := timers w ∖ {[hb c]}; next_timer := next_timer w;
                broken := broken w; trace := trace w |}).
  assert (Hnd : NoDup (map hb (pre ++ c :: post))) by now apply (Hin p).
  rewrite map_app in Hnd. simpl in Hnd.
  apply NoDup_app in Hnd as (Hnd1 & Hnd2 & Hnd3).
  apply NoDup_cons in Hnd3 as [Hnd3 Hnd4].
  assert (Hrest : forall c0, c0 ∈ (pre ++ post)%list ->
                    c0 ∈ (pre ++ c :: post)%list /\ hb c0 <> hb c).
  { intros c0 [H|H]%elem_of_app.
    - split; [apply elem_of_app; auto|]. intros Heq.
      apply (Hnd2 (hb c0)); [now apply list_elem_of_fmap_2 | rewrite Heq; left].
    - split; [apply elem_of_app; right; now right|]. intros Heq.
      apply Hnd3. rewrite <- Heq. now apply list_elem_of_fmap_2. }
  assert (Hreg : forall p0 c0,
            registered w' p0 c0
            <-> registered w p0 c0 /\ (p0 = p -> c0 ∈ (pre ++ post)%list)).
  { intros p0 c0. unfold registered. simpl. destruct (decide (p = p0)) as [<-|Hp].
    - rewrite lookup_keep, Hset. split.
      + intros (l & [-> _]%entry_some & Hc0). split; [|done].
        eexists. split; [reflexivity | now apply Hrest].
      + intros [_ Hc0]. specialize (Hc0 eq_refl). exists (pre ++ post)%list.
        split; [|done]. destruct (pre ++ post)%list; [inversion Hc0 | done].
    - rewrite lookup_keep_ne by done. split; [intros H; split; [done|] | tauto].
      intros ->. done. }
  unfold hub_ok. split; [|split; [|split; [|split]]].
  - intros p0. simpl. destruct (decide (p = p0)) as [<-|Hp].
    + rewrite lookup_keep. now destruct (pre ++ post)%list.
    + rewrite lookup_keep_ne by done. apply Hne.
  - intros h. simpl timers. rewrite elem_of_difference, elem_of_singleton, Htim. split.
    + intros [(p0 & c0 & Hr & <-) Hh]. exists p0, c0. split; [|done].
      apply Hreg. split; [done|]. intros ->.
      destruct Hr as (l & Hl & Hc0). rewrite Hset in Hl. injection Hl as <-.
      apply elem_of_app in Hc0 as [H|[->|H]%elem_of_cons]; [| done |];
        apply elem_of_app; auto.
    + intros (p0 & c0 & [Hr Hp0]%Hreg & <-). split; [eauto|].
      destruct (decide (p0 = p)) as [->|Hp].
      * now apply Hrest, Hp0.
      * apply (Hacross p0 p); [done | done |].
        exists (pre ++ c :: post)%list. split; [done|]. apply elem_of_app. right. left.
  - intros p0 l. simpl. destruct (decide (p = p0)) as [<-|Hp].
    + rewrite lookup_keep. intros [-> _]%entry_some. rewrite map_app.
      apply NoDup_app. split; [done|]. split; [|done].
      intros h Hh1 Hh2. apply (Hnd2 h Hh1). now right.
    + rewrite lookup_keep_ne by done. apply Hin.
  - intros p1 p2 c1 c2 Hp [H1 _]%Hreg [H2 _]%Hreg. now apply (Hacross p1 p2).
  - intros h. simpl. rewrite elem_of_difference. intros [H _]. now apply Hfresh.
Qed.

Lemma write_hub r payload w :
  sseClients (snd (Server.write r payload w)) = sseClients w
  /\ timers (snd (Server.write r payload w)) = timers w
  /\ next_timer (snd (Server.write r payload w)) = next_timer w.
Proof. unfold Server.write. now case_bool_decide. Qed.

Lemma push_ok p payload w c : hub_ok w -> hub_ok (Server.push p payload w c).
Proof.
  intros Hok. unfold Server.push, Server.write. case_bool_decide; simpl.
  - apply removeSseClient_ok. now apply (hub_ok_ext w).
  - now apply (hub_ok_ext w).
Qed.

Lemma pushes_ok p payload set w :
  hub_ok w -> hub_ok (fold_left (Server.push p payload) set w).
Proof.
  revert w. induction set as [|c set IH]; intros w Hok; simpl; [done|].
  now apply IH, push_ok.
Qed.

Lemma snapshotFor_ok p w : hub_ok w -> hub_ok (snd (Server.snapshotFor p w)).
Proof.
  intros Hok. destruct (snapshotFor_registry p w) as (H1 & H2 & _ & H4).
  now apply (hub_ok_ext w).
Qed.

Lemma broadcast_ok p st r w : hub_ok w -> hub_ok (Server.broadcast p st r w).
Proof.
  intros Hok. unfold Server.broadcast.
  destruct (sseClients w !! p) as [[|c set]|]; try done.
  destruct (Server.snapshotFor p w) as [snap w1] eqn:E.
  apply pushes_ok. change w1 with (snd (snap, w1)). rewrite <- E.
  now apply snapshotFor_ok.
Qed.

Lemma broadcast_to_ok v st r w : hub_ok w -> hub_ok (Server.broadcast_to v st r w).
Proof. destruct v; try done. apply broadcast_ok. Qed.

Lemma write_transaction_ok id data m w : hub_ok w -> hub_ok (write_transaction id data m w).
Proof. now apply hub_ok_ext. Qed.

Lemma credit_ok p a w : hub_ok w -> hub_ok (credit p a w).
Proof. now apply hub_ok_ext. Qed.

Lemma log_ok ev w : hub_ok w -> hub_ok (log ev w).
Proof. now apply hub_ok_ext. Qed.

Create HintDb hub.
#[local] Hint Resolve broadcast_ok broadcast_to_ok write_transaction_ok credit_ok
  log_ok snapshotFor_ok addSseClient_ok removeSseClient_ok : hub.

Lemma events_ok phone r w : hub_ok w -> hub_ok (snd (Server.events phone r w)).
Proof.
  intros Hok. unfold Server.events.
  destruct (formatPhone (VStr phone)) as [[ph|]|]; try done.
  destruct (Server.snapshotFor ph _) as [snap w1] eqn:E.
  assert (H1 : hub_ok w1).
  { change w1 with (snd (snap, w1)). rewrite <- E. auto with hub. }
  destruct (Server.write r _ w1) as [sent w2] eqn:E2. simpl.
  destruct (write_hub r (Server.message ph snap VNull VNull (Firestore.clock (db w1))) w1)
    as (Ha & Hb & Hc).
  rewrite E2 in Ha, Hb, Hc. now apply (hub_ok_ext w1).
Qed.

Lemma pay_ok e body now_ms gw w : hub_ok w -> hub_ok (snd (Server.pay e body now_ms gw w)).
Proof.
  intros Hok.
  assert (H : hub_ok (snd (Server.pay_body e body now_ms gw w))).
  { unfold Server.pay_body.
    destruct (do phone <- _; _) as [[[ph|] amount]|]; simpl; try done.
    destruct (negb _ || _); simpl; [done|].
    destruct gw as [|data]; simpl; [auto 10 with hub|].
    destruct (Js.truthy _); simpl; auto 10 with hub. }
  unfold Server.pay. now destruct (Server.pay_body e body now_ms gw w) as [[r|m] w'].
Qed.

Lemma callback_ok e secret data w :
  hub_ok w -> hub_ok (snd (Server.callback e secret data w)).
Proof.
  intros Hok.
  assert (H : hub_ok (snd (Server.callback_body data w))).
  { unfold Server.callback_body.
    destruct (Server.extract data) as [x|]; simpl; [|done].
    destruct (Server.phone x) as [ph|]; simpl; [|done].
    destruct (Js.truthy (Server.reference x)); simpl; [|done].
    destruct (_ || _); simpl; [done|].
    destruct (Server.isSuccess data) as [[|]|]; simpl; [| |done];
      (destruct (Firestore.doc_id _); simpl; auto 10 with hub). }
  unfold Server.callback. destruct (Server.unauthorized e secret); [done|].
  now destruct (Server.callback_body data w) as [[r|m] w'].
Qed.

Lemma update_status_ok ref body w :
  hub_ok w -> hub_ok (snd (Server.update_status ref body w)).
Proof.
  intros Hok.
  assert (H : hub_ok (snd (Server.update_status_body ref body w))).
  { unfold Server.update_status_body.
    destruct (Js.get_strict body "status") as [status|]; simpl; [|done].
    destruct (Firestore.transactions (db w) !! ref) as [txnData|]; simpl;
      [|auto with hub].
    destruct (Js.as_string _) as [text|]; simpl; [|auto with hub].
    destruct (_ && _ && _); simpl.
    - destruct (Firestore.doc_id _); simpl; auto 10 with hub.
    - destruct (_ && _); simpl; auto 10 with hub. }
  unfold Server.update_status.
  now destruct (Server.update_status_body ref body w) as [[r|m] w'].
Qed.

Lemma balance_ok phone w : hub_ok w -> hub_ok (snd (Server.balance phone w)).
Proof.
  intros Hok. unfold Server.balance.
  destruct (formatPhone (VStr phone)) as [[ph|]|]; try done.
  destruct (Server.snapshotFor ph w) as [snap w1] eqn:E. simpl.
  change w1 with (snd (snap, w1)). rewrite <- E. auto with hub.
Qed.

(** X4. No heartbeat leaks.  Whatever happens to the service (requests,
    streams closing, heartbeats firing, responses breaking), the
    registry and the heartbeats stay in agreement: no identity is mapped
    to an empty set, and the intervals that run are exactly the
    heartbeats of the registered connections, one for each. *)
Theorem hub_stays_consistent (e : env) (w0 w : world) :
  hub_ok w0 -> rtc (step e) w0 w -> hub_ok w.
Proof.
  intros H0 Hsteps. induction Hsteps as [w|w1 w2 w3 Hstep _ IH]; [done|].
  apply IH. clear IH. destruct Hstep as [q|phone r|p c now Hreg Hc|r].
  - destruct q; simpl.
    + now apply events_ok.
    + now apply pay_ok.
    + now apply callback_ok.
    + now apply update_status_ok.
    + now apply balance_ok.
    + done.
  - now apply removeSseClient_ok.
  - unfold Server.heartbeat.
    destruct (write_hub (res c) (VObj [("event", VStr "ping"); ("ts", VTime now)]) w1)
      as (Ha & Hb & Hc').
    now apply (hub_ok_ext w1).
  - now apply (hub_ok_ext w1).
Qed.

Lemma hub_ok_empty : hub_ok empty_world.
Proof.
  unfold hub_ok, registered. simpl. split; [|split; [|split; [|split]]].
  - intros p. now rewrite lookup_empty.
  - intros h. split; [intros H; now apply not_elem_of_empty in H|].
    intros (p & c & (l & Hl & _) & _). now rewrite lookup_empty in Hl.
  - intros p l Hl. now rewrite lookup_empty in Hl.
  - intros p p' c c' _ (l & Hl & _). now rewrite lookup_empty in Hl.
  - intros h H. now apply not_elem_of_empty in H.
Qed.

Lemma hub_stays_consistent_witness :
  hub_ok empty_world /\ rtc (step env_secret) empty_world paid /\ hub_ok paid.
Proof.
  assert (Hsteps : rtc (step env_secret) empty_world paid).
  { apply (rtc_l _ _ subscribed);
      [exact (served env_secret empty_world (Server.GetEvents "0712345678" 7))|].
    apply (rtc_l _ _ initiated);
      [exact (served env_secret subscribed
                (Server.PostPay pay_request 1700000000000 accepted))|].
    apply (rtc_l _ _ paid);
      [exact (served env_secret initiated
                (Server.PostCallback (VStr "s3cret") success_payload))|].
    apply rtc_refl. }
  split; [exact hub_ok_empty|]. split; [exact Hsteps|].
  exact (hub_stays_consistent env_secret empty_world paid hub_ok_empty Hsteps).
Defined.

(** The registry once the loop of [events] has run: the new connection
    is the last of its identity. *)
Lemma events_registry phone ph r w :
  formatPhone (VStr phone) = Ok (Some ph) ->
  let w' := snd (Server.events phone r w) in
  sseClients w' = sseClients (Server.addSseClient ph r w)
  /\ timers w' = timers (Server.addSseClient ph r w)
  /\ next_timer w' = next_timer (Server.addSseClient ph r w)
  /\ broken w' = broken w.
Proof.
  intros Hph. cbv zeta. unfold Server.events. rewrite Hph.
  set (w0 := Server.addSseClient ph r w).
  destruct (snapshotFor_registry ph w0) as (H1 & H2 & H3 & H4).
  destruct (Server.snapshotFor ph w0) as [snap w1]. cbn [snd] in *.
  unfold Server.write. case_bool_decide; cbn [snd]; simpl;
    (split; [exact H1 | split; [exact H2 | split; [exact H4 | exact H3]]]).
Qed.

(** X5. Opening a stream and closing it again leaves the hub as it was:
    with the registry and the heartbeats in agreement, and the response
    not registered for the identity before, the registry and the set of
    running intervals after [close] are the ones before the request. *)
Theorem connect_then_close_restores_hub (phone ph : string) (r : nat) (w : world) :
  hub_ok w ->
  formatPhone (VStr phone) = Ok (Some ph) ->
  (forall c, registered w ph c -> res c <> r) ->
  let w' := Server.on_close ph r (snd (Server.events phone r w)) in
  sseClients w' = sseClients w /\ timers w' = timers w /\ hub_ok w'.
Proof.
  intros Hok Hph Hnew. cbv zeta.
  destruct (events_registry phone ph r w Hph) as (Hs & Ht & Hn & _).
  set (w1 := snd (Server.events phone r w)) in *.
  pose proof Hok as (Hne & Htim & _ & _ & Hfresh).
  set (old := default [] (sseClients w !! ph)).
  set (c := {| res := r; hb := next_timer w |}).
  assert (Hentry : sseClients w !! ph = entry old).
  { unfold old. destruct (sseClients w !! ph) as [[|c0 l]|] eqn:E; try done.
    now destruct (Hne ph). }
  assert (Hlook : sseClients w1 !! ph = Some (old ++ [c])%list).
  { rewrite Hs. simpl. now rewrite lookup_insert_eq. }
  assert (Hrem : Server.remove_first r (old ++ [c]) = (Some c, (old ++ [])%list)).
  { apply remove_first_here; [|done]. apply Forall_forall. intros c0 Hc0.
    apply Hnew. exists old. split; [|done].
    rewrite Hentry. destruct old; [inversion Hc0 | done]. }
  rewrite app_nil_r in Hrem.
  assert (Hreg : sseClients (Server.on_close ph r w1) = sseClients w).
  { unfold Server.on_close, Server.removeSseClient. rewrite Hlook, Hrem. simpl.
    change (match old with
            | [] => delete ph (sseClients w1)
            | _ => <[ph:=old]> (sseClients w1)
            end) with (keep ph old (sseClients w1)).
    rewrite Hs. simpl. fold old c.
    change (<[ph:=(old ++ [c])%list]> (sseClients w))
      with (keep ph (old ++ [c]) (sseClients w)) at 1 || idtac.
    transitivity (keep ph old (keep ph (old ++ [c]) (sseClients w))).
    - f_equal. now destruct old.
    - rewrite keep_keep. now apply keep_same. }
  assert (Htimers : timers (Server.on_close ph r w1) = timers w).
  { unfold Server.on_close, Server.removeSseClient. rewrite Hlook, Hrem. simpl.
    rewrite Ht. simpl.
    assert (Hfree : next_timer w ∉ timers w).
    { intros Hin. apply Hfresh in Hin. lia. }
    apply set_eq. intros h. rewrite elem_of_difference, elem_of_union, elem_of_singleton.
    split; [intros [[->|H] Hx]; done|]. intros H. split; [auto|]. now intros ->. }
  split; [exact Hreg|]. split; [exact Htimers|].
  apply removeSseClient_ok. apply (hub_ok_ext (Server.addSseClient ph r w)); try done.
  now apply addSseClient_ok.
Qed.

Lemma hub_ok_paid : hub_ok paid.
Proof. apply callback_ok, pay_ok, events_ok, hub_ok_empty. Qed.

Lemma connect_then_close_restores_hub_witness :
  let w' := Server.on_close alice 9 (snd (Server.events "0712345678" 9 paid)) in
  hub_ok paid
  /\ sseClients w' = sseClients paid /\ timers w' = timers paid.
Proof.
  pose proof hub_ok_paid as Hok.
  assert (Hnew : forall c, registered paid alice c -> res c <> 9%nat).
  { intros c (l & Hl & Hc).
    assert (Hreg : sseClients paid !! alice = Some [{| res := 7; hb := 0 |}])
      by reflexivity.
    rewrite Hreg in Hl. injection Hl as <-.
    apply list_elem_of_singleton in Hc. subst c. discriminate. }
  destruct (connect_then_close_restores_hub "0712345678" alice 9 paid Hok eq_refl Hnew)
    as (H1 & H2 & _).
  split; [exact Hok|]. split; [exact H1 | exact H2].
Defined.

(** X6. Closing what is not open changes nothing: [removeSseClient] for
    an identity without connections, or for a response that is not
    among the connections of the identity, returns the world as it was.
    With every response registered once, closing twice is closing
    once. *)
Theorem close_of_unknown_is_noop (p : string) (r : nat) (w : world) :
  sseClients w !! p <> Some [] ->
  ((forall c, registered w p c -> res c <> r) -> Server.removeSseClient p r w = w)
  /\ ((forall l, sseClients w !! p = Some l -> NoDup (map res l)) ->
      Server.on_close p r (Server.on_close p r w) = Server.on_close p r w).
Proof.
  assert (Hnoop : forall w0, sseClients w0 !! p <> Some [] ->
            (forall c, registered w0 p c -> res c <> r) ->
            Server.removeSseClient p r w0 = w0).
  { intros w0 Hne Hnot. unfold Server.removeSseClient.
    destruct (sseClients w0 !! p) as [set|] eqn:Hset; [|done].
    pose proof (remove_first_spec r set) as Hspec.
    destruct (Server.remove_first r set) as [[c|] set'].
    - destruct Hspec as (pre & post & -> & _ & Hc & _). exfalso.
      apply (Hnot c); [|done]. exists (pre ++ c :: post)%list. split; [exact Hset|].
      apply elem_of_app. right. left.
    - destruct Hspec as [-> _]. destruct set as [|c0 set]; [done|].
      rewrite insert_id by done. now destruct w0. }
  intros Hne. split; [now apply Hnoop|].
  intros Hdup. unfold Server.on_close. apply Hnoop.
  - unfold Server.removeSseClient.
    destruct (sseClients w !! p) as [set|] eqn:Hset; [|now rewrite Hset].
    destruct (Server.remove_first r set) as [found [|c0 set']]; simpl.
    + now rewrite lookup_delete_eq.
    + now rewrite lookup_insert_eq.
  - intros c (l & Hl & Hc). revert Hl. unfold Server.removeSseClient.
    destruct (sseClients w !! p) as [set|] eqn:Hset.
    2: { intros Hl. rewrite Hset in Hl. discriminate. }
    pose proof (remove_first_spec r set) as Hspec.
    destruct (Server.remove_first r set) as [[c1|] set'].
    + destruct Hspec as (pre & post & -> & -> & Hc1 & Hpre).
      change (sseClients _) with (keep p (pre ++ post) (sseClients w)).
      rewrite lookup_keep. intros [-> _]%entry_some.
      specialize (Hdup _ eq_refl). rewrite map_app in Hdup. simpl in Hdup.
      apply NoDup_app in Hdup as (_ & Hd2 & Hd3). apply NoDup_cons in Hd3 as [Hd3 _].
      apply elem_of_app in Hc as [Hc|Hc].
      * rewrite Forall_forall in Hpre. now apply Hpre.
      * intros Heq. apply Hd3. rewrite Hc1, <- Heq. now apply list_elem_of_fmap_2.
    + destruct Hspec as [-> Hall].
      change (sseClients _) with (keep p set (sseClients w)).
      rewrite lookup_keep. intros [-> _]%entry_some.
      rewrite Forall_forall in Hall. now apply Hall.
Qed.

Lemma close_of_unknown_is_noop_witness :
  Server.removeSseClient alice 9 paid = paid
  /\ Server.removeSseClient "254700000000" 7 paid = paid.
Proof.
  assert (Hreg : sseClients paid !! alice = Some [{| res := 7; hb := 0 |}])
    by reflexivity.
  assert (Hnone : sseClients paid !! "254700000000" = None) by reflexivity.
  assert (H1 : sseClients paid !! alice <> Some []).
  { rewrite Hreg. discriminate. }
  assert (H2 : sseClients paid !! "254700000000" <> Some []).
  { rewrite Hnone. discriminate. }
  destruct (close_of_unknown_is_noop alice 9 paid H1) as [Ha _].
  destruct (close_of_unknown_is_noop "254700000000" 7 paid H2) as [Hb _].
  split.
  - apply Ha. intros c (l & Hl & Hc). rewrite Hreg in Hl. injection Hl as <-.
    apply list_elem_of_singleton in Hc. subst c. discriminate.
  - apply Hb. intros c (l & Hl & _). rewrite Hnone in Hl. discriminate.
Defined.

(** ** What the collections hold *)

Lemma norm_nonneg q : (0 <= q)%Q -> nonneg (Js.norm q).
Proof.
  intros Hq. unfold Js.norm. destruct (Qle_bool Js.max_double q); [now left|].
  destruct (Qle_bool q (- Js.max_double)) eqn:E.
  - apply Qle_bool_iff in E. pose proof max_double_pos.
    generalize dependent Js.max_double. intros. lra.
  - right. exists (Qred q). split; [done|]. now rewrite Qred_correct.
Qed.

Lemma add_nonneg a b : nonneg a -> nonneg b -> nonneg (Js.add a b).
Proof.
  intros [->|(x & -> & Hx)] [->|(y & -> & Hy)]; try (now left).
  apply binary64_nonneg. lra.
Qed.

Lemma nonneg_zero : nonneg Js.zero.
Proof. right. exists 0%Q. split; [done | lra]. Qed.

(** [balance || 0] of a sound balance. *)
Lemma or_zero_nonneg v :
  sound_balance v -> exists n, v ||| VNum Js.zero = VNum n /\ nonneg n.
Proof.
  intros (n & -> & Hn). unfold Js.or_else.
  destruct (Js.truthy (VNum n)); eauto using nonneg_zero.
Qed.

Lemma credited_nonneg a v :
  nonneg a -> sound_balance v ->
  sound_balance (Js.plus (VNum a) (v ||| VNum Js.zero)).
Proof.
  intros Ha Hv. destruct (or_zero_nonneg v Hv) as (n & -> & Hn).
  exists (Js.add a n). split; [reflexivity | now apply add_nonneg].
Qed.

Lemma number_or_zero_nonneg v :
  sound_amount v -> nonneg (Server.number_or_zero (Js.parseFloat v)).
Proof.
  intros [->|[->|(n & -> & Hn)]]; try apply nonneg_zero.
  unfold Server.number_or_zero. simpl Js.parseFloat.
  destruct (Js.truthy (VNum n)); [done | apply nonneg_zero].
Qed.

Lemma sum_amounts_nonneg docs :
  Forall (fun e : string * obj => sound_amount (Js.get (VObj (snd e)) "amount")) docs ->
  nonneg (Server.sum_amounts docs).
Proof.
  unfold Server.sum_amounts. generalize nonneg_zero. generalize Js.zero.
  induction docs as [|e docs IH]; intros acc Hacc Hall; simpl; [done|].
  inversion Hall; subst. apply IH; [|done].
  now apply add_nonneg, number_or_zero_nonneg.
Qed.

(** The amount [/pay] stores once the request has passed validation. *)
Lemma rounded_sound amount :
  Js.lt (Js.to_number amount) (Fin 1) = false ->
  sound_amount (VNum (Js.round (Js.to_number amount))).
Proof.
  destruct (Js.to_number amount) as [| | |q]; unfold Js.lt, Js.round, Js.of_Z; intros Hlt.
  - right; now left.
  - right; right. exists PosInf. split; [done | now left].
  - discriminate.
  - right; right. eexists. split; [reflexivity|]. apply norm_nonneg.
    apply negb_false_iff, Qle_bool_iff in Hlt.
    assert (H1 : (Qfloor 1 <= Qfloor (q + (1 # 2)))%Z)
      by (apply Qfloor_resp_le; lra).
    change (Qfloor 1) with 1%Z in H1.
    change 0%Q with (inject_Z 0). rewrite <- Zle_Qle. lia.
Qed.

(** The amount a callback credits once it has passed validation. *)
Lemma validated_nonneg a :
  Js.isNaN a = false -> Js.le a Js.zero = false -> nonneg a.
Proof.
  destruct a as [| | |q]; simpl; try discriminate; [now left|].
  intros _ Hle. right. exists q. split; [done|].
  destruct (Qlt_le_dec 0 q) as [H|H]; [lra|].
  apply Qle_bool_iff in H. congruence.
Qed.

(** The amount a manual update credits. *)
Lemma truthy_amount_nonneg v :
  sound_amount v -> Js.truthy v = true -> exists a, v = VNum a /\ nonneg a.
Proof. intros [->|[->|(n & -> & Hn)]] Ht; try discriminate. eauto. Qed.

Lemma get_merged_absent k new stored :
  absent k new = true ->
  Js.get (VObj (Firestore.merged new stored)) k
  = match stored with Some d => Js.get (VObj d) k | None => VUndef end.
Proof.
  intros Habs. unfold Js.get. destruct stored as [d|]; simpl.
  - now rewrite lookup_merge_fields_absent.
  - now rewrite lookup_field_absent.
Qed.

Lemma set_transaction_ok id data (merge : bool) s :
  store_ok s ->
  transaction_ok (if merge then Firestore.merged data (Firestore.transactions s !! id)
                  else data) ->
  store_ok (Firestore.set_transaction id data merge s).
Proof.
  intros [Hu Ht] Hnew. split; simpl; [exact Hu|].
  intros id' d. destruct (decide (id = id')) as [<-|Hne].
  - rewrite lookup_insert_eq. now intros [= <-].
  - rewrite lookup_insert_ne by done. apply Ht.
Qed.

Lemma set_user_ok id data (merge : bool) s :
  store_ok s ->
  user_ok id (if merge then Firestore.merged data (Firestore.users s !! id) else data) ->
  store_ok (Firestore.set_user id data merge s).
Proof.
  intros [Hu Ht] Hnew. split; simpl; [|exact Ht].
  intros id' d. destruct (decide (id = id')) as [<-|Hne].
  - rewrite lookup_insert_eq. now intros [= <-].
  - rewrite lookup_insert_ne by done. apply Hu.
Qed.

(** A merged write that names neither the identity nor the amount. *)
Lemma merged_keeps_transaction data stored :
  absent "phone" data = true -> absent "amount" data = true ->
  (forall d, stored = Some d -> transaction_ok d) ->
  transaction_ok (Firestore.merged data stored).
Proof.
  intros Hp Ha Hold. unfold transaction_ok. rewrite !get_merged_absent by done.
  destruct stored as [d|]; [now apply Hold|]. split; now left.
Qed.

(** A write, merged or not, that names both. *)
Lemma named_transaction_ok ph amount post stored (merge : bool) :
  canonical ph -> sound_amount (VNum amount) ->
  absent "phone" post = true -> absent "amount" post = true ->
  let data := ("phone", VStr ph) :: ("amount", VNum amount) :: post in
  transaction_ok (if merge then Firestore.merged data stored else data).
Proof.
  intros Hph Ha Hp1 Hp2 data. unfold transaction_ok.
  assert (H1 : Js.get (VObj (Firestore.merged data stored)) "phone" = VStr ph).
  { now apply (get_merged "phone" (VStr ph) []). }
  assert (H2 : Js.get (VObj (Firestore.merged data stored)) "amount" = VNum amount).
  { now apply (get_merged "amount" (VNum amount) [("phone", VStr ph)]). }
  destruct merge.
  - rewrite H1, H2. split; [right; eauto | done].
  - split; [right; eauto | done].
Qed.

Lemma credit_store p a w :
  canonical p -> nonneg a -> store_ok (db w) -> store_ok (db (credit p (VNum a) w)).
Proof.
  intros Hp Ha Hok. unfold credit, write_user. simpl db.
  apply set_user_ok; [done|]. split; [done|]. split; [done|].
  change (Js.get _ "balance")
    with (match Firestore.users (db w) !! p with
          | Some d => Js.plus (VNum a) (Js.get (VObj d) "balance" ||| VNum Js.zero)
          | None => VNum a
          end).
  destruct (Firestore.users (db w) !! p) as [d|] eqn:E; [|now exists a].
  apply credited_nonneg; [done|]. now apply (proj1 Hok p d E).
Qed.

Lemma snapshotFor_store p w :
  canonical p -> store_ok (db w) -> store_ok (db (snd (Server.snapshotFor p w))).
Proof.
  intros Hp Hok. unfold Server.snapshotFor.
  destruct (Server.invalid _); [|done]. cbn [snd]. unfold write_user. simpl db.
  apply set_user_ok; [done|].
  set (sum := Server.sum_amounts _).
  split; [done|]. split.
  - now apply (get_merged "phone" (VStr p) []).
  - exists sum. split; [now apply (get_merged "balance" (VNum sum) [("phone", VStr p)])|].
    apply sum_amounts_nonneg, Forall_forall. intros [id d] Hin.
    apply list_elem_of_In, successful_of_spec in Hin as (Hd & _ & _).
    now apply (proj2 Hok id d Hd).
Qed.

Lemma broadcast_store p st r w :
  canonical p -> store_ok (db w) -> store_ok (db (Server.broadcast p st r w)).
Proof.
  intros Hp Hok. unfold Server.broadcast.
  destruct (sseClients w !! p) as [[|c set]|]; try done.
  destruct (Server.snapshotFor p w) as [snap w1] eqn:E.
  rewrite pushes_db. change w1 with (snd (snap, w1)). rewrite <- E.
  now apply snapshotFor_store.
Qed.

Lemma write_transaction_store id data (merge : bool) w :
  store_ok (db w) ->
  transaction_ok (if merge then Firestore.merged data (Firestore.transactions (db w) !! id)
                  else data) ->
  store_ok (db (write_transaction id data merge w)).
Proof. intros Hok Hnew. unfold write_transaction. simpl db. now apply set_transaction_ok. Qed.

Lemma extract_canonical data x ph :
  Server.extract data = Ok x -> Server.phone x = Some ph -> canonical ph.
Proof.
  unfold Server.extract. destruct (formatPhone _) as [o|] eqn:E; [|discriminate].
  simpl. intros [= <-]. simpl. intros ->. now apply formatPhone_is_canonical in E.
Qed.

Lemma events_store phone r w :
  store_ok (db w) -> store_ok (db (snd (Server.events phone r w))).
Proof.
  intros Hok. unfold Server.events.
  destruct (formatPhone (VStr phone)) as [[ph|]|] eqn:Hph; try done.
  destruct (Server.snapshotFor ph _) as [snap w1] eqn:E.
  assert (H1 : store_ok (db w1)).
  { change w1 with (snd (snap, w1)). rewrite <- E. apply snapshotFor_store; [|done].
    now apply (formatPhone_is_canonical (VStr phone)). }
  unfold Server.write. now case_bool_decide.
Qed.

Lemma balance_store phone w :
  store_ok (db w) -> store_ok (db (snd (Server.balance phone w))).
Proof.
  intros Hok. unfold Server.balance.
  destruct (formatPhone (VStr phone)) as [[ph|]|] eqn:Hph; try done.
  destruct (Server.snapshotFor ph w) as [snap w1] eqn:E. simpl.
  change w1 with (snd (snap, w1)). rewrite <- E. apply snapshotFor_store; [|done].
  now apply (formatPhone_is_canonical (VStr phone)).
Qed.

Lemma pay_store e body now_ms gw w :
  store_ok (db w) -> store_ok (db (snd (Server.pay e body now_ms gw w))).
Proof.
  intros Hok.
  assert (H : store_ok (db (snd (Server.pay_body e body now_ms gw w)))).
  { unfold Server.pay_body.
    destruct (do phone <- _; _) as [[[ph|] amount]|] eqn:Hread; simpl; try done.
    assert (Hph : canonical ph).
    { destruct (Js.get_strict body "phone") as [phone|]; [|discriminate].
      destruct (Js.get_strict body "amount") as [amount'|]; [|discriminate].
      simpl in Hread. destruct (formatPhone phone) as [o|] eqn:Hf; [|discriminate].
      injection Hread as -> _. now apply (formatPhone_is_canonical phone). }
    destruct (negb _ || _) eqn:Hvalid; simpl; [done|].
    apply orb_false_iff in Hvalid as [_ Hlt].
    pose proof (rounded_sound amount Hlt) as Hamount.
    set (id := ("ORDER-" ++ Js.string_of_number (Js.of_Z now_ms))) in *.
    set (rounded := Js.round (Js.to_number amount)) in *.
    set (w1 := write_transaction id _ false w).
    assert (H1 : store_ok (db w1)).
    { apply write_transaction_store; [done|].
      now apply (named_transaction_ok ph rounded _ None false). }
    set (w2 := Server.broadcast ph (VStr "PENDING") (VStr id) w1).
    assert (H2 : store_ok (db w2)) by now apply broadcast_store.
    destruct gw as [|data]; simpl; [done|].
    destruct (Js.truthy _); simpl.
    - apply write_transaction_store; [done|].
      now apply (named_transaction_ok ph rounded _ _ true).
    - apply broadcast_store; [done|]. apply write_transaction_store; [done|].
      now apply (named_transaction_ok ph rounded _ _ true). }
  unfold Server.pay. now destruct (Server.pay_body e body now_ms gw w) as [[r|m] w'].
Qed.

Lemma callback_store e secret data w :
  store_ok (db w) -> store_ok (db (snd (Server.callback e secret data w))).
Proof.
  intros Hok.
  assert (H : store_ok (db (snd (Server.callback_body data w)))).
  { unfold Server.callback_body.
    destruct (Server.extract data) as [x|] eqn:Hx; simpl; [|done].
    destruct (Server.phone x) as [ph|] eqn:Hph; simpl; [|done].
    pose proof (extract_canonical data x ph Hx Hph) as Hcan.
    destruct (Js.truthy (Server.reference x)); simpl; [|done].
    destruct (_ || _) eqn:Hvalid; simpl; [done|].
    apply orb_false_iff in Hvalid as [Hnan Hle].
    pose proof (validated_nonneg _ Hnan Hle) as Hamount.
    destruct (Server.isSuccess data) as [[|]|]; simpl; [| |done];
      (destruct (Firestore.doc_id _) as [id|]; simpl; [|done]).
    - apply broadcast_store; [done|]. apply credit_store; [done | done |].
      apply write_transaction_store; [done|].
      apply (named_transaction_ok ph (Server.amount x) _ _ true); try done.
      right; right. eauto.
    - apply broadcast_store; [done|]. apply write_transaction_store; [done|].
      apply merged_keeps_transaction; try done. intros d Hd. now apply (proj2 Hok id d). }
  unfold Server.callback. destruct (Server.unauthorized e secret); [done|].
  now destruct (Server.callback_body data w) as [[r|m] w'].
Qed.

Lemma update_status_store ref body w :
  store_ok (db w) -> store_ok (db (snd (Server.update_status ref body w))).
Proof.
  intros Hok.
  assert (H : store_ok (db (snd (Server.update_status_body ref body w)))).
  { unfold Server.update_status_body.
    destruct (Js.get_strict body "status") as [status|]; [|done].
    destruct (Firestore.transactions (db w) !! ref) as [txnData|] eqn:Hd; [|done].
    destruct (Js.as_string _) as [text|]; [|done].
    destruct (proj2 Hok ref txnData Hd) as [Hphone Hamount].
    remember (Js.get (VObj txnData) "phone") as phone eqn:Ephone.
    remember (Js.get (VObj txnData) "amount") as amount eqn:Eamount.
    set (w1 := write_transaction ref _ true _).
    assert (H1 : store_ok (db w1)).
    { apply write_transaction_store; [done|]. simpl db.
      apply merged_keeps_transaction; try done. intros d Hd'. now apply (proj2 Hok ref d). }
    assert (Hcan : forall p, phone = VStr p -> canonical p).
    { intros p ->. destruct Hphone as [|(ph & [= <-] & Hc)]; done. }
    destruct (String.eqb (Js.toUpperCase text) "SUCCESS" && Js.truthy phone
              && Js.truthy amount) eqn:Hs.
    - apply andb_true_iff in Hs as [_ Htruthy].
      destruct (truthy_amount_nonneg _ Hamount Htruthy) as (a & -> & Hnn).
      destruct (Firestore.doc_id phone) as [p|] eqn:Hp; [|exact H1].
      apply doc_id_truthy in Hp as [Hp _]. cbn [snd].
      apply broadcast_store; [auto|]. apply credit_store; auto.
    - destruct (String.eqb (Js.toUpperCase text) "FAILED" && Js.truthy phone);
        [|exact H1].
      cbn [snd]. unfold Server.broadcast_to.
      destruct phone; try exact H1. apply broadcast_store; auto. }
  unfold Server.update_status.
  now destruct (Server.update_status_body ref body w) as [[r|m] w'].
Qed.

(** X7. Whatever requests arrive, the collections keep their shape:
    user documents stay under canonical identities that they repeat in
    [phone], with balances that are numbers, never [NaN] and never
    negative; transaction documents name canonical identities and
    amounts that are numbers and not negative. *)
Theorem collections_stay_sound (e : env) (w0 w : world) :
  store_ok (db w0) -> rtc (step e) w0 w -> store_ok (db w).
Proof.
  intros H0 Hsteps. induction Hsteps as [w|w1 w2 w3 Hstep _ IH]; [done|].
  apply IH. clear IH. destruct Hstep as [q|phone r|p c now Hreg Hc|r].
  - destruct q; simpl.
    + now apply events_store.
    + now apply pay_store.
    + now apply callback_store.
    + now apply update_status_store.
    + now apply balance_store.
    + done.
  - unfold Server.on_close. now rewrite removeSseClient_db.
  - unfold Server.heartbeat, Server.write. now case_bool_decide.
  - done.
Qed.

Lemma store_ok_empty : store_ok empty_store.
Proof. split; intros k d H; simpl in H; now rewrite lookup_empty in H. Qed.

Lemma paid_reachable : rtc (step env_secret) empty_world paid.
Proof.
  apply (rtc_l _ _ subscribed);
    [exact (served env_secret empty_world (Server.GetEvents "0712345678" 7))|].
  apply (rtc_l _ _ initiated);
    [exact (served env_secret subscribed
              (Server.PostPay pay_request 1700000000000 accepted))|].
  apply (rtc_l _ _ paid);
    [exact (served env_secret initiated
              (Server.PostCallback (VStr "s3cret") success_payload))|].
  apply rtc_refl.
Qed.

Lemma collections_stay_sound_witness :
  store_ok (db empty_world) /\ rtc (step env_secret) empty_world paid
  /\ store_ok (db paid).
Proof.
  split; [exact store_ok_empty|]. split; [exact paid_reachable|].
  exact (collections_stay_sound env_secret empty_world paid store_ok_empty paid_reachable).
Defined.

(** ** What [/pay] leaves behind *)

Section PayDocument.

Variables (e : env) (body : value) (now_ms : Z) (w : world).
Variables (phone amount : value) (formattedPhone : string).

Hypothesis Hphone : Js.get_strict body "phone" = Ok phone.
Hypothesis Hamount : Js.get_strict body "amount" = Ok amount.
Hypothesis Hformat : formatPhone phone = Ok (Some formattedPhone).
Hypothesis Hgiven : Js.truthy amount = true.
Hypothesis Hatleast1 : Js.lt (Js.to_number amount) (Fin 1) = false.

Lemma awaiting_document :
  Firestore.transactions (db (awaiting_gateway e formattedPhone amount now_ms w)) !! (order_reference now_ms)
  = Some (pending formattedPhone (Js.round (Js.to_number amount)) (order_reference now_ms) (Firestore.clock (db w))).
Proof.
  unfold awaiting_gateway. cbv zeta. simpl db at 1.
  rewrite broadcast_transactions. unfold write_transaction. simpl.
  now rewrite lookup_insert_eq.
Qed.

(** The gateway answers: INITIATED or FAILED is merged into the PENDING
    document. *)
Lemma pay_gateway_answers data :
  Server.pay e body now_ms (GwData data) w
  = if Js.truthy (Js.get data "success")
    then (Json 200
            (VObj [("success", VBool true);
                   ("message", VStr "STK push sent, check your phone");
                   ("amount", VNum (Js.round (Js.to_number amount)));
                   ("phone", VStr formattedPhone);
                   ("reference", VStr (order_reference now_ms))]),
          write_transaction (order_reference now_ms)
            [("phone", VStr formattedPhone); ("amount", VNum (Js.round (Js.to_number amount)));
             ("status", VStr "INITIATED"); ("reference", VStr (order_reference now_ms));
             ("swiftwallet", data); ("updatedAt", serverTimestamp (awaiting_gateway e formattedPhone amount now_ms w))] true (awaiting_gateway e formattedPhone amount now_ms w))
    else (Json 400 (Server.failure (Js.get data "error" ||| VStr "Payment initiation failed")),
          Server.broadcast formattedPhone (VStr "FAILED") (VStr (order_reference now_ms))
            (write_transaction (order_reference now_ms)
               [("phone", VStr formattedPhone); ("amount", VNum (Js.round (Js.to_number amount)));
                ("status", VStr "FAILED"); ("reference", VStr (order_reference now_ms));
                ("error", Js.get data "error" ||| VStr "Payment initiation failed");
                ("updatedAt", serverTimestamp (awaiting_gateway e formattedPhone amount now_ms w))] true (awaiting_gateway e formattedPhone amount now_ms w))).
Proof.
  unfold Server.pay, Server.pay_body. rewrite Hphone, Hamount. simpl bind.
  rewrite Hformat. simpl bind. cbv iota beta. rewrite Hgiven, Hatleast1.
  simpl orb. cbv iota zeta. now destruct (Js.truthy (Js.get data "success")).
Qed.

(** Whatever the gateway does, the document of the request names the
    identity, the (Js.round (Js.to_number amount)) amount and the time of the request. *)
Lemma pay_document gw :
  exists d,
    Firestore.transactions (db (snd (Server.pay e body now_ms gw w))) !! (order_reference now_ms) = Some d
    /\ Js.get (VObj d) "phone" = VStr formattedPhone
    /\ Js.get (VObj d) "amount" = VNum (Js.round (Js.to_number amount))
    /\ Js.get (VObj d) "createdAt" = VTime (Firestore.clock (db w)).
Proof.
  pose proof awaiting_document as Hdoc.
  destruct gw as [|data].
  - rewrite (pay_gateway_throws e body now_ms w phone amount formattedPhone) by done.
    cbn [snd]. rewrite Hdoc. eexists. split; [reflexivity|]. now repeat split.
  - rewrite pay_gateway_answers. destruct (Js.truthy (Js.get data "success")); cbn [snd].
    + rewrite write_transaction_lookup, Hdoc. eexists. split; [reflexivity|].
      split; [now apply (get_merged "phone" (VStr formattedPhone) [])|].
      split; [now apply (get_merged "amount" (VNum (Js.round (Js.to_number amount))) [("phone", VStr formattedPhone)])|].
      now rewrite get_merged_absent.
    + rewrite broadcast_transactions, write_transaction_lookup, Hdoc.
      eexists. split; [reflexivity|].
      split; [now apply (get_merged "phone" (VStr formattedPhone) [])|].
      split; [now apply (get_merged "amount" (VNum (Js.round (Js.to_number amount))) [("phone", VStr formattedPhone)])|].
      now rewrite get_merged_absent.
Qed.

End PayDocument.

Lemma Qred_inject_Z z : Qred (inject_Z z) = inject_Z z.
Proof.
  unfold Qred, inject_Z.
  generalize (Z.ggcd_gcd z 1) (Z.ggcd_correct_divisors z 1).
  destruct (Z.ggcd z 1) as [g [aa bb]]. simpl. intros Hg [Ha Hb].
  rewrite Z.gcd_1_r in Hg. subst g. rewrite Z.mul_1_l in Ha, Hb. now subst.
Qed.

(** [Math.round] of a number that is at least 1. *)
Lemma round_at_least_1 a :
  (1 <= a)%Q -> (a + (1 # 2) < Js.max_double)%Q ->
  let n := Qfloor (a + (1 # 2)) in
  Js.round (Fin a) = Fin (inject_Z n)
  /\ (1 <= n)%Z
  /\ (inject_Z n - (1 # 2) <= a)%Q /\ (a < inject_Z n + (1 # 2))%Q.
Proof.
  intros H1 Hmax n.
  assert (Hlo : (inject_Z n <= a + (1 # 2))%Q) by apply Qfloor_le.
  assert (Hhi : (a + (1 # 2) < inject_Z (n + 1))%Q) by apply Qlt_floor.
  rewrite inject_Z_plus in Hhi.
  assert (Hn : (Qfloor 1 <= n)%Z) by (apply Qfloor_resp_le; lra).
  change (Qfloor 1) with 1%Z in Hn.
  assert (Hpos : (1 <= inject_Z n)%Q).
  { change 1%Q with (inject_Z 1). now rewrite <- Zle_Qle. }
  change (inject_Z 1) with 1%Q in Hhi.
  assert (Hround : Js.round (Fin a) = Fin (inject_Z n)).
  { unfold Js.round, Js.of_Z. fold n. clearbody n.
    rewrite norm_in_range, Qred_inject_Z; [done| |].
    - pose proof max_double_pos. generalize dependent Js.max_double. intros. lra.
    - generalize dependent Js.max_double. intros. lra. }
  clearbody n. split; [exact Hround|]. split; [exact Hn|]. split; lra.
Qed.

(** X8. The amount of a payment is stored rounded to the nearest whole
    number: for a request with a numeric amount [a] of at least 1,
    whatever the gateway does afterwards, the transaction document holds
    the integer [n] with [n - 1/2 <= a < n + 1/2], which is at least 1,
    together with the normalised identity. *)
Theorem pay_stores_whole_amount
    (e : env) (body : value) (now_ms : Z) (gw : gateway) (w : world)
    (phone : value) (formattedPhone : string) (a : Q) :
  Js.get_strict body "phone" = Ok phone ->
  Js.get_strict body "amount" = Ok (VNum (Fin a)) ->
  formatPhone phone = Ok (Some formattedPhone) ->
  (1 <= a)%Q ->
  (a + (1 # 2) < Js.max_double)%Q ->
  exists (n : Z) (d : obj),
    Firestore.transactions (db (snd (Server.pay e body now_ms gw w)))
      !! order_reference now_ms = Some d
    /\ Js.get (VObj d) "phone" = VStr formattedPhone
    /\ Js.get (VObj d) "amount" = VNum (Fin (inject_Z n))
    /\ (1 <= n)%Z
    /\ (inject_Z n - (1 # 2) <= a)%Q /\ (a < inject_Z n + (1 # 2))%Q.
Proof.
  intros Hphone Hamount Hformat H1 Hmax.
  destruct (round_at_least_1 a H1 Hmax) as (Hround & Hn & Hlo & Hhi).
  assert (Hgiven : Js.truthy (VNum (Fin a)) = true).
  { simpl. rewrite Qeq_bool_false; [done | lra]. }
  assert (Hatleast1 : Js.lt (Js.to_number (VNum (Fin a))) (Fin 1) = false).
  { simpl. apply negb_false_iff, Qle_bool_iff. exact H1. }
  destruct (pay_document e body now_ms w phone (VNum (Fin a)) formattedPhone
              Hphone Hamount Hformat Hgiven Hatleast1 gw) as (d & Hd & Hp & Ha & _).
  exists (Qfloor (a + (1 # 2))), d.
  split; [exact Hd|]. split; [exact Hp|]. split; [|done].
  rewrite Ha. f_equal. exact Hround.
Qed.

Lemma pay_stores_whole_amount_witness :
  exists (n : Z) (d : obj),
    Firestore.transactions
      (db (snd (Server.pay env_secret pay_request_bob 1700000000000 GwThrows subscribed)))
      !! order1 = Some d
    /\ Js.get (VObj d) "phone" = VStr bob
    /\ Js.get (VObj d) "amount" = VNum (Fin (inject_Z n))
    /\ (1 <= n)%Z
    /\ (inject_Z n - (1 # 2) <= 5 # 2)%Q /\ (5 # 2 < inject_Z n + (1 # 2))%Q.
Proof.
  apply (pay_stores_whole_amount env_secret pay_request_bob 1700000000000 GwThrows
           subscribed (VStr "0798765432") bob (5 # 2));
    reflexivity || (intros H; discriminate H).
Defined.

Lemma get_created_at d t : Js.get (VObj d) "createdAt" = VTime t -> Firestore.created_at d = Some t.
Proof.
  unfold Js.get, Firestore.created_at.
  destruct (Js.lookup_field "createdAt" d) as [v|]; simpl; [|discriminate].
  now intros ->.
Qed.

Lemma get_field_is k s d : Js.get (VObj d) k = VStr s -> Firestore.field_is k s d = true.
Proof. unfold Firestore.field_is. intros ->. simpl. apply String.eqb_refl. Qed.

(** X9. A payment the gateway accepts is answered 200 with the
    reference under which its transaction is stored; that transaction is
    INITIATED, and because it carries its creation time it is part of
    the history that the next snapshot of the identity lists. *)
Theorem accepted_payment_is_listed
    (e : env) (body : value) (now_ms : Z) (data : value) (w : world)
    (phone amount : value) (formattedPhone : string) :
  Js.get_strict body "phone" = Ok phone ->
  Js.get_strict body "amount" = Ok amount ->
  formatPhone phone = Ok (Some formattedPhone) ->
  Js.truthy amount = true ->
  Js.lt (Js.to_number amount) (Fin 1) = false ->
  Js.truthy (Js.get data "success") = true ->
  let id := order_reference now_ms in
  let answer := fst (Server.pay e body now_ms (GwData data) w) in
  let w' := snd (Server.pay e body now_ms (GwData data) w) in
  (exists o, answer = Json 200 (VObj o)
             /\ Js.get (VObj o) "success" = VBool true
             /\ Js.get (VObj o) "reference" = VStr id)
  /\ txn_status w' id = VStr "INITIATED"
  /\ has_history w' formattedPhone
  /\ (Firestore.index_ready (db w) = true ->
      snd (fst (Server.snapshotFor formattedPhone w')) <> []).
Proof.
  intros Hphone Hamount Hformat Hgiven Hatleast1 Hyes. cbv zeta.
  destruct (pay_document e body now_ms w phone amount formattedPhone
              Hphone Hamount Hformat Hgiven Hatleast1 (GwData data))
    as (d & Hd & Hp & _ & Hc).
  assert (Hhist : has_history (snd (Server.pay e body now_ms (GwData data) w)) formattedPhone).
  { exists (order_reference now_ms), d, (Firestore.clock (db w)).
    split; [exact Hd|]. split; [now apply get_field_is | now apply get_created_at]. }
  rewrite (pay_gateway_answers e body now_ms w phone amount formattedPhone) in * by done.
  rewrite Hyes in *. cbn [fst snd] in *.
  split; [eexists; split; [reflexivity|]; now split|].
  split.
  { now apply (status_after_write _ "INITIATED"
                 [("phone", VStr formattedPhone);
                  ("amount", VNum (Js.round (Js.to_number amount)))]). }
  split; [exact Hhist|].
  intros Hindex. rewrite snapshotFor_list.
  change (Firestore.index_ready (db (write_transaction _ _ true _)))
    with (Firestore.index_ready
            (db (Server.broadcast formattedPhone (VStr "PENDING")
                   (VStr (order_reference now_ms))
                   (write_transaction (order_reference now_ms)
                      [("phone", VStr formattedPhone);
                       ("amount", VNum (Js.round (Js.to_number amount)));
                       ("status", VStr "PENDING");
                       ("reference", VStr (order_reference now_ms));
                       ("createdAt", serverTimestamp w)] false w)))).
  assert (Hi : forall p st r w0, Firestore.index_ready (db (Server.broadcast p st r w0))
                                 = Firestore.index_ready (db w0)).
  { intros p st r w0. unfold Server.broadcast.
    destruct (sseClients w0 !! p) as [[|c set]|]; try done.
    destruct (Server.snapshotFor p w0) as [snap w1] eqn:E. rewrite pushes_db.
    change w1 with (snd (snap, w1)). rewrite <- E. unfold Server.snapshotFor.
    now destruct (Server.invalid _). }
  rewrite Hi. simpl Firestore.index_ready. rewrite Hindex.
  intros Hnil. apply map_eq_nil in Hnil.
  destruct Hhist as (id' & d' & t & Hd' & Hp' & Ht').
  now apply (five_latest_nonempty formattedPhone _ id' d' t Hd' Hp' Ht').
Qed.

Lemma accepted_payment_is_listed_witness :
  txn_status initiated order1 = VStr "INITIATED"
  /\ has_history initiated alice
  /\ snd (fst (Server.snapshotFor alice initiated)) <> [].
Proof.
  destruct (accepted_payment_is_listed env_secret pay_request 1700000000000
              (VObj [("success", VBool true)]) subscribed
              (VStr "0712345678") (VNum (Fin 100)) alice
              eq_refl eq_refl eq_refl eq_refl eq_refl eq_refl) as (_ & H2 & H3 & H4).
  split; [exact H2|]. split; [exact H3|]. apply H4. reflexivity.
Defined.

(** X10. [/pay] validates before it writes.  A request with a JSON
    object as its body whose identity is missing or cannot be
    normalised, or whose amount is missing or reads as a number below 1,
    is answered 400; one whose body is absent, or whose identity is
    neither falsy nor a string, is answered 500; and in each of these
    cases the world is left exactly as it was. *)
Theorem pay_rejects_before_writing
    (e : env) (body : value) (now_ms : Z) (gw : gateway) (w : world) :
  let invalid_phone := (Json 400 (Server.failure (VStr "Invalid phone format")), w) in
  let invalid_amount := (Json 400 (Server.failure (VStr "Amount must be >= 1")), w) in
  let failed := (Json 500 (Server.failure (VStr "Server error during /pay")), w) in
  ((body = VUndef \/ body = VNull) -> Server.pay e body now_ms gw w = failed)
  /\ (forall o, body = VObj o -> Js.is_json body = true ->
      let phone := Js.get body "phone" in
      let amount := Js.get body "amount" in
      (Js.truthy phone = false -> Server.pay e body now_ms gw w = invalid_phone)
      /\ (Js.truthy phone = true -> (forall s, phone <> VStr s) ->
          Server.pay e body now_ms gw w = failed)
      /\ (formatPhone phone = Ok None -> Server.pay e body now_ms gw w = invalid_phone)
      /\ (forall ph, formatPhone phone = Ok (Some ph) ->
          Js.truthy amount = false \/ Js.lt (Js.to_number amount) (Fin 1) = true ->
          Server.pay e body now_ms gw w = invalid_amount)).
Proof.
  cbv zeta. split.
  - unfold Server.pay, Server.pay_body. now intros [-> | ->].
  - intros o -> _.
    assert (Hphone : Js.get_strict (VObj o) "phone" = Ok (Js.get (VObj o) "phone"))
      by reflexivity.
    assert (Hamount : Js.get_strict (VObj o) "amount" = Ok (Js.get (VObj o) "amount"))
      by reflexivity.
    set (phone := Js.get (VObj o) "phone") in *.
    set (amount := Js.get (VObj o) "amount") in *.
    assert (Hnone : formatPhone phone = Ok None ->
                    Server.pay e (VObj o) now_ms gw w
                    = (Json 400 (Server.failure (VStr "Invalid phone format")), w)).
    { intros Hf. unfold Server.pay, Server.pay_body. rewrite Hphone, Hamount.
      unfold bind. now rewrite Hf. }
    split; [|split; [|split]].
    + intros Hfalsy. now apply Hnone, formatPhone_falsy.
    + intros Htruthy Hns. unfold Server.pay, Server.pay_body. rewrite Hphone, Hamount.
      unfold bind. now rewrite (formatPhone_throws _ Htruthy Hns).
    + exact Hnone.
    + intros ph Hf Hbad. unfold Server.pay, Server.pay_body. rewrite Hphone, Hamount.
      unfold bind. rewrite Hf.
      replace (negb (Js.truthy amount) || Js.lt (Js.to_number amount) (Fin 1))
        with true; [done|].
      symmetry. apply orb_true_iff. destruct Hbad as [H|H]; [left | now right].
      now rewrite H.
Qed.

(** The comparison with 1 is made on the number that the amount reads
    as: a string just below 1 is 1, the request is accepted and the
    amount 1 is stored. *)
Remark nearly_one_is_accepted :
  let w' := snd (Server.pay env_secret pay_request_nearly_one 1700000000000 GwThrows
                   subscribed) in
  Js.lt (Js.to_number (VStr "0.99999999999999999999")) (Fin 1) = false
  /\ Firestore.transactions (db w') !! order1 = Some (pending alice (Fin 1) order1 1001).
Proof. split; reflexivity. Qed.

(** X11. A truthy amount that is not a number passes the validation of
    [/pay]: the comparison with 1 is false for [NaN].  The transaction is
    stored with the amount [NaN], and the payload object that is handed
    to the gateway call carries [NaN] as its amount. *)
Theorem pay_accepts_unparseable_amount
    (e : env) (body : value) (now_ms : Z) (w : world)
    (phone amount : value) (formattedPhone : string) :
  Js.get_strict body "phone" = Ok phone ->
  Js.get_strict body "amount" = Ok amount ->
  formatPhone phone = Ok (Some formattedPhone) ->
  Js.truthy amount = true ->
  Js.to_number amount = NaN ->
  let id := order_reference now_ms in
  let w' := snd (Server.pay e body now_ms GwThrows w) in
  Firestore.transactions (db w') !! id
  = Some (pending formattedPhone NaN id (Firestore.clock (db w)))
  /\ exists payload,
       In (Posted Server.gateway_url payload (Some Server.gateway_timeout)) (since w w')
       /\ Js.get payload "amount" = VNum NaN.
Proof.
  intros Hphone Hamount Hformat Hgiven Hnan. cbv zeta.
  assert (Hatleast1 : Js.lt (Js.to_number amount) (Fin 1) = false) by now rewrite Hnan.
  rewrite (pay_gateway_throws e body now_ms w phone amount formattedPhone) by done.
  cbn [snd]. split.
  - rewrite (awaiting_document e now_ms w amount formattedPhone). now rewrite Hnan.
  - unfold awaiting_gateway. cbv zeta. rewrite Hnan.
    set (w0 := write_transaction (order_reference now_ms) _ false w).
    destruct (broadcast_trace formattedPhone (VStr "PENDING")
                (VStr (order_reference now_ms)) w0) as [evs Hevs].
    eexists. split.
    + erewrite since_app.
      2: { simpl trace at 1. rewrite Hevs. unfold w0. simpl trace.
           rewrite <- !app_assoc. reflexivity. }
      apply in_or_app. right. apply in_or_app. right. now left.
    + reflexivity.
Qed.

Lemma pay_accepts_unparseable_amount_witness :
  Js.to_number (VStr "lots") = NaN
  /\ Firestore.transactions
       (db (snd (Server.pay env_secret pay_request_unparseable 1700000000000 GwThrows
                   subscribed))) !! order1
     = Some (pending alice NaN order1 1001).
Proof.
  split; [reflexivity|].
  apply (pay_accepts_unparseable_amount env_secret pay_request_unparseable 1700000000000
           subscribed (VStr "0712345678") (VStr "lots") alice
           eq_refl eq_refl eq_refl eq_refl eq_refl).
Defined.

(** X12. The reference is made from the clock alone, and the PENDING
    document is written without merge: whatever was stored under the
    reference is replaced.  Two payments that read the same millisecond
    share one document, and after the second one nothing of the first
    is left in it. *)
Theorem pay_replaces_document
    (e : env) (body1 body2 : value) (now_ms : Z) (gw1 : gateway) (w : world)
    (phone amount : value) (formattedPhone : string) :
  Js.get_strict body2 "phone" = Ok phone ->
  Js.get_strict body2 "amount" = Ok amount ->
  formatPhone phone = Ok (Some formattedPhone) ->
  Js.truthy amount = true ->
  Js.lt (Js.to_number amount) (Fin 1) = false ->
  let id := order_reference now_ms in
  let first := snd (Server.pay e body1 now_ms gw1 w) in
  let second := snd (Server.pay e body2 now_ms GwThrows first) in
  Firestore.transactions (db second) !! id
  = Some (pending formattedPhone (Js.round (Js.to_number amount)) id
            (Firestore.clock (db first)))
  /\ forall id', id' <> id ->
       Firestore.transactions (db second) !! id' = Firestore.transactions (db first) !! id'.
Proof.
  intros Hphone Hamount Hformat Hgiven Hatleast1. cbv zeta.
  set (first := snd (Server.pay e body1 now_ms gw1 w)).
  rewrite (pay_gateway_throws e body2 now_ms first phone amount formattedPhone) by done.
  cbn [snd]. split.
  - apply (awaiting_document e now_ms first amount formattedPhone).
  - intros id' Hne. unfold awaiting_gateway. cbv zeta. simpl db at 1.
    rewrite broadcast_transactions. unfold write_transaction. simpl.
    now rewrite lookup_insert_ne.
Qed.

Lemma pay_replaces_document_witness :
  let first := snd (Server.pay env_secret pay_request 1700000000000 accepted subscribed) in
  let second := snd (Server.pay env_secret pay_request_bob 1700000000000 GwThrows first) in
  txn_status first order1 = VStr "INITIATED"
  /\ Firestore.transactions (db second) !! order1 = Some (pending bob (Fin 3) order1 1003).
Proof.
  split; [reflexivity|].
  apply (pay_replaces_document env_secret pay_request pay_request_bob 1700000000000
           accepted subscribed (VStr "0798765432") (VNum (Fin (5 # 2))) bob
           eq_refl eq_refl eq_refl eq_refl eq_refl).
Defined.

(** ** What a callback leaves alone *)

Lemma snapshotFor_users_ne p p' w :
  p <> p' ->
  Firestore.users (db (snd (Server.snapshotFor p w))) !! p' = Firestore.users (db w) !! p'.
Proof.
  intros Hne. unfold Server.snapshotFor. destruct (Server.invalid _); [|done].
  cbn [snd]. unfold write_user. simpl. now rewrite lookup_insert_ne.
Qed.

Lemma broadcast_users_ne p p' st r w :
  p <> p' ->
  Firestore.users (db (Server.broadcast p st r w)) !! p' = Firestore.users (db w) !! p'.
Proof.
  intros Hne. unfold Server.broadcast.
  destruct (sseClients w !! p) as [[|c set]|]; try done.
  destruct (Server.snapshotFor p w) as [snap w1] eqn:E.
  rewrite pushes_db. change w1 with (snd (snap, w1)). rewrite <- E.
  now apply snapshotFor_users_ne.
Qed.

Lemma credit_users_ne p p' a w :
  p <> p' -> Firestore.users (db (credit p a w)) !! p' = Firestore.users (db w) !! p'.
Proof. intros Hne. rewrite credit_users. now rewrite lookup_insert_ne. Qed.

Lemma write_transaction_ne id id' data (m : bool) w :
  id <> id' ->
  Firestore.transactions (db (write_transaction id data m w)) !! id'
  = Firestore.transactions (db w) !! id'.
Proof. intros Hne. unfold write_transaction. simpl. now rewrite lookup_insert_ne. Qed.

Lemma broadcast_index p st r w :
  Firestore.index_ready (db (Server.broadcast p st r w)) = Firestore.index_ready (db w).
Proof.
  unfold Server.broadcast.
  destruct (sseClients w !! p) as [[|c set]|]; try done.
  destruct (Server.snapshotFor p w) as [snap w1] eqn:E. rewrite pushes_db.
  change w1 with (snd (snap, w1)). rewrite <- E. unfold Server.snapshotFor.
  now destruct (Server.invalid _).
Qed.

(** X13. A callback touches the transaction document of its reference
    and the user document of its identity, and nothing else in the
    collections: every other transaction and every other user document
    is afterwards what it was before, whatever the payload says and
    however the callback is answered. *)
Theorem callback_touches_only_its_documents
    (e : env) (secret data : value) (w : world) (x : Server.extracted) :
  Server.extract data = Ok x ->
  let w' := snd (Server.callback e secret data w) in
  (forall id, Server.reference x <> VStr id ->
     Firestore.transactions (db w') !! id = Firestore.transactions (db w) !! id)
  /\ (forall ph, Server.phone x <> Some ph ->
        Firestore.users (db w') !! ph = Firestore.users (db w) !! ph)
  /\ Firestore.index_ready (db w') = Firestore.index_ready (db w).
Proof.
  intros Hx. cbv zeta. unfold Server.callback.
  destruct (Server.unauthorized e secret); [done|].
  unfold Server.callback_body. rewrite Hx.
  destruct (Server.phone x) as [ph|]; [|done].
  destruct (Js.truthy (Server.reference x)); [|done].
  destruct (Js.isNaN (Server.amount x) || Js.le (Server.amount x) Js.zero); [done|].
  destruct (Server.isSuccess data) as [[|]|]; [| |done];
    (destruct (Firestore.doc_id (Server.reference x)) as [id|] eqn:Hid; [|done]);
    apply doc_id_truthy in Hid as [Hid _]; cbn [snd].
  - split; [|split].
    + intros id' Hne. rewrite broadcast_transactions, credit_transactions.
      apply write_transaction_ne. congruence.
    + intros ph' Hne. rewrite broadcast_users_ne, credit_users_ne by congruence.
      now rewrite write_transaction_users.
    + now rewrite broadcast_index.
  - split; [|split].
    + intros id' Hne. rewrite broadcast_transactions.
      apply write_transaction_ne. congruence.
    + intros ph' Hne. rewrite broadcast_users_ne by congruence.
      now rewrite write_transaction_users.
    + now rewrite broadcast_index.
Qed.

Lemma callback_touches_only_its_documents_witness :
  let w' := snd (Server.callback env_secret (VStr "s3cret") success_payload initiated) in
  Firestore.users (db w') !! bob = Firestore.users (db initiated) !! bob
  /\ Firestore.transactions (db w') !! "ORDER-1" = Firestore.transactions (db initiated) !! "ORDER-1".
Proof.
  destruct (callback_touches_only_its_documents env_secret (VStr "s3cret") success_payload
              initiated
              {| Server.phone := Some alice; Server.reference := VStr order1;
                 Server.rawAmount := VNum (Fin 100); Server.amount := Fin 100 |}
              eq_refl) as (Ht & Hu & _).
  split; [apply Hu | apply Ht]; discriminate.
Defined.

Lemma valid_balance_invalid w p : valid_balance w p -> Server.invalid (Firestore.users (db w) !! p) = false.
Proof. intros (d & q & -> & Hq & Hpos). now apply (valid_not_invalid d q). Qed.

(** X14. A callback that is classified as a failure never credits.
    With a plain payload and a plain reference, it writes FAILED into
    the transaction and, when the balance of the identity is a valid
    one, leaves the whole users collection as it was, while every live
    connection of the identity is told. *)
Theorem failure_callback_never_credits
    (e : env) (secret data : value) (w : world) (x : Server.extracted)
    (ph id : string) :
  Server.unauthorized e secret = false ->
  Firestore.plain_payload data = true ->
  Server.extract data = Ok x ->
  Server.phone x = Some ph ->
  Server.reference x = VStr id ->
  Firestore.plain_name id = true ->
  Js.isNaN (Server.amount x) = false ->
  Js.le (Server.amount x) Js.zero = false ->
  Server.isSuccess data = Ok false ->
  valid_balance w ph ->
  let w' := snd (Server.callback e secret data w) in
  txn_status w' id = VStr "FAILED"
  /\ Firestore.users (db w') = Firestore.users (db w)
  /\ (forall set c, sseClients w !! ph = Some set -> In c set -> alive w c = true ->
      exists payload, In (Pushed (res c) payload) (since w w')
                      /\ Js.get payload "status" = VStr "FAILED").
Proof.
  intros Hauth _ Hx Hph Href Hplain Hnan Hpos Hs Hvalid. cbv zeta.
  assert (Hid : Firestore.doc_id (Server.reference x) = Ok id) by now apply plain_doc_id.
  rewrite (callback_failure_branch e secret data w x ph id) by done. cbn [snd].
  split; [apply status_after_failure|]. unfold after_failure.
  set (w1 := write_transaction id _ true w).
  split.
  - rewrite broadcast_valid; [done|]. now apply valid_balance_invalid.
  - intros set c Hset Hin Halive. destruct set as [|c0 set']; [destruct Hin|].
    unfold Server.broadcast. change (sseClients w1) with (sseClients w). rewrite Hset.
    destruct (Server.snapshotFor ph w1) as [snap w2] eqn:E.
    destruct (snapshotFor_registry ph w1) as (Hreg & _ & Hb & _).
    destruct (snapshotFor_trace ph w1) as [evs Hevs].
    rewrite E in Hreg, Hb, Hevs. cbn [snd] in Hreg, Hb, Hevs.
    set (payload := Server.message ph snap (VStr "FAILED" ||| VNull)
                      (Server.reference x ||| VNull) (Firestore.clock (db w2))).
    destruct (pushes_spec ph payload w (c0 :: set') [] w2 Hb) as (Htr & _).
    { constructor. }
    { now rewrite Hreg. }
    exists payload. split; [|reflexivity].
    erewrite since_app.
    2: { rewrite Htr, Hevs. unfold w1. simpl trace. rewrite <- !app_assoc. reflexivity. }
    apply in_or_app. right. apply in_or_app. right.
    apply in_map_iff. exists c. split; [|done].
    unfold attempt. now rewrite Halive.
Qed.

Lemma failure_callback_never_credits_witness :
  let w' := snd (Server.callback env_secret (VStr "s3cret") failure_payload paid) in
  valid_balance paid alice
  /\ txn_status w' order1 = VStr "FAILED"
  /\ Firestore.users (db w') = Firestore.users (db paid).
Proof.
  assert (Hv : valid_balance paid alice).
  { exists [("phone", VStr alice); ("balance", VNum (Fin 100)); ("updatedAt", VTime 1004)],
      100%Q.
    split; [reflexivity|]. split; [reflexivity | discriminate]. }
  destruct (failure_callback_never_credits env_secret (VStr "s3cret") failure_payload paid
              {| Server.phone := Some alice; Server.reference := VStr order1;
                 Server.rawAmount := VNum (Fin 100); Server.amount := Fin 100 |}
              alice order1 eq_refl eq_refl eq_refl eq_refl eq_refl eq_refl eq_refl eq_refl
              eq_refl Hv)
    as (H1 & H2 & _).
  split; [exact Hv|]. split; [exact H1 | exact H2].
Defined.

(** X15. An identity that arrives as anything but a string, a JSON
    number for instance, is not normalised: [formatPhone] throws on it.
    The callback then answers 500 with result code 1 and records
    nothing, although it is authorised and the rest of the payload is
    in order. *)
Theorem numeric_identity_fails_callback
    (e : env) (secret data : value) (w : world) :
  Server.unauthorized e secret = false ->
  Js.truthy (raw_phone data) = true ->
  (forall s, raw_phone data <> VStr s) ->
  Server.callback e secret data w = (Json 500 (Server.ack 1 "Failed"), w).
Proof.
  intros Hauth Htruthy Hns. unfold Server.callback, Server.callback_body. rewrite Hauth.
  unfold Server.extract. fold (raw_phone data).
  now rewrite (formatPhone_throws _ Htruthy Hns).
Qed.

Lemma numeric_identity_fails_callback_witness :
  raw_phone numeric_phone_payload = VNum (Fin 254712345678)
  /\ Server.callback env_secret (VStr "s3cret") numeric_phone_payload initiated
     = (Json 500 (Server.ack 1 "Failed"), initiated).
Proof.
  split; [reflexivity|].
  apply (numeric_identity_fails_callback env_secret (VStr "s3cret") numeric_phone_payload
           initiated); [reflexivity | reflexivity | discriminate].
Defined.

(** ** Reading back *)

Lemma stored_balance_valid d q :
  Js.get (VObj d) "balance" = VNum (Fin q) -> (0 <= q)%Q ->
  exists q', Server.stored_balance (Some d) = Fin q' /\ (q' == q)%Q.
Proof.
  intros Hq Hpos. unfold Server.stored_balance, Js.or_else. rewrite Hq. simpl Js.truthy.
  destruct (Qeq_bool q 0) eqn:E; simpl.
  - apply Qeq_bool_iff in E. exists 0%Q. split; [done | now rewrite E].
  - now exists q.
Qed.

(** X16. What is credited can be read back.  After a success callback
    with a plain payload and reference and the amount [a], on a balance
    [b] such that [a + b] is a binary64 number, [GET /balance] for the
    identity, in any of its spellings, answers 200 with the balance
    [a + b], and reading changes nothing in the collections. *)
Theorem balance_reports_what_was_credited
    (e : env) (secret data : value) (w : world) (x : Server.extracted)
    (phone ph id : string) (a b : Q) :
  Server.unauthorized e secret = false ->
  Firestore.plain_payload data = true ->
  Server.extract data = Ok x ->
  Server.phone x = Some ph ->
  Server.reference x = VStr id ->
  Firestore.plain_name id = true ->
  Server.amount x = Fin a ->
  (0 < a)%Q ->
  Server.isSuccess data = Ok true ->
  holds_balance w ph b ->
  representable (a + b) ->
  formatPhone (VStr phone) = Ok (Some ph) ->
  let w' := snd (Server.callback e secret data w) in
  exists q transactions,
    fst (Server.balance phone w') = Json 200 (balance_body ph (Fin q) transactions)
    /\ (q == a + b)%Q
    /\ db (snd (Server.balance phone w')) = db w'.
Proof.
  intros Hauth _ Hx Hph Href Hplain Ha Hpos Hs Hb Hmax Hformat. cbv zeta.
  assert (Hid : Firestore.doc_id (Server.reference x) = Ok id) by now apply plain_doc_id.
  assert (Hnan : Js.isNaN (Server.amount x) = false) by now rewrite Ha.
  assert (Hle : Js.le (Server.amount x) Js.zero = false).
  { rewrite Ha. simpl. now apply Qle_bool_false. }
  rewrite (callback_success_branch e secret data w x ph id) by done. cbn [snd].
  set (w' := after_success data x ph id w).
  assert (Hheld : holds_balance w' ph (a + b)) by now apply after_success_holds.
  assert (Hdoc : is_Some (Firestore.users (db w') !! ph)).
  { unfold w', after_success. rewrite broadcast_valid.
    - apply credit_some.
    - destruct (credit_some ph (VNum (Server.amount x))
                  (write_transaction id
                     [("phone", VStr ph); ("amount", VNum (Server.amount x));
                      ("status", VStr "SUCCESS"); ("reference", Server.reference x);
                      ("callback", data); ("updatedAt", serverTimestamp w)] true w))
        as [d Hd].
      apply (holds_balance_valid _ ph (a + b) d Hd). rewrite Ha.
      apply credit_holds; [done | done |]. now apply (holds_balance_eq w). }
  destruct Hdoc as [d Hd]. pose proof Hheld as [Hsum Hbal]. rewrite Hd in Hbal.
  destruct Hbal as (q & Hq & Hqab).
  destruct (stored_balance_valid d q Hq) as (q' & Hq' & Hqq'); [lra|].
  assert (Hinv : Server.invalid (Firestore.users (db w') !! ph) = false).
  { rewrite Hd. apply (valid_not_invalid d q Hq). lra. }
  unfold Server.balance. rewrite Hformat.
  assert (Hsnap : fst (fst (Server.snapshotFor ph w')) = Fin q'
                  /\ db (snd (Server.snapshotFor ph w')) = db w').
  { unfold Server.snapshotFor. simpl db. rewrite Hinv. rewrite Hd. now split. }
  destruct (Server.snapshotFor ph w') as [[bal txs] w2]. cbn [fst snd] in *.
  destruct Hsnap as [-> Hdb].
  exists q', txs. split; [reflexivity|]. split; [lra | exact Hdb].
Qed.

Lemma balance_reports_what_was_credited_witness :
  exists q transactions,
    fst (Server.balance "0712 345 678" paid) = Json 200 (balance_body alice (Fin q) transactions)
    /\ (q == 100 + 0)%Q
    /\ db (snd (Server.balance "0712 345 678" paid)) = db paid.
Proof.
  assert (Hb : holds_balance initiated alice 0).
  { split; [apply Qle_refl|]. exists 0%Q. split; reflexivity. }
  assert (Hr : representable (100 + 0)) by (now apply (representable_integer 100)).
  apply (balance_reports_what_was_credited env_secret (VStr "s3cret") success_payload
           initiated
           {| Server.phone := Some alice; Server.reference := VStr order1;
              Server.rawAmount := VNum (Fin 100); Server.amount := Fin 100 |}
           "0712 345 678" alice order1 100 0
           eq_refl eq_refl eq_refl eq_refl eq_refl eq_refl eq_refl eq_refl eq_refl
           Hb Hr eq_refl).
Defined.

(** ** Reading twice *)

Lemma add_reduced a b q : Js.add a b = Fin q -> Qred q = q.
Proof.
  destruct a as [| | |x], b as [| | |y]; try discriminate.
  apply binary64_reduced.
Qed.

Lemma sum_amounts_reduced docs q : Server.sum_amounts docs = Fin q -> Qred q = q.
Proof.
  unfold Server.sum_amounts.
  assert (H : forall acc, (forall q0, acc = Fin q0 -> Qred q0 = q0) ->
            forall q0,
              fold_left (fun sum d =>
                           Js.add sum (Server.number_or_zero
                                         (Js.parseFloat (Js.get (VObj (snd d)) "amount"))))
                docs acc = Fin q0 -> Qred q0 = q0).
  { induction docs as [|e docs IH]; intros acc Hacc q0; simpl; [apply Hacc|].
    apply IH. intros q1. apply add_reduced. }
  apply H. now intros q0 [= <-].
Qed.

(** The number read back from a balance that [snapshotFor] wrote. *)
Lemma reread n :
  (forall q, n = Fin q -> Qred q = q) ->
  Js.to_number (VNum n ||| VNum Js.zero) = n \/ n = NaN.
Proof.
  intros Hred. unfold Js.or_else. destruct n as [| | |q]; simpl; auto.
  destruct (Qeq_bool q 0) eqn:E; simpl; [|auto].
  left. apply Qeq_bool_iff in E. change (Fin 0 = Fin q). f_equal.
  rewrite <- (Hred q eq_refl). change 0%Q with (Qred 0) at 1.
  apply Qred_complete. now symmetry.
Qed.

(** X17. Reading is idempotent.  When the balance a snapshot returns is
    finite and not negative, a second snapshot returns the same balance
    and the same list and writes nothing: the correcting write happens
    at most once. *)
Theorem snapshot_twice_is_snapshot_once (p : string) (w : world) :
  let first := Server.snapshotFor p w in
  let second := Server.snapshotFor p (snd first) in
  Js.isFinite (fst (fst first)) = true ->
  Js.lt (fst (fst first)) Js.zero = false ->
  fst second = fst first /\ db (snd second) = db (snd first).
Proof.
  cbv zeta. intros Hfin Hlt.
  set (w1 := snd (Server.snapshotFor p w)).
  assert (Hlist : snd (fst (Server.snapshotFor p w1)) = snd (fst (Server.snapshotFor p w))).
  { rewrite !snapshotFor_list.
    assert (Hi : Firestore.index_ready (db w1) = Firestore.index_ready (db w)).
    { unfold w1, Server.snapshotFor. now destruct (Server.invalid _). }
    assert (Hf : Firestore.five_latest p (db w1) = Firestore.five_latest p (db w)).
    { unfold Firestore.five_latest. unfold w1. now rewrite snapshotFor_transactions. }
    now rewrite Hi, Hf. }
  assert (Hbal : Server.invalid (Firestore.users (db w1) !! p) = false
                 /\ Server.stored_balance (Firestore.users (db w1) !! p)
                    = fst (fst (Server.snapshotFor p w))).
  { revert Hfin Hlt. unfold w1, Server.snapshotFor. simpl db.
    destruct (Server.invalid (Firestore.users (db w) !! p)) eqn:Hinv; cbn [fst snd].
    - intros Hfin Hlt. unfold write_user. simpl. rewrite lookup_insert_eq.
      set (sum := Server.sum_amounts _) in *.
      assert (Hst : Server.stored_balance
                      (Some (Firestore.merged
                               [("phone", VStr p); ("balance", VNum sum);
                                ("updatedAt",
                                 serverTimestamp
                                   (log (Read "transactions" "phone, status == SUCCESS")
                                      (log (Read "users" p) w)))]
                               (Firestore.users (db w) !! p))) = sum).
      { unfold Server.stored_balance. set (doc := Firestore.merged _ _).
        assert (Hg : Js.get (VObj doc) "balance" = VNum sum)
          by now apply (get_merged "balance" (VNum sum) [("phone", VStr p)]).
        rewrite Hg.
        destruct (reread sum) as [H|H]; [apply sum_amounts_reduced | done |].
        rewrite H in Hfin. discriminate. }
      split; [|exact Hst]. unfold Server.invalid. rewrite Hst, Hfin, Hlt.
      now rewrite bool_decide_eq_true_2 by eauto.
    - intros _ _. now split. }
  destruct Hbal as [Hinv Hst].
  assert (Hsecond : fst (fst (Server.snapshotFor p w1)) = fst (fst (Server.snapshotFor p w))
                    /\ db (snd (Server.snapshotFor p w1)) = db w1).
  { unfold Server.snapshotFor at 1 3. simpl db. rewrite Hinv. cbn [fst snd]. now split. }
  destruct Hsecond as [H1 H2]. split; [|exact H2].
  destruct (Server.snapshotFor p w1) as [[b2 l2] w2].
  destruct (Server.snapshotFor p w) as [[b1 l1] w1'].
  cbn [fst snd] in *. now subst.
Qed.

Lemma snapshot_twice_is_snapshot_once_witness :
  let first := Server.snapshotFor bob paid in
  Firestore.users (db paid) !! bob = None
  /\ Firestore.users (db (snd first)) !! bob
     = Some [("phone", VStr bob); ("balance", VNum (Fin 0)); ("updatedAt", VTime 1005)]
  /\ fst (Server.snapshotFor bob (snd first)) = fst first
  /\ db (snd (Server.snapshotFor bob (snd first))) = db (snd first).
Proof.
  split; [reflexivity|]. split; [reflexivity|].
  apply (snapshot_twice_is_snapshot_once bob paid); reflexivity.
Defined.

(** ** The manual update *)


(** X19. A manual update of a transaction with a plain reference, by a
    JSON body, to an ASCII status that is not SUCCESS or FAILED,
    whatever the case, only rewrites the status, in upper case: no
    balance changes, no connection is told, the answer is 200.  A
    request that names no status, or a falsy one, is of this kind: it
    replaces the stored status by the empty string. *)
Theorem update_status_other_only_rewrites
    (ref : string) (body st : value) (text : string) (d : obj) (w : world) :
  Firestore.plain_name ref = true ->
  Firestore.transactions (db w) !! ref = Some d ->
  Js.is_json body = true ->
  Js.get_strict body "status" = Ok st ->
  Js.as_string (st ||| VStr "") = Ok text ->
  Js.is_ascii text = true ->
  Js.toUpperCase text <> "SUCCESS" ->
  Js.toUpperCase text <> "FAILED" ->
  let answer := fst (Server.update_status ref body w) in
  let w' := snd (Server.update_status ref body w) in
  (exists o, answer = Json 200 (VObj o) /\ Js.get (VObj o) "success" = VBool true)
  /\ txn_status w' ref = VStr (Js.toUpperCase text)
  /\ (Js.truthy st = false -> txn_status w' ref = VStr "")
  /\ Firestore.users (db w') = Firestore.users (db w)
  /\ sseClients w' = sseClients w
  /\ (forall r, pushes_to r (since w w') = []).
Proof.
  intros _ Hd _ Hst Htext _ Hs Hf. cbv zeta.
  assert (Hstatus : txn_status (snd (Server.update_status ref body w)) ref
                    = VStr (Js.toUpperCase text))
    by now apply (update_status_writes ref body w d st text).
  assert (Hblank : Js.truthy st = false -> text = "").
  { intros Hfalsy. unfold Js.or_else in Htext. rewrite Hfalsy in Htext.
    now injection Htext as <-. }
  revert Hstatus. unfold Server.update_status, Server.update_status_body.
  rewrite Hst. simpl db. rewrite Hd, Htext.
  replace (String.eqb (Js.toUpperCase text) "SUCCESS") with false
    by (symmetry; now apply String.eqb_neq).
  replace (String.eqb (Js.toUpperCase text) "FAILED") with false
    by (symmetry; now apply String.eqb_neq).
  cbn [andb fst snd]. intros Hstatus.
  split; [eexists; split; reflexivity|]. split; [exact Hstatus|].
  split; [intros Hfalsy; rewrite Hstatus; now rewrite (Hblank Hfalsy)|].
  split; [reflexivity|]. split; [reflexivity|].
  intros r. erewrite since_app.
  2: { simpl trace. rewrite <- app_assoc. reflexivity. }
  reflexivity.
Qed.

Lemma update_status_other_only_rewrites_witness :
  txn_status paid order1 = VStr "SUCCESS"
  /\ txn_status (snd (Server.update_status order1 force_pending paid)) order1 = VStr "PENDING"
  /\ txn_status (snd (Server.update_status order1 no_status paid)) order1 = VStr ""
  /\ Firestore.users (db (snd (Server.update_status order1 no_status paid)))
     = Firestore.users (db paid).
Proof.
  assert (Hd : Firestore.transactions (db paid) !! order1 = Some paid_transaction)
    by reflexivity.
  destruct (update_status_other_only_rewrites order1 force_pending (VStr "pending")
              "pending" paid_transaction paid eq_refl Hd eq_refl eq_refl eq_refl eq_refl)
    as (_ & H1 & _); [discriminate | discriminate |].
  destruct (update_status_other_only_rewrites order1 no_status VUndef
              "" paid_transaction paid eq_refl Hd eq_refl eq_refl eq_refl eq_refl)
    as (_ & _ & H2 & H3 & _); [discriminate | discriminate |].
  split; [reflexivity|]. split; [exact H1|]. split; [apply H2; reflexivity | exact H3].
Defined.


Lemma legacy_ignores_missing_ids_witness :
  Legacy.callback env_secret (VStr "s3cret") no_reference_payload initiated
  = (Json 200 (Legacy.ack 0 "Success"), initiated).
Proof.
  apply (legacy_ignores_missing_ids env_secret (VStr "s3cret") no_reference_payload
           initiated (Some alice) (Fin 100) VUndef false);
    [reflexivity | reflexivity | right; reflexivity].
Defined.

(** ** The deployment of [src/server.js]: callback, [/pay], [/balance] *)

(** X22. The callback of [src/server.js] has no FAILED transition: the
    only status it ever writes is SUCCESS.  Whatever the payload, every
    transaction keeps its status or becomes SUCCESS, and one that the
    gateway reports as failed stays as [/pay] left it. *)
Theorem legacy_callback_only_writes_success
    (e : env) (secret data : value) (w : world) (id : string) :
  let w' := snd (Legacy.callback e secret data w) in
  txn_status w' id = txn_status w id \/ txn_status w' id = VStr "SUCCESS".
Proof.
  cbv zeta. unfold Legacy.callback.
  destruct (Legacy.unauthorized e secret); [now left|].
  unfold Legacy.callback_body.
  destruct (Legacy.read data) as [[[[[ph|] amount] reference] [|]]|]; try (now left).
  destruct (Js.truthy reference); [|now left].
  destruct (Firestore.doc_id reference) as [id0|]; [|now left]. cbn [snd].
  destruct (decide (id0 = id)) as [->|Hne].
  - right. rewrite (txn_status_eq _ _ _ (credit_transactions _ _ _)).
    now apply (status_after_write id "SUCCESS" []).
  - left. unfold txn_status. now rewrite credit_transactions, write_transaction_ne.
Qed.

Section LegacyPay.

Variables (e : env) (body : value) (now_ms : Z) (w : world).
Variables (phone amount : value) (formattedPhone : string).

Hypothesis Hphone : Js.get_strict body "phone" = Ok phone.
Hypothesis Hamount : Js.get_strict body "amount" = Ok amount.
Hypothesis Hformat : formatPhone phone = Ok (Some formattedPhone).
Hypothesis Hgiven : Js.truthy amount = true.
Hypothesis Hatleast1 : Js.lt (Js.to_number amount) (Fin 1) = false.

Lemma legacy_pay_runs gw :
  Legacy.pay e body now_ms gw w
  = match gw with
    | GwThrows => (Json 500 (Legacy.failure (VStr "Server error")), (legacy_awaiting e formattedPhone amount now_ms w))
    | GwData data =>
        if Js.truthy (Js.get data "success") then
          if Firestore.storable (Legacy.kept data) then
            (Json 200 (VObj [("success", VBool true);
                             ("message", VStr "STK push sent, check your phone")]),
             write_transaction (order_reference now_ms)
               [("status", VStr "INITIATED"); ("swiftwallet", Legacy.kept data);
                ("updatedAt", serverTimestamp (legacy_awaiting e formattedPhone amount now_ms w))] true (legacy_awaiting e formattedPhone amount now_ms w))
          else (Json 500 (Legacy.failure (VStr "Server error")), (legacy_awaiting e formattedPhone amount now_ms w))
        else
          (Json 400 (Legacy.failure (Js.get data "error" ||| VStr "Payment initiation failed")),
           write_transaction (order_reference now_ms)
             [("status", VStr "FAILED");
              ("error", Js.get data "error" ||| VStr "Payment initiation failed");
              ("updatedAt", serverTimestamp (legacy_awaiting e formattedPhone amount now_ms w))] true (legacy_awaiting e formattedPhone amount now_ms w))
    end.
Proof.
  unfold Legacy.pay, Legacy.pay_body. rewrite Hphone, Hamount. simpl bind.
  rewrite Hformat. simpl bind. cbv iota beta. rewrite Hgiven, Hatleast1.
  simpl orb. cbv iota zeta. destruct gw as [|data]; [done|].
  destruct (Js.truthy (Js.get data "success")); [|done].
  now destruct (Firestore.storable (Legacy.kept data)).
Qed.

Lemma legacy_awaiting_pending : txn_status (legacy_awaiting e formattedPhone amount now_ms w) (order_reference now_ms) = VStr "PENDING".
Proof.
  unfold legacy_awaiting, txn_status, write_transaction. simpl.
  now rewrite lookup_insert_eq.
Qed.

End LegacyPay.

(** X23. The [/pay] of [src/server.js] calls the gateway without a
    timeout.  When the call throws, the handler answers 500 and the
    transaction stays PENDING.  The same happens after the gateway has
    accepted the payment, if its reply lacks one of the six fields that
    are kept: the write of INITIATED is refused.  A reply that has them
    all leaves INITIATED and is answered 200; one that declines leaves
    FAILED and is answered 400. *)
Theorem legacy_pay_outcomes
    (e : env) (body : value) (now_ms : Z) (w : world)
    (phone amount : value) (formattedPhone : string) :
  Js.get_strict body "phone" = Ok phone ->
  Js.get_strict body "amount" = Ok amount ->
  formatPhone phone = Ok (Some formattedPhone) ->
  Js.truthy amount = true ->
  Js.lt (Js.to_number amount) (Fin 1) = false ->
  let id := order_reference now_ms in
  let run gw := Legacy.pay e body now_ms gw w in
  let error := Json 500 (Legacy.failure (VStr "Server error")) in
  (fst (run GwThrows) = error
   /\ txn_status (snd (run GwThrows)) id = VStr "PENDING"
   /\ exists payload, In (Posted Legacy.gateway_url payload None) (since w (snd (run GwThrows))))
  /\ (forall data, Js.truthy (Js.get data "success") = true ->
      if Firestore.storable (Legacy.kept data)
      then (exists o, fst (run (GwData data)) = Json 200 (VObj o))
           /\ txn_status (snd (run (GwData data))) id = VStr "INITIATED"
      else fst (run (GwData data)) = error
           /\ txn_status (snd (run (GwData data))) id = VStr "PENDING")
  /\ (forall data, Js.truthy (Js.get data "success") = false ->
      (exists o, fst (run (GwData data)) = Json 400 (VObj o))
      /\ txn_status (snd (run (GwData data))) id = VStr "FAILED").
Proof.
  intros Hphone Hamount Hformat Hgiven Hatleast1. cbv zeta.
  pose proof (legacy_pay_runs e body now_ms w phone amount formattedPhone
                Hphone Hamount Hformat Hgiven Hatleast1) as Hrun.
  pose proof (legacy_awaiting_pending e now_ms w amount formattedPhone) as Hpending.
  split; [|split].
  - rewrite (Hrun GwThrows). cbn [fst snd]. split; [done|]. split; [exact Hpending|].
    eexists. unfold legacy_awaiting. cbv zeta. erewrite since_app.
    2: { simpl trace. rewrite <- app_assoc. reflexivity. }
    right. now left.
  - intros data Hyes. rewrite (Hrun (GwData data)), Hyes.
    destruct (Firestore.storable (Legacy.kept data)); cbn [fst snd].
    + split; [eexists; reflexivity|]. now apply (status_after_write _ "INITIATED" []).
    + split; [done | exact Hpending].
  - intros data Hno. rewrite (Hrun (GwData data)), Hno. cbn [fst snd].
    split; [eexists; reflexivity|]. now apply (status_after_write _ "FAILED" []).
Qed.

Lemma legacy_pay_outcomes_witness :
  let run gw := Legacy.pay env_secret pay_request 1700000000000 gw empty_world in
  txn_status (snd (run GwThrows)) order1 = VStr "PENDING"
  /\ Firestore.storable (Legacy.kept accepted_in_full) = true
  /\ txn_status (snd (run (GwData accepted_in_full))) order1 = VStr "INITIATED"
  /\ Firestore.storable (Legacy.kept accepted_in_part) = false
  /\ fst (run (GwData accepted_in_part)) = Json 500 (Legacy.failure (VStr "Server error"))
  /\ txn_status (snd (run (GwData accepted_in_part))) order1 = VStr "PENDING".
Proof.
  destruct (legacy_pay_outcomes env_secret pay_request 1700000000000 empty_world
              (VStr "0712345678") (VNum (Fin 100)) alice
              eq_refl eq_refl eq_refl eq_refl eq_refl) as ((_ & H1 & _) & H2 & _).
  pose proof (H2 accepted_in_full eq_refl) as Hfull.
  pose proof (H2 accepted_in_part eq_refl) as Hpart.
  assert (Sfull : Firestore.storable (Legacy.kept accepted_in_full) = true) by reflexivity.
  assert (Spart : Firestore.storable (Legacy.kept accepted_in_part) = false) by reflexivity.
  rewrite Sfull in Hfull. rewrite Spart in Hpart.
  split; [exact H1|]. split; [exact Sfull|]. split; [apply Hfull|].
  split; [exact Spart|]. exact Hpart.
Defined.

Lemma legacy_render_timed te :
  timed te ->
  Legacy.render (snd te)
  = Ok (VObj [("id", VStr (fst (snd te)));
              ("amount", Js.get (VObj (snd (snd te))) "amount");
              ("status", Js.get (VObj (snd (snd te))) "status");
              ("createdAt", VTime (fst te))]).
Proof.
  unfold timed, Firestore.created_at, Legacy.render. intros Ht.
  assert (Hc : Js.get (VObj (snd (snd te))) "createdAt" = VTime (fst te)).
  { unfold Js.get. destruct (Js.lookup_field _ _) as [[]|]; try discriminate.
    now injection Ht as ->. }
  now rewrite Hc.
Qed.

Lemma legacy_render_all_timed l :
  Forall timed l ->
  exists xs, Legacy.render_all (map snd l) = Ok xs /\ length xs = length l.
Proof.
  induction 1 as [|te l Ht _ (xs & IH & Hlen)]; simpl; [now exists []|].
  rewrite (legacy_render_timed te Ht), IH. simpl. eexists. split; [reflexivity|].
  simpl. now rewrite Hlen.
Qed.

(** X24. The [/balance] of [src/server.js] only reads: it stores
    nothing, whatever it finds.  It reports the stored balance as it is,
    0 when it is missing or falsy, with at most 5 transactions.  Without
    the index of the ordered query the read throws, and as the handler
    has no [try] no reply is produced. *)
Theorem legacy_balance_only_reads (phone ph : string) (w : world) :
  formatPhone (VStr phone) = Ok (Some ph) ->
  let answer := fst (Legacy.balance phone w) in
  let w' := snd (Legacy.balance phone w) in
  let stored :=
    match Firestore.users (db w) !! ph with
    | Some d => Js.get (VObj d) "balance" ||| VNum Js.zero
    | None => VNum Js.zero
    end in
  db w' = db w
  /\ sseClients w' = sseClients w
  /\ (Firestore.index_ready (db w) = false -> exists m, answer = Throw m)
  /\ (Firestore.index_ready (db w) = true ->
      exists transactions,
        answer = Ok (Json 200 (VObj [("phone", VStr ph); ("balance", stored);
                                     ("transactions", VArr transactions)]))
        /\ (length transactions <= 5)%nat).
Proof.
  intros Hph. cbv zeta. unfold Legacy.balance. rewrite Hph. simpl db.
  unfold Firestore.latest_of.
  destruct (Firestore.index_ready (db w)); simpl bind.
  - destruct (legacy_render_all_timed (Firestore.five_latest ph (db w)))
      as (xs & Hxs & Hlen); [apply five_latest_timed|].
    rewrite Hxs. cbn [fst snd]. split; [done|]. split; [done|]. split; [discriminate|].
    intros _. exists xs. split; [done|]. rewrite Hlen.
    unfold Firestore.five_latest. apply firstn_le_length.
  - cbn [fst snd]. split; [done|]. split; [done|]. split; [eauto | discriminate].
Qed.

Lemma legacy_balance_only_reads_witness :
  (exists transactions,
     fst (Legacy.balance "0712345678" paid)
     = Ok (Json 200 (VObj [("phone", VStr alice); ("balance", VNum (Fin 100));
                           ("transactions", VArr transactions)])))
  /\ exists m, fst (Legacy.balance "0712345678" unindexed) = Throw m.
Proof.
  destruct (legacy_balance_only_reads "0712345678" alice paid eq_refl) as (_ & _ & _ & H1).
  destruct (legacy_balance_only_reads "0712345678" alice unindexed eq_refl)
    as (_ & _ & H2 & _).
  split.
  - destruct (H1 eq_refl) as (txs & Htxs & _). exists txs. exact Htxs.
  - apply H2. reflexivity.
Defined.

(** ** The other deployments of [src/unnamed/part_000] *)

(** X25. The first [/pay] records the request and never comes back to
    it: the gateway is called without a timeout, and whether it accepts,
    declines or the call throws, the world is the one of the moment of
    the call and the transaction is PENDING. *)
Theorem first_pay_leaves_pending
    (e : env) (body : value) (now_ms : Z) (gw : gateway) (w : world)
    (phone amount : value) (formattedPhone : string) :
  Js.get_strict body "phone" = Ok phone ->
  Js.get_strict body "amount" = Ok amount ->
  formatPhone phone = Ok (Some formattedPhone) ->
  Js.truthy amount = true ->
  Js.lt (Js.to_number amount) (Fin 1) = false ->
  let w' := snd (First.pay e body now_ms gw w) in
  w' = first_awaiting e formattedPhone amount now_ms w
  /\ txn_status w' (order_reference now_ms) = VStr "PENDING"
  /\ (exists payload, In (Posted First.gateway_url payload None) (since w w'))
  /\ fst (First.pay e body now_ms gw w)
     = match gw with
       | GwThrows => Json 500 (First.failure (VStr "Server error"))
       | GwData data =>
           if Js.truthy (Js.get data "success")
           then Json 200 (VObj [("success", VBool true);
                                ("message", VStr "STK push sent, check your phone")])
           else Json 400 (First.failure
                            (Js.get data "error" ||| VStr "Payment initiation failed"))
       end.
Proof.
  intros Hphone Hamount Hformat Hgiven Hatleast1. cbv zeta.
  assert (Hrun : First.pay e body now_ms gw w
                 = (match gw with
                    | GwThrows => Json 500 (First.failure (VStr "Server error"))
                    | GwData data =>
                        if Js.truthy (Js.get data "success")
                        then Json 200 (VObj [("success", VBool true);
                                             ("message", VStr "STK push sent, check your phone")])
                        else Json 400 (First.failure
                                         (Js.get data "error" ||| VStr "Payment initiation failed"))
                    end, first_awaiting e formattedPhone amount now_ms w)).
  { unfold First.pay, First.pay_body. rewrite Hphone, Hamount. simpl bind.
    rewrite Hformat. simpl bind. cbv iota beta. rewrite Hgiven, Hatleast1.
    simpl orb. cbv iota zeta. destruct gw as [|data]; [done|].
    now destruct (Js.truthy (Js.get data "success")). }
  rewrite Hrun. cbn [fst snd]. split; [done|]. split; [|split; [|done]].
  - unfold first_awaiting, txn_status, write_transaction. simpl.
    now rewrite lookup_insert_eq.
  - eexists. unfold first_awaiting. cbv zeta. erewrite since_app.
    2: { simpl trace. rewrite <- app_assoc. reflexivity. }
    right. now left.
Qed.

Lemma first_pay_leaves_pending_witness :
  txn_status (snd (First.pay env_secret pay_request 1700000000000 declined empty_world)) order1
  = VStr "PENDING"
  /\ txn_status (snd (First.pay env_secret pay_request 1700000000000 accepted empty_world)) order1
     = VStr "PENDING".
Proof.
  split.
  - apply (first_pay_leaves_pending env_secret pay_request 1700000000000 declined empty_world
             (VStr "0712345678") (VNum (Fin 100)) alice
             eq_refl eq_refl eq_refl eq_refl eq_refl).
  - apply (first_pay_leaves_pending env_secret pay_request 1700000000000 accepted empty_world
             (VStr "0712345678") (VNum (Fin 100)) alice
             eq_refl eq_refl eq_refl eq_refl eq_refl).
Defined.

(** X26. The callbacks of the first and of the third deployment are
    guarded like the others: with a secret configured, a request whose
    [secret] differs from it is answered 401 with result code 1 and the
    world is untouched; with none configured every request is
    processed. *)
Theorem other_callbacks_check_the_secret
    (e : env) (s : string) (secret data : value) (w : world) :
  (CALLBACK_SECRET e = Some s -> s <> "" -> secret <> VStr s ->
   First.callback e secret data w = (Json 401 (First.ack 1 "Unauthorized"), w)
   /\ Third.callback e secret data w = (Json 401 (Third.ack 1 "Unauthorized"), w))
  /\ (secret_missing e ->
      First.callback e secret data w
      = match First.callback_body data w with
        | (Ok r, w') => (r, w')
        | (Throw _, w') => (Json 500 (First.ack 1 "Failed"), w')
        end
      /\ Third.callback e secret data w
         = match Third.callback_body data w with
           | (Ok r, w') => (r, w')
           | (Throw _, w') => (Json 500 (Third.ack 1 "Failed"), w')
           end).
Proof.
  split.
  - intros He Hs Hne. unfold First.callback, First.unauthorized,
      Third.callback, Third.unauthorized.
    now rewrite He, (truthy_str _ Hs), (is_str_false _ _ Hne).
  - intros Hmiss. unfold First.callback, First.unauthorized,
      Third.callback, Third.unauthorized.
    now destruct Hmiss as [-> | ->].
Qed.

(** X27. The success test of the third deployment calls [toLowerCase]
    on whatever status it finds.  When the flag is not [true] and the
    status is truthy but not a string, a number for instance, the test
    throws: the callback is answered 500 with result code 1 and nothing
    is recorded. *)
Theorem third_callback_fails_on_status_code
    (e : env) (secret : value) (o : obj) (w : world) :
  Third.unauthorized e secret = false ->
  Js.get (VObj o) "success" <> VBool true ->
  Js.truthy (Third.status_of (VObj o)) = true ->
  (forall s, Third.status_of (VObj o) <> VStr s) ->
  (exists m, Third.isSuccess (VObj o) = Throw m)
  /\ Third.callback e secret (VObj o) w = (Json 500 (Third.ack 1 "Failed"), w).
Proof.
  intros Hauth Hflag Htruthy Hns.
  assert (Hthrow : Third.isSuccess (VObj o) = Throw "TypeError: not a function").
  { unfold Third.isSuccess.
    change (Js.get_strict (VObj o) "success") with (Ok (Js.get (VObj o) "success")).
    unfold bind at 1.
    destruct (Js.is_true (Js.get (VObj o) "success")) eqn:E.
    { apply is_true_iff in E. done. }
    rewrite Htruthy. destruct (Third.status_of (VObj o)); try done. now destruct (Hns s). }
  split; [eauto|].
  unfold Third.callback, Third.callback_body, Third.read. rewrite Hauth, Hthrow.
  destruct (Legacy.or_field _ _ "phone_number") as [rawPhone|]; [|reflexivity].
  unfold bind at 1. destruct (formatPhone rawPhone); [|reflexivity].
  unfold bind at 1. now destruct (Legacy.or_field _ _ "amount").
Qed.

Lemma third_callback_fails_on_status_code_witness :
  Third.status_of status_code_payload = VNum (Fin 1)
  /\ Third.callback env_secret (VStr "s3cret") status_code_payload initiated
     = (Json 500 (Third.ack 1 "Failed"), initiated)
  /\ Server.isSuccess status_code_payload = Ok false.
Proof.
  split; [reflexivity|]. split; [|reflexivity].
  apply (third_callback_fails_on_status_code env_secret (VStr "s3cret")
           [("external_reference", VStr order1); ("phone_number", VStr alice);
            ("amount", VNum (Fin 100)); ("status", VNum (Fin 1))] initiated);
    [reflexivity | discriminate | reflexivity | discriminate].
Defined.

Lemma third_render_timed te :
  timed te ->
  Third.render (snd te)
  = Ok (VObj [("id", VStr (fst (snd te)));
              ("amount", Js.get (VObj (snd (snd te))) "amount");
              ("status", Js.get (VObj (snd (snd te))) "status");
              ("createdAt", VTime (fst te))]).
Proof.
  unfold timed, Firestore.created_at, Third.render. intros Ht.
  assert (Hc : Js.get (VObj (snd (snd te))) "createdAt" = VTime (fst te)).
  { unfold Js.get. destruct (Js.lookup_field _ _) as [[]|]; try discriminate.
    now injection Ht as ->. }
  now rewrite Hc.
Qed.

(** What [/balance] answers is read off the collections alone. *)
Lemma third_balance_runs phone ph w :
  formatPhone (VStr phone) = Ok (Some ph) ->
  exists w',
    Third.balance phone w
    = (Json 200
         (VObj [("success", VBool true); ("phone", VStr ph);
                ("balance",
                 if Js.is_num_zero (stored_or_zero (Firestore.users (db w) !! ph))
                 then Third.sum_amounts (Firestore.successful_of ph (db w))
                 else stored_or_zero (Firestore.users (db w) !! ph));
                ("transactions",
                 VArr match (do docs <- Firestore.latest_of ph (db w);
                             Third.render_all docs) with
                      | Ok l => l
                      | Throw _ => []
                      end)]), w')
    /\ db w' = db w /\ sseClients w' = sseClients w.
Proof.
  intros Hph. unfold Third.balance. rewrite Hph.
  change (match Firestore.users (db w) !! ph with
          | Some d => Js.get (VObj d) "balance" ||| VNum Js.zero
          | None => VNum Js.zero
          end) with (stored_or_zero (Firestore.users (db w) !! ph)).
  destruct (Js.is_num_zero (stored_or_zero (Firestore.users (db w) !! ph)));
    eexists; (split; [reflexivity|]); now split.
Qed.

(** X28. The [/balance] of the third deployment only reads.  It
    reports the stored balance unless that is missing, falsy or 0; then
    it reports the sum of the amounts of the identity's SUCCESS
    transactions instead, and stores nothing, so the same sum is
    recomputed on every request.  It is answered 200 in both cases. *)
Theorem third_balance_falls_back (phone ph : string) (w : world) :
  formatPhone (VStr phone) = Ok (Some ph) ->
  let stored := stored_or_zero (Firestore.users (db w) !! ph) in
  let answer := fst (Third.balance phone w) in
  let w' := snd (Third.balance phone w) in
  db w' = db w
  /\ sseClients w' = sseClients w
  /\ (exists o, answer = Json 200 (VObj o)
                /\ Js.get (VObj o) "phone" = VStr ph
                /\ Js.get (VObj o) "balance"
                   = if Js.is_num_zero stored
                     then Third.sum_amounts (Firestore.successful_of ph (db w))
                     else stored)
  /\ fst (Third.balance phone w') = answer.
Proof.
  intros Hph. cbv zeta.
  destruct (third_balance_runs phone ph w Hph) as (w1 & Hrun & Hdb & Hreg).
  destruct (third_balance_runs phone ph w1 Hph) as (w2 & Hrun2 & _ & _).
  rewrite Hrun. cbn [fst snd]. split; [exact Hdb|]. split; [exact Hreg|]. split.
  - eexists. split; [reflexivity|]. now split.
  - rewrite Hrun2. cbn [fst]. now rewrite Hdb.
Qed.

Lemma third_balance_falls_back_witness :
  Firestore.users (db balance_missing) !! alice = Some [("phone", VStr alice)]
  /\ Third.sum_amounts (Firestore.successful_of alice (db balance_missing)) = VNum (Fin 100)
  /\ db (snd (Third.balance "0712345678" balance_missing)) = db balance_missing
  /\ exists o, fst (Third.balance "0712345678" balance_missing) = Json 200 (VObj o)
               /\ Js.get (VObj o) "balance" = VNum (Fin 100).
Proof.
  assert (Hsum : Third.sum_amounts (Firestore.successful_of alice (db balance_missing))
                 = VNum (Fin 100)) by reflexivity.
  destruct (third_balance_falls_back "0712345678" alice balance_missing eq_refl)
    as (Hdb & _ & (o & Ho & _ & Hbal) & _).
  split; [reflexivity|]. split; [exact Hsum|]. split; [exact Hdb|].
  exists o. split; [exact Ho|]. rewrite Hbal, <- Hsum. reflexivity.
Defined.
